(** * monitor_status_lite: a shallow embedding and its checked properties

    The plugin samples host and process metrics and reports them as a drawn
    dashboard or as text.  This development embeds

    - [plugin.py]: [format_duration], [get_disk_info], the [MEMORY_HISTORY]
      deque with its recorder task, and the [status] and [mem] commands;
    - [image_generator.py]: [MonitorImageGenerator] ([generate], the card
      drawing helpers and [_get_usage_color]).

    Python values are modelled as the interpreter has them: [int] as [Z],
    [float] as the kernel's binary64 [float], [str] as [string] (UTF-8 bytes),
    exceptions as an explicit [result], and the mutable drawing surface and
    the chat API as logs threaded through the code. *)

From Stdlib Require Import ZArith List String Ascii Bool Lia.
From Stdlib Require Import Floats.
From Stdlib Require Uint63 DecimalString.
Import ListNotations.

Local Open Scope string_scope.
Local Open Scope list_scope.
Local Open Scope Z_scope.

(* ================================================================== *)
(** * Python runtime: exceptions, strings, lists *)
(* ================================================================== *)

Module Py.

(** An exception carries the text that [str(e)] yields.  Its class matters
    at one place, line 36 of image_generator.py, which catches [OSError]
    and its subclasses only: [OSError] stands for those classes and
    [Exception] for every other one.  Both are caught by [except Exception]
    and by a bare [except]. *)
Inductive exn : Type :=
| Exception (msg : string)
| OSError (msg : string).

(** [str(e)] *)
Definition str_exn (e : exn) : string :=
  match e with
  | Exception msg => msg
  | OSError msg => msg
  end.

Inductive result (A : Type) : Type :=
| Ok (a : A)
| Raise (e : exn).
Arguments Ok {A} a.
Arguments Raise {A} e.

Definition bind {A B : Type} (m : result A) (k : A -> result B) : result B :=
  match m with
  | Ok a => k a
  | Raise e => Raise e
  end.

(** [try: body / except: handler], and the same with [except Exception]. *)
Definition try_except {A : Type} (body : result A) (handler : exn -> result A)
  : result A :=
  match body with
  | Ok a => Ok a
  | Raise e => handler e
  end.

(** [try: body / except OSError: handler]: another exception leaves the
    statement. *)
Definition try_except_OSError {A : Type} (body : result A)
    (handler : exn -> result A) : result A :=
  match body with
  | Ok a => Ok a
  | Raise (OSError msg) => handler (OSError msg)
  | Raise (Exception msg) => Raise (Exception msg)
  end.

(** [str(n)] and [f"{n}"] for an [int]. *)
Definition str_int (n : Z) : string :=
  DecimalString.NilZero.string_of_int (Z.to_int n).

(** [not parts] for a list. *)
Definition is_empty {A : Type} (l : list A) : bool :=
  match l with
  | [] => true
  | _ :: _ => false
  end.

(** [l[-k:]] for [0 < k]. *)
Definition lastn {A : Type} (k : nat) (l : list A) : list A :=
  skipn (List.length l - k)%nat l.

(** [s.lower()], on the ASCII letters.  No character outside ASCII lowers to
    one of the letters of ["cdrom"], the only text the plugin searches for,
    and a UTF-8 multi-byte sequence holds no ASCII byte. *)
Definition lower_ascii (c : ascii) : ascii :=
  let n := nat_of_ascii c in
  if (Nat.leb 65 n && Nat.leb n 90)%bool then ascii_of_nat (n + 32) else c.

Fixpoint lower (s : string) : string :=
  match s with
  | EmptyString => EmptyString
  | String c t => String (lower_ascii c) (lower t)
  end.

(** [needle in hay] for two strings. *)
Fixpoint contains (needle hay : string) : bool :=
  (String.prefix needle hay ||
   match hay with
   | EmptyString => false
   | String _ t => contains needle t
   end)%bool.

(** [s.replace(c, '')] for a one-character [c]. *)
Fixpoint remove_char (c : ascii) (s : string) : string :=
  match s with
  | EmptyString => EmptyString
  | String a t =>
      if Ascii.eqb a c then remove_char c t else String a (remove_char c t)
  end.

(** [s.strip()], on ASCII whitespace. *)
Definition is_space (c : ascii) : bool :=
  let n := nat_of_ascii c in
  (Nat.eqb n 32 || (Nat.leb 9 n && Nat.leb n 13))%bool.

Fixpoint lstrip (s : string) : string :=
  match s with
  | EmptyString => EmptyString
  | String c t => if is_space c then lstrip t else s
  end.

Fixpoint rstrip (s : string) : string :=
  match s with
  | EmptyString => EmptyString
  | String c t =>
      match rstrip t with
      | EmptyString => if is_space c then EmptyString else String c EmptyString
      | t' => String c t'
      end
  end.

Definition strip (s : string) : string := rstrip (lstrip s).

(** ** Floats *)

(** The binary64 number nearest to m * 2^e, ties to even; an infinity
    beyond the range of the format.  This is the rounding of the format,
    as in the specification of the float operations. *)
Definition rounded (m e : Z) : spec_float :=
  binary_normalize prec emax m e false.

(** The float nearest to the integer [n]. *)
Definition nearest (n : Z) : float := SF2Prim (rounded n 0).

(** A rounded result as Python returns it: [OverflowError] where the
    rounding left the range. *)
Definition checked (q : spec_float) (msg : string) : result float :=
  match q with
  | S754_infinity _ => Raise (Exception msg)
  | _ => Ok (SF2Prim q)
  end.

(** [float(n)] for an [int] of any size, also where Python converts an
    [int] operand of a float operation: the nearest float, and
    [OverflowError] beyond the range. *)
Definition float_of_int (n : Z) : result float :=
  checked (rounded n 0) "int too large to convert to float".

(** The quotient of two integers, rounded once to binary64 (ties to even):
    the division of the format, on the integers as mantissas. *)
Definition quotient (a b : Z) : spec_float :=
  if a =? 0 then S754_zero (b <? 0)
  else
    let '(mz, ez, lz) := SFdiv_core_binary prec emax (Z.abs a) 0 (Z.abs b) 0 in
    binary_round_aux prec emax (xorb (a <? 0) (b <? 0)) mz ez lz.

(** [a / b] for two [int]s of any size: the correctly rounded quotient;
    Python raises on a zero divisor and on a quotient beyond the range. *)
Definition int_truediv (a b : Z) : result float :=
  if b =? 0 then Raise (Exception "division by zero")
  else checked (quotient a b) "integer division result too large for a float".

(** [a / b] for two floats: Python raises on a zero divisor. *)
Definition truediv (a b : float) : result float :=
  if (b =? 0)%float then Raise (Exception "float division by zero")
  else Ok (a / b)%float.

(** [a / n] for a float and an [int]: the [int] is converted first. *)
Definition truediv_int (a : float) (n : Z) : result float :=
  bind (float_of_int n) (fun b => truediv a b).

(** The record of [k] halvings of the exact integer [N], as the rounding
    of the format keeps it (the quotient, the last bit shifted out, and
    whether a lower bit was set); [- k] doublings for a negative [k]. *)
Definition shifted (N k : Z) : shr_record :=
  match k with
  | Z0 => {| shr_m := N; shr_r := false; shr_s := false |}
  | Zpos q => iter_pos shr_1 q {| shr_m := N; shr_r := false; shr_s := false |}
  | Zneg q => {| shr_m := N * 2 ^ Zpos q; shr_r := false; shr_s := false |}
  end.

(** [int(x)]: truncation toward zero; NaN and the infinities raise. *)
Definition int_of_float (x : float) : result Z :=
  match Prim2SF x with
  | S754_nan => Raise (Exception "cannot convert float NaN to integer")
  | S754_infinity _ => Raise (Exception "cannot convert float infinity to integer")
  | S754_zero _ => Ok 0
  | S754_finite s m e => Ok (cond_Zopp s (Z.shiftl (Zpos m) e))
  end.

(** [sum(l)]: accumulation from the left, starting at 0.  (CPython from
    3.12 on carries a compensation term beside the running sum; the model
    is the plain accumulation.) *)
Definition py_sum (l : list float) : float :=
  fold_left PrimFloat.add l 0%float.

(** [max(l)] keeps the first item and replaces it by each later item that
    compares greater; [min(l)] likewise with less.  Both raise on []. *)
Definition py_max (l : list float) : result float :=
  match l with
  | [] => Raise (Exception "max() iterable argument is empty")
  | x :: t => Ok (fold_left (fun m y => if (m <? y)%float then y else m) t x)
  end.

Definition py_min (l : list float) : result float :=
  match l with
  | [] => Raise (Exception "min() iterable argument is empty")
  | x :: t => Ok (fold_left (fun m y => if (y <? m)%float then y else m) t x)
  end.

(** [l[-1]]. *)
Definition last_item (l : list float) : result float :=
  match rev l with
  | [] => Raise (Exception "deque index out of range")
  | x :: _ => Ok x
  end.

(** A float that is not a NaN: every sample and percentage psutil gives. *)
Definition not_nan (x : float) : Prop := is_nan x = false.

(** The order of the non-NaN binary64 values, read off their sign, exponent
    and mantissa: [SFcompare] is the lexicographic order of these keys. *)
Definition rank (f : spec_float) : Z * Z * Z :=
  match f with
  | S754_nan => (0, 0, 0)
  | S754_zero _ => (0, 0, 0)
  | S754_infinity true => (-2, 0, 0)
  | S754_infinity false => (2, 0, 0)
  | S754_finite true m e => (-1, - e, Zneg m)
  | S754_finite false m e => (1, e, Zpos m)
  end.

Definition lex3 (a b : Z * Z * Z) : comparison :=
  let '(a1, a2, a3) := a in
  let '(b1, b2, b3) := b in
  match a1 ?= b1 with
  | Eq => match a2 ?= b2 with
          | Eq => a3 ?= b3
          | c => c
          end
  | c => c
  end.

(** ** f-strings

    An f-string is its sequence of literal pieces and formatted values; the
    values keep their format specification, so that a float is not rounded
    to decimal digits inside the model. *)
Inductive frag : Type :=
| Lit (s : string)                  (* literal text *)
| FStr (s : string)                 (* {s}, a str *)
| FInt (n : Z)                      (* {n}, an int *)
| FFloat (x : float)                (* {x}, a float: its repr *)
| FFixed (digits : nat) (x : float) (* {x:.1f}, {x:.0f} *).

Definition text : Type := list frag.

(** [t.strip()] for an f-string whose first and last pieces are literals
    that hold a character other than white space, as both report templates
    of the plugin are. *)
Definition lstrip_text (t : text) : text :=
  match t with
  | Lit s :: r => Lit (lstrip s) :: r
  | _ => t
  end.

Definition rstrip_text (t : text) : text :=
  match rev t with
  | Lit s :: r => rev r ++ [Lit (rstrip s)]
  | _ => t
  end.

Definition strip_text (t : text) : text := rstrip_text (lstrip_text t).

(** A value that is an [int] or a [str], and its [str()]. *)
Inductive pyvalue : Type :=
| VInt (n : Z)
| VStr (s : string).

Definition str_value (v : pyvalue) : text :=
  match v with
  | VInt n => [FInt n]
  | VStr s => [FStr s]
  end.

(** Truth value of a formatted string: it is not empty. *)
Definition frag_nonempty (f : frag) : bool :=
  match f with
  | Lit s | FStr s => negb (String.eqb s EmptyString)
  | FInt _ | FFloat _ | FFixed _ _ => true
  end.

Definition text_truthy (t : text) : bool := existsb frag_nonempty t.

(** [d.get(key, default)] on a key that may be absent. *)
Definition get {A : Type} (v : option A) (default : A) : A :=
  match v with
  | Some a => a
  | None => default
  end.

End Py.

Import Py.

(* ================================================================== *)
(** * [format_duration] (plugin.py) *)
(* ================================================================== *)

Module Duration.

Definition format_duration (seconds : Z) : string :=
  if seconds <? 0 then "N/A"
  else
    let days := seconds / 86400 in
    let hours := (seconds mod 86400) / 3600 in
    let minutes := (seconds mod 3600) / 60 in
    let secs := seconds mod 60 in
    let parts := [] in
    let parts := if days >? 0 then parts ++ [(str_int days ++ "天")%string] else parts in
    let parts := if hours >? 0 then parts ++ [(str_int hours ++ "小时")%string] else parts in
    let parts := if minutes >? 0 then parts ++ [(str_int minutes ++ "分")%string] else parts in
    let parts :=
      if ((secs >? 0) || is_empty parts)%bool
      then parts ++ [(str_int secs ++ "秒")%string] else parts in
    String.concat "" (firstn 3 parts).

(** The reading of the result that the specification gives. *)
Inductive unit_kind : Type := Days | Hours | Minutes | Seconds.

Definition suffix (u : unit_kind) : string :=
  match u with
  | Days => "天"
  | Hours => "小时"
  | Minutes => "分"
  | Seconds => "秒"
  end.

(** One unit component: the magnitude in decimal, then the unit. *)
Definition component (c : Z * unit_kind) : string :=
  (str_int (fst c) ++ suffix (snd c))%string.

(** The four units of a duration, most significant first. *)
Definition units (d : Z) : list (Z * unit_kind) :=
  [ (d / 86400, Days); (d / 3600 mod 24, Hours);
    (d / 60 mod 60, Minutes); (d mod 60, Seconds) ].

Definition nonzero (c : Z * unit_kind) : bool := 0 <? fst c.

(** The (at most three) most significant non-zero units. *)
Definition significant (d : Z) : list (Z * unit_kind) :=
  firstn 3 (filter nonzero (units d)).

(** Seconds that a list of unit components stands for. *)
Definition weight (u : unit_kind) : Z :=
  match u with
  | Days => 86400
  | Hours => 3600
  | Minutes => 60
  | Seconds => 1
  end.

Definition total (cs : list (Z * unit_kind)) : Z :=
  fold_right (fun c acc => fst c * weight (snd c) + acc) 0 cs.

End Duration.

(* ================================================================== *)
(** * The chat API of a command *)
(* ================================================================== *)

Module Chat.

(** What a command handed to the host's messaging API, oldest first. *)
Inductive sent : Type :=
| SendText (t : text)
| SendImage (b64 : string).

(** A command's result: success flag, status message, whether the host
    should treat the output as notable. *)
Definition reply : Type := (bool * string * bool)%type.

End Chat.

Import Chat.

(* ================================================================== *)
(** * [MEMORY_HISTORY] and the recorder task (plugin.py) *)
(* ================================================================== *)

Module History.

(** [MEMORY_HISTORY = deque(maxlen=60)] *)
Definition maxlen : nat := 60.

(** [deque.append] on a bounded deque: the item goes to the right end, and
    an item leaves the left end when the bound is exceeded. *)
Definition deque_append (d : list float) (x : float) : list float :=
  let d' := d ++ [x] in
  if (maxlen <? List.length d')%nat then tl d' else d'.

(** [process.memory_info().rss / 1024 / 1024]; [rss] is what psutil
    returned, or the exception it raised. *)
Definition sample_memory (rss : result Z) : result float :=
  bind rss (fun r =>
  bind (int_truediv r 1024) (fun kb =>
  Ok (kb / 1024)%float)).

(** One turn of the [while True] loop of [_memory_recorder], up to its
    [await asyncio.sleep(60)]. *)
Definition recorder_iteration (rss : result Z) (history : list float)
  : list float :=
  match
    try_except
      (bind (sample_memory rss) (fun mem => Ok (deque_append history mem)))
      (fun _ => Ok history)
  with
  | Ok h => h
  | Raise _ => history
  end.

(** The loop, run for as many turns as there are sampling outcomes. *)
Definition _memory_recorder (samples : list (result Z)) (history : list float)
  : list float :=
  fold_left (fun h rss => recorder_iteration rss h) samples history.

End History.

(* ================================================================== *)
(** * [MemoryAnalysisCommand.execute] (plugin.py) *)
(* ================================================================== *)

Module Mem.

Import History.

(** The values the handler computes before it builds its message. *)
Record stats : Type := {
  current : float;
  avg : float;
  max_mem : float;
  min_mem : float;
  trend_str : string
}.

Definition MARKED_INCREASE : string := "↗️ 明显上升 (可能存在泄漏)".
Definition SLOW_INCREASE : string := "↗️ 缓慢上升".
Definition MARKED_DECREASE : string := "↘️ 明显下降".
Definition SLOW_DECREASE : string := "↘️ 缓慢下降".
Definition STABLE : string := "➡️ 相对平稳".
Definition COLLECTING : string := "🔄 数据收集中...".

(** Lines 259-275: the trend of a buffer. *)
Definition trend (history : list float) : result string :=
  let trend_str := STABLE in
  if (5 <=? List.length history)%nat then
    let history_list := history in
    bind (truediv_int (py_sum (lastn 5 history_list))
                      (Z.of_nat (List.length (lastn 5 history_list))))
      (fun recent_avg =>
    bind (truediv_int (py_sum (firstn 5 history_list))
                      (Z.of_nat (List.length (firstn 5 history_list))))
      (fun old_avg =>
    let diff := (recent_avg - old_avg)%float in
    Ok (if (10 <? diff)%float then MARKED_INCREASE
        else if (2 <? diff)%float then SLOW_INCREASE
        else if (diff <? -10)%float then MARKED_DECREASE
        else if (diff <? -2)%float then SLOW_DECREASE
        else trend_str)))
  else Ok COLLECTING.

(** Lines 252-275. *)
Definition analyse (history : list float) : result stats :=
  bind (last_item history) (fun current =>
  bind (truediv_int (py_sum history) (Z.of_nat (List.length history)))
    (fun avg =>
  bind (py_max history) (fun max_mem =>
  bind (py_min history) (fun min_mem =>
  bind (trend history) (fun trend_str =>
  Ok {| current := current; avg := avg; max_mem := max_mem;
        min_mem := min_mem; trend_str := trend_str |}))))).

(** Lines 277-286: the message, before [strip]. *)
Definition report (n : nat) (st : stats) : text :=
  [ Lit "
🧠 **内存分析报告** (近 "; FInt (Z.of_nat n); Lit " 分钟)
------------------
当前: "; FFixed 1 (current st); Lit " MB
平均: "; FFixed 1 (avg st); Lit " MB
峰值: "; FFixed 1 (max_mem st); Lit " MB
趋势: "; FStr (trend_str st); Lit "
------------------
* 数据每分钟自动采集一次
" ].

(** Lines 240-247: one sampling, attempted when the buffer is empty. *)
Definition sample_if_empty (rss : result Z) (history : list float)
  : list float :=
  if is_empty history then
    match
      try_except
        (bind (sample_memory rss) (fun mem => Ok (deque_append history mem)))
        (fun _ => Ok history)
    with
    | Ok h => h
    | Raise _ => history
    end
  else history.

(** The handler body.  It takes the outcome of the one sampling it may
    attempt and the buffer, and returns the buffer, the messages sent and
    the reply, or the exception that escaped. *)
Definition execute (rss : result Z) (history : list float)
  : result (list float * list sent * reply) :=
  let history := sample_if_empty rss history in
  if is_empty history then Ok (history, [], (true, "❌ 暂无内存数据", false))
  else
    bind (analyse history) (fun st =>
    let msg := report (List.length history) st in
    Ok (history, [SendText (strip_text msg)], (true, "内存分析已发送", true))).

(** ** The statistics as the specification words them *)

(** The mean of a window, in the float arithmetic of the program. *)
Definition mean (l : list float) : float :=
  (py_sum l / nearest (Z.of_nat (List.length l)))%float.

Definition is_maximum (m : float) (l : list float) : Prop :=
  In m l /\ forall x, In x l -> (x <=? m)%float = true.

Definition is_minimum (m : float) (l : list float) : Prop :=
  In m l /\ forall x, In x l -> (m <=? x)%float = true.

(** The threshold table: the bucket of a difference of window means. *)
Inductive bucket (diff : float) : string -> Prop :=
| bucket_marked_increase :
    (10 <? diff)%float = true -> bucket diff MARKED_INCREASE
| bucket_slow_increase :
    (10 <? diff)%float = false -> (2 <? diff)%float = true ->
    bucket diff SLOW_INCREASE
| bucket_marked_decrease :
    (10 <? diff)%float = false -> (2 <? diff)%float = false ->
    (diff <? -10)%float = true -> bucket diff MARKED_DECREASE
| bucket_slow_decrease :
    (10 <? diff)%float = false -> (2 <? diff)%float = false ->
    (diff <? -10)%float = false -> (diff <? -2)%float = true ->
    bucket diff SLOW_DECREASE
| bucket_stable :
    (10 <? diff)%float = false -> (2 <? diff)%float = false ->
    (diff <? -10)%float = false -> (diff <? -2)%float = false ->
    bucket diff STABLE.

(** ** The buffer over time

    The two writers of [MEMORY_HISTORY] are a turn of the recorder and a
    [mem] command; the event loop runs one at a time, in some order. *)
Inductive event : Type :=
| RecorderTurn (rss : result Z)
| MemCommand (rss : result Z).

Definition step (history : list float) (ev : event) : list float :=
  match ev with
  | RecorderTurn rss => recorder_iteration rss history
  | MemCommand rss => sample_if_empty rss history
  end.

(** The buffer after a sequence of events, from the empty deque the module
    creates. *)
Definition run (evs : list event) : list float := fold_left step evs [].

(** The samples a sequence of outcomes yields, oldest first. *)
Definition successes (samples : list (result Z)) : list float :=
  flat_map (fun rss => match sample_memory rss with
                       | Ok mem => [mem]
                       | Raise _ => []
                       end) samples.

End Mem.

(* ================================================================== *)
(** * [get_disk_info] (plugin.py) *)
(* ================================================================== *)

Module Disk.

(** psutil's [sdiskpart] and [sdiskusage]. *)
Record sdiskpart : Type := {
  device : string;
  mountpoint : string;
  fstype : string;
  opts : string
}.

Record sdiskusage : Type := {
  total : Z;
  used : Z;
  free : Z;
  percent : float
}.

(** One entry of the returned list (a dict with exactly these keys). *)
Record entry : Type := {
  e_mountpoint : string;
  e_percent : float;
  total_gb : float;
  used_gb : float;
  free_gb : float
}.

(** [n / (1024**3)] for an [int] [n]. *)
Definition gb (n : Z) : result float := int_truediv n (1024 ^ 3).

(** The dict of lines 85-91, its values computed in the order written. *)
Definition entry_of (part : sdiskpart) (usage : sdiskusage) : result entry :=
  bind (gb (total usage)) (fun total_gb =>
  bind (gb (used usage)) (fun used_gb =>
  bind (gb (free usage)) (fun free_gb =>
  Ok {| e_mountpoint := mountpoint part;
        e_percent := percent usage;
        total_gb := total_gb;
        used_gb := used_gb;
        free_gb := free_gb |}))).

(** The test of line 82. *)
Definition skipped (part : sdiskpart) : bool :=
  (contains "cdrom" (lower (opts part)) || String.eqb (fstype part) "")%bool.

(** The body of the inner [try] for one partition: the list after it, or
    the exception that left it. *)
Definition visit (disk_usage : string -> result sdiskusage)
    (part : sdiskpart) (disks : list entry) : result (list entry) :=
  if skipped part then Ok disks
  else
    bind (disk_usage (mountpoint part)) (fun usage =>
    bind (entry_of part usage) (fun entry =>
    Ok (disks ++ [entry]))).

(** The [for] loop, each turn under its own [try ... except: pass].  The
    list is the one object [disks] names, so what a failed turn leaves is
    the list as it stood. *)
Fixpoint loop (disk_usage : string -> result sdiskusage)
    (parts : list sdiskpart) (disks : list entry) : result (list entry) :=
  match parts with
  | [] => Ok disks
  | part :: rest =>
      bind (try_except (visit disk_usage part disks) (fun _ => Ok disks))
           (loop disk_usage rest)
  end.

(** [disk_partitions] is what [psutil.disk_partitions()] returned or raised,
    [disk_usage] what [psutil.disk_usage] does on a mount point. *)
Definition get_disk_info (disk_partitions : result (list sdiskpart))
    (disk_usage : string -> result sdiskusage) : result (list entry) :=
  let disks := [] in
  try_except
    (bind disk_partitions (fun parts => loop disk_usage parts disks))
    (fun _ => Ok disks).

(** ** The collection as the specification words it *)

(** The mount options hold the optical-drive marker, in any letter case. *)
Definition has_cdrom_marker (options : string) : Prop :=
  exists before after, lower options = (before ++ "cdrom" ++ after)%string.

(** A partition the collection leaves out. *)
Definition excluded (part : sdiskpart) : Prop :=
  has_cdrom_marker (opts part) \/ fstype part = EmptyString.

(** A capacity of [n] bytes in GB, a GB being 2^30 bytes: the binary64
    number nearest to n * 2^-30; none when that is beyond the range of the
    format, which takes a capacity of 2^1053 bytes or more. *)
Definition gigabytes (n : Z) : option float :=
  match rounded n (-30) with
  | S754_infinity _ => None
  | q => Some (SF2Prim q)
  end.

(** What one partition adds to the result: nothing when it is left out, its
    usage query fails or a capacity has no value in GB, else its mount
    point, percentage and the three capacities in GB. *)
Definition contribution (disk_usage : string -> result sdiskusage)
    (part : sdiskpart) : list entry :=
  if skipped part then []
  else
    match disk_usage (mountpoint part) with
    | Ok usage =>
        match gigabytes (total usage), gigabytes (used usage),
              gigabytes (free usage) with
        | Some total_gb, Some used_gb, Some free_gb =>
            [ {| e_mountpoint := mountpoint part;
                 e_percent := percent usage;
                 total_gb := total_gb;
                 used_gb := used_gb;
                 free_gb := free_gb |} ]
        | _, _, _ => []
        end
    | Raise _ => []
    end.

End Disk.

(* ================================================================== *)
(** * [MonitorImageGenerator] (image_generator.py) *)
(* ================================================================== *)

Module Image.

Definition color : Type := (Z * Z * Z)%type.

Inductive font : Type :=
| TrueType (file : string) (size : Z)
| DefaultFont.

(** The attributes [__init__] sets. *)
Record generator : Type := {
  width : Z;
  height : Z;
  bg_color : color;
  card_bg : color;
  title_color : color;
  text_color : color;
  value_color : color;
  bar_bg_color : color;
  brand_color : color;
  success_color : color;
  warning_color : color;
  danger_color : color;
  cyan_color : color;
  purple_color : color;
  font_bold : font;
  font_title : font;
  font_main : font;
  font_small : font;
  font_value : font
}.

Definition set_height (self : generator) (h : Z) : generator :=
  {| width := width self; height := h;
     bg_color := bg_color self; card_bg := card_bg self;
     title_color := title_color self; text_color := text_color self;
     value_color := value_color self; bar_bg_color := bar_bg_color self;
     brand_color := brand_color self; success_color := success_color self;
     warning_color := warning_color self; danger_color := danger_color self;
     cyan_color := cyan_color self; purple_color := purple_color self;
     font_bold := font_bold self; font_title := font_title self;
     font_main := font_main self; font_small := font_small self;
     font_value := font_value self |}.

(** Lines 30-41: [truetype file size] is what [ImageFont.truetype] returns
    or raises.  An [OSError] (the font file cannot be loaded) gives every
    role the default font; an exception of another class (an [ImportError]
    where Pillow has no FreeType) leaves the statement, and the
    constructor with it. *)
Definition load_fonts (truetype : string -> Z -> result font)
  : result (font * font * font * font * font) :=
  try_except_OSError
    (bind (truetype "msyh.ttc" 30) (fun font_bold =>
     bind (truetype "msyh.ttc" 18) (fun font_title =>
     bind (truetype "msyh.ttc" 15) (fun font_main =>
     bind (truetype "msyh.ttc" 12) (fun font_small =>
     bind (truetype "msyhbd.ttc" 15) (fun font_value =>
     Ok (font_bold, font_title, font_main, font_small, font_value)))))))
    (fun _ =>
       Ok (DefaultFont, DefaultFont, DefaultFont, DefaultFont, DefaultFont)).

(** The constructor: the generator it builds, or the exception that left
    it. *)
Definition __init__ (truetype : string -> Z -> result font) : result generator :=
  bind (load_fonts truetype) (fun fonts =>
  let '(fb, ft, fm, fs, fv) := fonts in
  Ok {| width := 1100; height := 920;
        bg_color := (22, 22, 28); card_bg := (32, 32, 40);
        title_color := (255, 255, 255); text_color := (170, 170, 180);
        value_color := (235, 235, 245); bar_bg_color := (50, 50, 58);
        brand_color := (99, 132, 255); success_color := (72, 199, 142);
        warning_color := (255, 193, 69); danger_color := (255, 99, 99);
        cyan_color := (69, 199, 227); purple_color := (167, 139, 250);
        font_bold := fb; font_title := ft; font_main := fm;
        font_small := fs; font_value := fv |}).

(** The [data] dict, by the keys the generator reads; [None] is an absent
    key.  A disk entry always has its five keys. *)
Record data : Type := {
  os_type : option string;
  os_version : option string;
  os_full_version : option string;
  python_version : option string;
  boot_time : option string;
  cpu_percent : option float;
  ram_percent : option float;
  ram_used_gb : option float;
  ram_total_gb : option float;
  disks : option (list Disk.entry);
  bot_pid : option pyvalue;
  bot_memory_mb : option float;
  bot_threads : option Z;
  bot_uptime : option string;
  bot_status : option string;
  bot_qq : option pyvalue;
  plugin_count : option Z;
  enabled_plugin_count : option Z;
  monitor_running : option bool;
  monitor_duration : option string;
  total_restarts : option Z;
  memory_leak_restarts : option Z;
  crash_count : option Z;
  auto_restart_interval : option Z;
  total_messages_24h : option Z;
  bot_messages_24h : option Z
}.

Definition set_disks (d : data) (l : list Disk.entry) : data :=
  {| os_type := os_type d; os_version := os_version d;
     os_full_version := os_full_version d;
     python_version := python_version d; boot_time := boot_time d;
     cpu_percent := cpu_percent d; ram_percent := ram_percent d;
     ram_used_gb := ram_used_gb d; ram_total_gb := ram_total_gb d;
     disks := Some l;
     bot_pid := bot_pid d; bot_memory_mb := bot_memory_mb d;
     bot_threads := bot_threads d; bot_uptime := bot_uptime d;
     bot_status := bot_status d; bot_qq := bot_qq d;
     plugin_count := plugin_count d;
     enabled_plugin_count := enabled_plugin_count d;
     monitor_running := monitor_running d;
     monitor_duration := monitor_duration d;
     total_restarts := total_restarts d;
     memory_leak_restarts := memory_leak_restarts d;
     crash_count := crash_count d;
     auto_restart_interval := auto_restart_interval d;
     total_messages_24h := total_messages_24h d;
     bot_messages_24h := bot_messages_24h d |}.

(** ** The drawing surface

    [draw] is one mutable object that every helper draws on.  A helper is
    modelled by the calls it makes on that object, oldest first, beside the
    value it returns, or by the exception it raises. *)
Inductive op : Type :=
| rounded_rectangle (x0 y0 x1 y1 : Z) (radius : Z) (fill : color)
| draw_text (x y : Z) (t : text) (f : font) (fill : color).

Definition draw (A : Type) : Type := result (A * list op).

Definition ret {A : Type} (a : A) : draw A := Ok (a, []).

Definition dbind {A B : Type} (m : draw A) (k : A -> draw B) : draw B :=
  match m with
  | Ok (a, calls) =>
      match k a with
      | Ok (b, calls') => Ok (b, calls ++ calls')
      | Raise e => Raise e
      end
  | Raise e => Raise e
  end.

Definition call (o : op) : draw unit := Ok (tt, [o]).

Definition lift {A : Type} (r : result A) : draw A :=
  match r with
  | Ok a => Ok (a, [])
  | Raise e => Raise e
  end.

Notation "x <- m ;; k" := (dbind m (fun x => k))
  (at level 61, m at next level, right associativity).
Notation "m ;; k" := (dbind m (fun _ => k))
  (at level 61, right associativity).

(** [for i, item in enumerate(items): body], counting from [i]. *)
Fixpoint for_enumerate {A : Type} (body : Z -> A -> draw unit)
    (i : Z) (items : list A) : draw unit :=
  match items with
  | [] => ret tt
  | item :: rest => body i item ;; for_enumerate body (i + 1) rest
  end.

Section Methods.

Variable self : generator.

Definition _get_usage_color (percent : float) : color :=
  if (percent <? 60)%float then success_color self
  else if (percent <? 85)%float then warning_color self
  else danger_color self.

Definition _draw_text (t : text) (position : Z * Z) (f : font) (c : color)
  : draw unit :=
  call (draw_text (fst position) (snd position) t f c).

Definition _draw_info_row (label value : text) (x y width : Z) : draw unit :=
  _draw_text label (x, y) (font_main self) (text_color self) ;;
  _draw_text value (x + 85, y) (font_value self) (value_color self).

Definition _draw_info_row_colored (label value : text) (x y width : Z)
    (value_color : color) : draw unit :=
  _draw_text label (x, y) (font_main self) (text_color self) ;;
  _draw_text value (x + 85, y) (font_value self) value_color.

Definition _draw_progress_bar (label : text) (percentage : float)
    (x y width : Z) (c : color) (extra_text : text) : draw unit :=
  let bar_height := 18 in
  let bar_width := width - 80 in
  _draw_text label (x, y) (font_main self) (text_color self) ;;
  let bar_x := x + 50 in
  call (rounded_rectangle bar_x y (bar_x + bar_width) (y + bar_height) 4
          (bar_bg_color self)) ;;
  ratio <- lift (truediv percentage 100) ;;
  bar_width_f <- lift (float_of_int bar_width) ;;
  filled <- lift (int_of_float (bar_width_f * ratio)) ;;
  let fill_width := Z.max filled 6 in
  call (rounded_rectangle bar_x y (bar_x + fill_width) (y + bar_height) 4 c) ;;
  _draw_text [FFixed 0 percentage; Lit "%"] (bar_x + bar_width + 8, y)
    (font_small self) (value_color self) ;;
  if text_truthy extra_text
  then _draw_text extra_text (x, y + 22) (font_small self) (text_color self)
  else ret tt.

Definition _draw_mini_progress (label : text) (percentage : float)
    (x y width : Z) (detail : text) : draw unit :=
  let bar_height := 14 in
  let label_width := 30 in
  let bar_width := width - label_width - 110 in
  _draw_text label (x, y) (font_main self) (value_color self) ;;
  let bar_x := x + label_width in
  call (rounded_rectangle bar_x (y + 2) (bar_x + bar_width) (y + bar_height) 3
          (bar_bg_color self)) ;;
  let c := _get_usage_color percentage in
  ratio <- lift (truediv percentage 100) ;;
  bar_width_f <- lift (float_of_int bar_width) ;;
  filled <- lift (int_of_float (bar_width_f * ratio)) ;;
  let fill_width := Z.max filled 4 in
  call (rounded_rectangle bar_x (y + 2) (bar_x + fill_width) (y + bar_height) 3 c) ;;
  _draw_text ([FFixed 0 percentage; Lit "% "] ++ detail)
    (bar_x + bar_width + 6, y) (font_small self) (text_color self).

Definition _draw_header (now : string) (d : data) : draw unit :=
  _draw_text [Lit "🦊 MoFox-Bot 状态面板"] (30, 22) (font_bold self)
    (title_color self) ;;
  let current_time := now in
  _draw_text [FStr current_time] (width self - 165, 32) (font_small self)
    (text_color self).

Definition _draw_card (title : text) (x y width height : Z)
    (content_func : Z -> Z -> Z -> draw unit) : draw Z :=
  call (rounded_rectangle x y (x + width) (y + height) 10 (card_bg self)) ;;
  _draw_text title (x + 18, y + 12) (font_title self) (title_color self) ;;
  content_func (x + 18) (y + 42) (width - 36) ;;
  ret (y + height).

Definition _draw_system_info (x y width : Z) (d : data) : draw unit :=
  let items :=
    [ ([Lit "操作系统"],
       [FStr (get (os_type d) "N/A"); Lit " "; FStr (get (os_version d) "")]);
      ([Lit "完整版本"], [FStr (get (os_full_version d) "N/A")]);
      ([Lit "Python"], [FStr (get (python_version d) "N/A")]);
      ([Lit "系统运行"], [FStr (get (boot_time d) "N/A")]) ] in
  for_enumerate
    (fun i item => _draw_info_row (fst item) (snd item) x (y + i * 30) width)
    0 items.

Definition _draw_resource_usage (x y width : Z) (d : data) : draw unit :=
  let cpu := get (cpu_percent d) 0%float in
  _draw_progress_bar [Lit "CPU"] cpu x y (width - 15) (_get_usage_color cpu) [] ;;
  let ram := get (ram_percent d) 0%float in
  let ram_text :=
    [ FFixed 1 (get (ram_used_gb d) 0%float); Lit "G / ";
      FFixed 1 (get (ram_total_gb d) 0%float); Lit "G" ] in
  _draw_progress_bar [Lit "内存"] ram x (y + 45) (width - 15)
    (_get_usage_color ram) ram_text ;;
  let bot_mem := get (bot_memory_mb d) 0%float in
  _draw_info_row [Lit "Bot占用"] [FFixed 1 bot_mem; Lit " MB"] x (y + 95) width.

Definition _draw_bot_status (x y width : Z) (d : data) : draw unit :=
  let bot_status := get (bot_status d) "未知" in
  let status_color :=
    if String.eqb bot_status "运行中" then success_color self
    else danger_color self in
  let items :=
    [ ([Lit "运行状态"], [FStr bot_status], status_color);
      ([Lit "进程 PID"], str_value (get (bot_pid d) (VStr "N/A")), value_color self);
      ([Lit "运行时间"], [FStr (get (bot_uptime d) "N/A")], value_color self);
      ([Lit "线程数量"], [FInt (get (bot_threads d) 0)], value_color self);
      ([Lit "Bot QQ"], str_value (get (bot_qq d) (VStr "N/A")), cyan_color self) ] in
  for_enumerate
    (fun i item =>
       let '(label, value, c) := item in
       _draw_info_row_colored label value x (y + i * 28) width c)
    0 items.

Definition _draw_disk_info (x y width : Z) (d : data) : draw unit :=
  let disks := get (disks d) [] in
  if is_empty disks then
    _draw_text [Lit "无可用磁盘信息"] (x, y) (font_main self) (text_color self)
  else
    for_enumerate
      (fun i disk =>
         let mountpoint := remove_char "\" (Disk.e_mountpoint disk) in
         let percent := Disk.e_percent disk in
         let used := Disk.used_gb disk in
         let total := Disk.total_gb disk in
         let label := [FStr mountpoint] in
         let detail := [FFixed 0 used; Lit "G / "; FFixed 0 total; Lit "G"] in
         _draw_mini_progress label percent x (y + i * 32) (width - 15) detail)
      0 (firstn 5 disks).

Definition _draw_monitor_stats (x y width : Z) (d : data) : draw unit :=
  let monitor_running := get (monitor_running d) false in
  let monitor_status := if monitor_running then "运行中" else "未运行" in
  let status_color :=
    if monitor_running then success_color self else danger_color self in
  _draw_text [Lit "监控程序"] (x, y) (font_main self) (text_color self) ;;
  _draw_text [Lit monitor_status] (x + 85, y) (font_value self) status_color ;;
  let items :=
    [ ([Lit "监控时长"], [FStr (get (monitor_duration d) "N/A")]);
      ([Lit "重启次数"], [FInt (get (total_restarts d) 0)]);
      ([Lit "内存重启"], [FInt (get (memory_leak_restarts d) 0)]);
      ([Lit "崩溃计数"], [FInt (get (crash_count d) 0)]) ] in
  let auto_restart := get (auto_restart_interval d) 0 in
  let items :=
    if auto_restart >? 0
    then items ++ [([Lit "定时重启"], [Lit "每 "; FInt (auto_restart / 60); Lit " 分钟"])]
    else items ++ [([Lit "定时重启"], [Lit "已关闭"])] in
  for_enumerate
    (fun i item => _draw_info_row (fst item) (snd item) x (y + 28 + i * 28) width)
    0 items.

Definition _draw_message_stats (x y width : Z) (d : data) : draw unit :=
  let items :=
    [ ([Lit "接收消息"], [FInt (get (total_messages_24h d) 0)], cyan_color self);
      ([Lit "发送消息"], [FInt (get (bot_messages_24h d) 0)], purple_color self) ] in
  for_enumerate
    (fun i item =>
       let '(label, value, c) := item in
       _draw_info_row_colored label value x (y + i * 28) width c)
    0 items.

Definition _draw_plugin_info (x y width : Z) (d : data) : draw unit :=
  let plugin_count := get (plugin_count d) 0 in
  let enabled_count := get (enabled_plugin_count d) plugin_count in
  let items :=
    [ ([Lit "已加载"], [FInt plugin_count; Lit " 个插件"], success_color self);
      ([Lit "已启用"], [FInt enabled_count; Lit " 个"], cyan_color self) ] in
  for_enumerate
    (fun i item =>
       let '(label, value, c) := item in
       _draw_info_row_colored label value x (y + i * 28) width c)
    0 items.

End Methods.

(** [Image.new("RGB", size, background)] with what was drawn on it; the PNG
    bytes [generate] returns are this image's encoding. *)
Record image : Type := {
  size : Z * Z;
  background : color;
  drawn : list op
}.

(** [generate]: the generator as the call leaves it, and the image or the
    exception raised while drawing.  [now] is the formatted clock time that
    the header shows. *)
Definition generate (self : generator) (now : string) (d : data)
  : generator * result image :=
  let disk_count := Z.of_nat (List.length (get (disks d) [])) in
  let disk_card_height := Z.max (35 * Z.min disk_count 5 + 55) 90 in
  let self := set_height self (920 + Z.max 0 ((disk_count - 3) * 35)) in
  let new_image := (width self, height self, bg_color self) in
  let drawing :=
    _draw_header self now d ;;
    let y_pos := 80 in
    let card_margin := 25 in
    let card_width := (width self - card_margin * 3) / 2 in
    let left_x := card_margin in
    y_pos_left <- _draw_card self [Lit "📊 系统信息"] left_x y_pos card_width 180
                    (fun x y w => _draw_system_info self x y w d) ;;
    let y_pos_left := y_pos_left + 12 in
    y_pos_left <- _draw_card self [Lit "💻 资源使用"] left_x y_pos_left card_width 165
                    (fun x y w => _draw_resource_usage self x y w d) ;;
    let y_pos_left := y_pos_left + 12 in
    y_pos_left <- _draw_card self [Lit "📈 监控统计"] left_x y_pos_left card_width 195
                    (fun x y w => _draw_monitor_stats self x y w d) ;;
    let y_pos_left := y_pos_left + 12 in
    _draw_card self [Lit "💬 消息统计 (24h)"] left_x y_pos_left card_width 105
      (fun x y w => _draw_message_stats self x y w d) ;;
    let right_x := card_margin * 2 + card_width in
    let y_pos_right := y_pos in
    y_pos_right <- _draw_card self [Lit "🤖 Bot 状态"] right_x y_pos_right card_width 195
                     (fun x y w => _draw_bot_status self x y w d) ;;
    let y_pos_right := y_pos_right + 12 in
    y_pos_right <- _draw_card self [Lit "💾 磁盘空间"] right_x y_pos_right card_width
                     disk_card_height
                     (fun x y w => _draw_disk_info self x y w d) ;;
    let y_pos_right := y_pos_right + 12 in
    _draw_card self [Lit "🔌 插件信息"] right_x y_pos_right card_width 105
      (fun x y w => _draw_plugin_info self x y w d) ;;
    ret tt in
  (self,
   match drawing with
   | Ok (_, log) =>
       Ok {| size := (fst (fst new_image), snd (fst new_image));
             background := snd new_image;
             drawn := log |}
   | Raise e => Raise e
   end).

End Image.

(* ================================================================== *)
(** * [StatusCommand.execute] (plugin.py) *)
(* ================================================================== *)

Module Status.

(** What [psutil.Process(os.getpid())] gave, with the clock read beside it. *)
Record process : Type := {
  pid : Z;
  rss : Z;
  num_threads : Z;
  create_time : float;
  clock : float
}.

Record plugin : Type := {
  enable_plugin : bool
}.

(** Everything outside the plugin that one run of the command reads. *)
Record env : Type := {
  platform_system : string;
  platform_release : string;
  platform_version : string;
  platform_platform : result string;
  version_info : Z * Z * Z;
  time_time : float;
  psutil_boot_time : float;
  psutil_cpu_percent : float;
  ram_percent : float;
  ram_used : Z;
  ram_total : Z;
  disk_partitions : result (list Disk.sdiskpart);
  disk_usage : string -> result Disk.sdiskusage;
  psutil_process : result process;
  bot_qq_id : pyvalue;
  get_all_plugins : list plugin;
  IMAGE_GENERATOR_AVAILABLE : bool;
  truetype : string -> Z -> result Image.font;
  strftime_now : string;
  (** [image.save] to PNG bytes, then [base64.b64encode(...).decode()] *)
  encode : Image.image -> result string;
  (** the host's [send_image] *)
  send_image : string -> result unit
}.

Definition get_full_os_version (e : env) : string :=
  match
    try_except
      (if String.eqb (platform_system e) "Windows" then
         let version := platform_version e in
         let release := platform_release e in
         Ok (release ++ " (Build " ++ version ++ ")")%string
       else platform_platform e)
      (fun _ => Ok (platform_release e))
  with
  | Ok s => s
  | Raise _ => platform_release e
  end.

(** The dict of [get_bot_process_info], empty on failure. *)
Record bot_info : Type := {
  i_pid : Z;
  i_memory_mb : float;
  i_threads : Z;
  i_create_time : float;
  i_uptime : float
}.

Definition get_bot_process_info (e : env) : option bot_info :=
  match
    bind (psutil_process e) (fun p =>
    bind (int_truediv (rss p) 1024) (fun kb =>
    Ok {| i_pid := pid p;
          i_memory_mb := (kb / 1024)%float;
          i_threads := num_threads p;
          i_create_time := create_time p;
          i_uptime := (clock p - create_time p)%float |}))
  with
  | Ok info => Some info
  | Raise _ => None
  end.

(** Lines 129-160: the snapshot. *)
Definition collect (e : env) : result Image.data :=
  bind (int_of_float (time_time e - psutil_boot_time e)%float) (fun boot_seconds =>
  bind (Disk.gb (ram_used e)) (fun ram_used_gb =>
  bind (Disk.gb (ram_total e)) (fun ram_total_gb =>
  bind (Disk.get_disk_info (disk_partitions e) (disk_usage e)) (fun disks =>
  let bot_info := get_bot_process_info e in
  bind (match bot_info with
        | Some i => int_of_float (i_uptime i)
        | None => Ok 0
        end) (fun uptime_seconds =>
  let plugins := get_all_plugins e in
  let '(major, minor, micro) := version_info e in
  Ok {| Image.os_type := Some (platform_system e);
        Image.os_version := Some (platform_release e);
        Image.os_full_version := Some (get_full_os_version e);
        Image.python_version :=
          Some (str_int major ++ "." ++ str_int minor ++ "." ++ str_int micro)%string;
        Image.boot_time := Some (Duration.format_duration boot_seconds);
        Image.cpu_percent := Some (psutil_cpu_percent e);
        Image.ram_percent := Some (ram_percent e);
        Image.ram_used_gb := Some ram_used_gb;
        Image.ram_total_gb := Some ram_total_gb;
        Image.disks := Some disks;
        Image.bot_pid :=
          Some (match bot_info with Some i => VInt (i_pid i) | None => VStr "N/A" end);
        Image.bot_memory_mb :=
          Some (match bot_info with Some i => i_memory_mb i | None => 0%float end);
        Image.bot_threads :=
          Some (match bot_info with Some i => i_threads i | None => 0 end);
        Image.bot_uptime := Some (Duration.format_duration uptime_seconds);
        Image.bot_status := Some "运行中";
        Image.bot_qq := Some (bot_qq_id e);
        Image.plugin_count := Some (Z.of_nat (List.length plugins));
        Image.enabled_plugin_count :=
          Some (Z.of_nat (List.length (filter enable_plugin plugins)));
        Image.monitor_running := None;
        Image.monitor_duration := None;
        Image.total_restarts := None;
        Image.memory_leak_restarts := None;
        Image.crash_count := None;
        Image.auto_restart_interval := None;
        Image.total_messages_24h := None;
        Image.bot_messages_24h := None |}))))).

(** [data[key]] on a key the command has set. *)
Definition item {A : Type} (default : A) (v : option A) : A := get v default.

(** Lines 176-190: the text report, before [strip]. *)
Definition text_report (d : Image.data) : text :=
  [ Lit "
📊 **Bot 状态报告**
------------------
🤖 Bot QQ: " ] ++ str_value (item (VStr "") (Image.bot_qq d)) ++ [ Lit "
⏱️ 运行时间: "; FStr (item "" (Image.bot_uptime d)); Lit "
🧠 内存占用: "; FFixed 1 (item 0%float (Image.bot_memory_mb d)); Lit " MB
🧵 线程数量: "; FInt (item 0 (Image.bot_threads d)); Lit "
------------------
💻 系统: "; FStr (item "" (Image.os_full_version d)); Lit "
🐍 Python: "; FStr (item "" (Image.python_version d)); Lit "
⚙️ CPU: "; FFloat (item 0%float (Image.cpu_percent d)); Lit "%
💾 RAM: "; FFloat (item 0%float (Image.ram_percent d)); Lit "% (";
    FFixed 1 (item 0%float (Image.ram_used_gb d)); Lit "/";
    FFixed 1 (item 0%float (Image.ram_total_gb d)); Lit " GB)
------------------
📦 插件: "; FInt (item 0 (Image.enabled_plugin_count d)); Lit "/";
    FInt (item 0 (Image.plugin_count d)); Lit " 已启用
" ].

(** The notice of line 173, for the exception [e]. *)
Definition failure_notice (e : exn) : text :=
  [ Lit "❌ 图片生成失败: "; FStr (str_exn e); Lit "
正在发送文字版..." ].

(** Lines 165-170, the body of the [try]: the image is generated, encoded
    and sent. *)
Definition send_status_image (e : env) (d : Image.data) : result string :=
  bind (Image.__init__ (truetype e)) (fun generator =>
  bind (snd (Image.generate generator (strftime_now e) d)) (fun img =>
  bind (encode e img) (fun b64_img =>
  bind (send_image e b64_img) (fun _ =>
  Ok b64_img)))).

(** Lines 162-192, on a collected snapshot: the messages sent and the
    reply. *)
Definition respond (e : env) (d : Image.data) : list sent * reply :=
  let attempt :=
    if IMAGE_GENERATOR_AVAILABLE e then
      match send_status_image e d with
      | Ok b64_img => inl ([SendImage b64_img], (true, "状态图片已发送", true))
      | Raise ex => inr [SendText (failure_notice ex)]
      end
    else inr [] in
  match attempt with
  | inl done => done
  | inr sent_so_far =>
      let t := text_report d in
      (sent_so_far ++ [SendText (strip_text t)], (true, "状态信息已发送", true))
  end.

(** The handler body. *)
Definition execute (e : env) : result (list sent * reply) :=
  bind (collect e) (fun d => Ok (respond e d)).

(** A host to run the command on: a Linux machine with one disk and one
    optical drive, three plugins of which two are enabled, no font files,
    and a PNG encoder that fails. *)
Definition example_env (image_generator_available : bool) : env :=
  {| platform_system := "Linux";
     platform_release := "6.1.0";
     platform_version := "#1 SMP";
     platform_platform := Ok "Linux-6.1.0-x86_64-with-glibc2.36";
     version_info := (3, 11, 2);
     time_time := 1700000000%float;
     psutil_boot_time := 1699990000%float;
     psutil_cpu_percent := 12.5%float;
     ram_percent := 50%float;
     ram_used := 4294967296;
     ram_total := 8589934592;
     disk_partitions :=
       Ok [ {| Disk.device := "/dev/sda1"; Disk.mountpoint := "/";
               Disk.fstype := "ext4"; Disk.opts := "rw,relatime" |};
            {| Disk.device := "/dev/sr0"; Disk.mountpoint := "/media/cd";
               Disk.fstype := "iso9660"; Disk.opts := "ro,CDROM" |} ];
     disk_usage := fun _ =>
       Ok {| Disk.total := 107374182400; Disk.used := 53687091200;
             Disk.free := 53687091200; Disk.percent := 50%float |};
     psutil_process :=
       Ok {| pid := 4242; rss := 157286400; num_threads := 8;
             create_time := 1699999000%float; clock := 1700000000%float |};
     bot_qq_id := VStr "10001";
     get_all_plugins :=
       [ {| enable_plugin := true |}; {| enable_plugin := false |};
         {| enable_plugin := true |} ];
     IMAGE_GENERATOR_AVAILABLE := image_generator_available;
     truetype := fun _ _ => Raise (OSError "cannot open resource");
     strftime_now := "2026-01-01 00:00:00";
     encode := fun _ => Raise (Exception "encoder error");
     send_image := fun _ => Ok tt |}.

End Status.

(* ================================================================== *)
(** * [SysInfoCommand.execute] (plugin.py) *)
(* ================================================================== *)

Module SysInfo.

Import Status.

(** ["\n".join(lines)] *)
Fixpoint join_lines (lines : list text) : text :=
  match lines with
  | [] => []
  | [line] => line
  | line :: rest => line ++ Lit "
" :: join_lines rest
  end.

(** Line 222: the line of one disk entry. *)
Definition disk_line (disk : Disk.entry) : text :=
  [ Lit "- "; FStr (Disk.e_mountpoint disk); Lit ": ";
    FFloat (Disk.e_percent disk); Lit "% (";
    FFixed 1 (Disk.free_gb disk); Lit "GB Free)" ].

(** Lines 208-222: the lines of the report. *)
Definition info_lines (e : env) : result (list text) :=
  let cpu_p := psutil_cpu_percent e in
  bind (Disk.gb (ram_used e)) (fun ram_used_gb =>
  bind (int_of_float (time_time e - psutil_boot_time e)%float) (fun boot_seconds =>
  let info :=
    [ [Lit "🖥️ **系统概览**"];
      [Lit "OS: "; FStr (get_full_os_version e)];
      [Lit "CPU: "; FFloat cpu_p; Lit "%"];
      [Lit "RAM: "; FFloat (ram_percent e); Lit "% (";
       FFixed 1 ram_used_gb; Lit "GB Used)"];
      [Lit "Boot: "; FStr (Duration.format_duration boot_seconds); Lit " ago"] ] in
  let info := info ++ [[Lit "
💾 **磁盘状态**"]] in
  bind (Disk.get_disk_info (disk_partitions e) (disk_usage e)) (fun disks =>
  Ok (fold_left (fun info disk => info ++ [disk_line disk]) disks info)))).

(** The handler body. *)
Definition execute (e : env) : result (list sent * reply) :=
  bind (info_lines e) (fun info =>
  Ok ([SendText (join_lines info)], (true, "系统信息已发送", true))).

End SysInfo.

(* ================================================================== *)
(** * Rectangles on the drawing surface *)
(* ================================================================== *)

Module Layout.

(** A rectangle, by its corners (x0, y0, x1, y1). *)
Definition box : Type := (Z * Z * Z * Z)%type.

(** The rectangles drawn with corner radius [r], in drawing order: the
    cards have radius 10, the progress bars 4, the disk rows 3. *)
Definition boxes (r : Z) (calls : list Image.op) : list box :=
  flat_map (fun o =>
              match o with
              | Image.rounded_rectangle x0 y0 x1 y1 r' _ =>
                  if r' =? r then [(x0, y0, x1, y1)] else []
              | Image.draw_text _ _ _ _ _ => []
              end) calls.

(** A rectangle that is not empty and lies on a canvas of width [w] and
    height [h]. *)
Definition inside (w h : Z) (b : box) : Prop :=
  let '(x0, y0, x1, y1) := b in
  0 <= x0 /\ x0 < x1 /\ x1 <= w /\ 0 <= y0 /\ y0 < y1 /\ y1 <= h.

(** Two rectangles with no common point. *)
Definition apart (a b : box) : Prop :=
  let '(ax0, ay0, ax1, ay1) := a in
  let '(bx0, by0, bx1, by1) := b in
  ax1 < bx0 \/ bx1 < ax0 \/ ay1 < by0 \/ by1 < ay0.

End Layout.

(* ================================================================== *)
(** * Inputs to run the code on *)
(* ================================================================== *)

Module Examples.

(** A host on which the process lookup, the partition listing and the
    platform description all fail. *)
Definition degraded_env : Status.env :=
  {| Status.platform_system := "Linux";
     Status.platform_release := "6.1.0";
     Status.platform_version := "#1 SMP";
     Status.platform_platform := Raise (Exception "platform");
     Status.version_info := (3, 11, 2);
     Status.time_time := 1700000000%float;
     Status.psutil_boot_time := 1699990000%float;
     Status.psutil_cpu_percent := 12.5%float;
     Status.ram_percent := 50%float;
     Status.ram_used := 4294967296;
     Status.ram_total := 8589934592;
     Status.disk_partitions := Raise (OSError "Permission denied");
     Status.disk_usage := fun _ => Raise (OSError "Permission denied");
     Status.psutil_process := Raise (Exception "NoSuchProcess");
     Status.bot_qq_id := VInt 10001;
     Status.get_all_plugins := [];
     Status.IMAGE_GENERATOR_AVAILABLE := false;
     Status.truetype := fun _ _ => Raise (OSError "cannot open resource");
     Status.strftime_now := "2026-01-01 00:00:00";
     Status.encode := fun _ => Raise (Exception "encoder error");
     Status.send_image := fun _ => Ok tt |}.

(** The example host with a Pillow that has no FreeType: loading a font
    raises [ImportError]. *)
Definition no_freetype_env : Status.env :=
  {| Status.platform_system := "Linux";
     Status.platform_release := "6.1.0";
     Status.platform_version := "#1 SMP";
     Status.platform_platform := Ok "Linux-6.1.0-x86_64-with-glibc2.36";
     Status.version_info := (3, 11, 2);
     Status.time_time := 1700000000%float;
     Status.psutil_boot_time := 1699990000%float;
     Status.psutil_cpu_percent := 12.5%float;
     Status.ram_percent := 50%float;
     Status.ram_used := 4294967296;
     Status.ram_total := 8589934592;
     Status.disk_partitions := Ok [];
     Status.disk_usage := fun _ => Raise (OSError "No such file or directory");
     Status.psutil_process :=
       Ok {| Status.pid := 4242; Status.rss := 157286400;
             Status.num_threads := 8;
             Status.create_time := 1699999000%float;
             Status.clock := 1700000000%float |};
     Status.bot_qq_id := VStr "10001";
     Status.get_all_plugins := [];
     Status.IMAGE_GENERATOR_AVAILABLE := true;
     Status.truetype := fun _ _ =>
       Raise (Exception "The _imagingft C module is not installed");
     Status.strftime_now := "2026-01-01 00:00:00";
     Status.encode := fun _ => Ok "iVBORw0KGgo=";
     Status.send_image := fun _ => Ok tt |}.

(** The empty dict: every key the generator reads is absent. *)
Definition blank : Image.data :=
  {| Image.os_type := None; Image.os_version := None;
     Image.os_full_version := None; Image.python_version := None;
     Image.boot_time := None; Image.cpu_percent := None;
     Image.ram_percent := None; Image.ram_used_gb := None;
     Image.ram_total_gb := None; Image.disks := None;
     Image.bot_pid := None; Image.bot_memory_mb := None;
     Image.bot_threads := None; Image.bot_uptime := None;
     Image.bot_status := None; Image.bot_qq := None;
     Image.plugin_count := None; Image.enabled_plugin_count := None;
     Image.monitor_running := None; Image.monitor_duration := None;
     Image.total_restarts := None; Image.memory_leak_restarts := None;
     Image.crash_count := None; Image.auto_restart_interval := None;
     Image.total_messages_24h := None; Image.bot_messages_24h := None |}.

(** A dict with only its [disks] key, holding two entries. *)
Definition two_disks : Image.data :=
  Image.set_disks blank
    [ {| Disk.e_mountpoint := "C:\"; Disk.e_percent := 50%float;
         Disk.total_gb := 100%float; Disk.used_gb := 50%float;
         Disk.free_gb := 50%float |};
      {| Disk.e_mountpoint := "D:\"; Disk.e_percent := 90.5%float;
         Disk.total_gb := 200%float; Disk.used_gb := 181%float;
         Disk.free_gb := 19%float |} ].

End Examples.

(* ================================================================== *)
(** * Properties of [format_duration] *)
(* ================================================================== *)

Lemma hours_of_day (d : Z) : (d mod 86400) / 3600 = (d / 3600) mod 24.
Proof.
  replace 86400 with (3600 * 24) by reflexivity.
  rewrite Z.rem_mul_r by lia.
  rewrite (Z.mul_comm 3600), Z.div_add by lia.
  rewrite Z.div_small by (apply Z.mod_pos_bound; lia). reflexivity.
Qed.

Lemma minutes_of_hour (d : Z) : (d mod 3600) / 60 = (d / 60) mod 60.
Proof.
  replace 3600 with (60 * 60) by reflexivity.
  rewrite Z.rem_mul_r by lia.
  rewrite (Z.mul_comm 60 ((d / 60) mod 60)), Z.div_add by lia.
  rewrite Z.div_small by (apply Z.mod_pos_bound; lia). reflexivity.
Qed.

Lemma units_total (d : Z) : Duration.total (Duration.units d) = d.
Proof.
  unfold Duration.total, Duration.units. cbn [fold_right fst snd Duration.weight].
  pose proof (Z.div_mod d 60 ltac:(lia)).
  pose proof (Z.div_mod (d / 60) 60 ltac:(lia)).
  pose proof (Z.div_mod (d / 3600) 24 ltac:(lia)).
  assert (d / 60 / 60 = d / 3600) by (rewrite Z.div_div by lia; reflexivity).
  assert (d / 3600 / 24 = d / 86400) by (rewrite Z.div_div by lia; reflexivity).
  lia.
Qed.

Lemma significant_length (d : Z) : (List.length (Duration.significant d) <= 3)%nat.
Proof.
  unfold Duration.significant. rewrite length_firstn. lia.
Qed.

(** C2. [format_duration] on a negative input is the text "N/A"; on 0 it is
    "0" with the seconds unit; on a positive input it is the concatenation,
    with nothing in between, of the components of the (at most three) most
    significant non-zero units, days before hours before minutes before
    seconds, where the four units add up to the input. *)
Theorem format_duration_spec (d : Z) :
  Duration.format_duration d =
    (if d <? 0 then "N/A"
     else if d =? 0 then "0秒"
     else String.concat "" (map Duration.component (Duration.significant d)))
  /\ (List.length (Duration.significant d) <= 3)%nat
  /\ map snd (Duration.units d)
     = [Duration.Days; Duration.Hours; Duration.Minutes; Duration.Seconds]
  /\ Duration.total (Duration.units d) = d.
Proof.
  split; [|split; [apply significant_length|split; [reflexivity|apply units_total]]].
  unfold Duration.format_duration.
  destruct (Z.ltb_spec d 0) as [Hneg|Hpos]; [reflexivity|].
  destruct (Z.eqb_spec d 0) as [->|Hnz]; [reflexivity|].
  rewrite hours_of_day, minutes_of_hour.
  pose proof (units_total d) as Ht.
  unfold Duration.significant, Duration.units, Duration.total in *.
  cbn [fold_right fst snd Duration.weight filter] in *.
  unfold Duration.nonzero. cbn [fst]. rewrite !Z.gtb_ltb.
  generalize dependent (d / 86400). generalize dependent (d / 3600 mod 24).
  generalize dependent (d / 60 mod 60). generalize dependent (d mod 60).
  intros s m h dd Ht.
  destruct (Z.ltb_spec 0 dd), (Z.ltb_spec 0 h), (Z.ltb_spec 0 m), (Z.ltb_spec 0 s);
    cbn [app is_empty orb firstn map Duration.component fst snd Duration.suffix];
    try reflexivity.
  lia.
Qed.

(* ================================================================== *)
(** * Properties of the memory history buffer *)
(* ================================================================== *)

Lemma deque_append_length (d : list float) (x : float) :
  (List.length d <= History.maxlen)%nat ->
  (List.length (History.deque_append d x) <= History.maxlen)%nat.
Proof.
  unfold History.deque_append, History.maxlen. intros H.
  rewrite length_app. cbn [List.length].
  destruct (Nat.ltb_spec 60 (List.length d + 1)) as [Hgt|Hle].
  - destruct d as [|a d]; cbn [app tl List.length] in *; [lia|].
    rewrite length_app. cbn [List.length]. lia.
  - rewrite length_app. cbn [List.length]. lia.
Qed.

Lemma deque_append_cases (d : list float) (x : float) :
  (List.length d <= History.maxlen)%nat ->
  History.deque_append d x =
    if (List.length d =? History.maxlen)%nat then tl d ++ [x] else d ++ [x].
Proof.
  unfold History.deque_append, History.maxlen. intros H.
  rewrite length_app. cbn [List.length].
  destruct (Nat.ltb_spec 60 (List.length d + 1)) as [Hgt|Hle];
    destruct (Nat.eqb_spec (List.length d) 60) as [He|Hne]; try lia.
  - destruct d; [discriminate|reflexivity].
  - reflexivity.
Qed.

Lemma tl_skipn {A : Type} (k : nat) (l : list A) :
  tl (skipn k l) = skipn (S k) l.
Proof.
  revert l. induction k as [|k IH]; intros [|a l]; try reflexivity.
  cbn [skipn]. rewrite IH. reflexivity.
Qed.

Lemma deque_append_lastn (acc : list float) (x : float) :
  History.deque_append (lastn History.maxlen acc) x
  = lastn History.maxlen (acc ++ [x]).
Proof.
  unfold History.deque_append, lastn, History.maxlen.
  rewrite !length_app, length_skipn. cbn [List.length].
  destruct (Nat.ltb_spec 60 (List.length acc - (List.length acc - 60) + 1)) as [Hgt|Hle].
  - assert (Hk : (List.length acc + 1 - 60 = S (List.length acc - 60))%nat) by lia.
    rewrite Hk, skipn_app.
    replace (S (List.length acc - 60) - List.length acc)%nat with 0%nat by lia.
    cbn [skipn].
    destruct (skipn (List.length acc - 60) acc) as [|a r] eqn:E.
    + apply (f_equal (@List.length float)) in E. rewrite length_skipn in E.
      cbn in E. lia.
    + cbn [app tl]. f_equal.
      change r with (tl (a :: r)). rewrite <- E. apply tl_skipn.
  - replace (List.length acc - 60)%nat with 0%nat by lia.
    replace (List.length acc + 1 - 60)%nat with 0%nat by lia.
    reflexivity.
Qed.

Lemma step_bounded (h : list float) (ev : Mem.event) :
  (List.length h <= History.maxlen)%nat ->
  (List.length (Mem.step h ev) <= History.maxlen)%nat.
Proof.
  intros H. destruct ev as [rss|rss]; cbn [Mem.step].
  - unfold History.recorder_iteration.
    destruct (History.sample_memory rss); cbn [bind try_except]; auto.
    now apply deque_append_length.
  - unfold Mem.sample_if_empty. destruct (is_empty h); auto.
    destruct (History.sample_memory rss); cbn [bind try_except]; auto.
    now apply deque_append_length.
Qed.

Lemma run_bounded_from (evs : list Mem.event) (h : list float) :
  (List.length h <= History.maxlen)%nat ->
  (List.length (fold_left Mem.step evs h) <= History.maxlen)%nat.
Proof.
  revert h. induction evs as [|ev evs IH]; intros h H; cbn [fold_left]; auto.
  apply IH, step_bounded, H.
Qed.

Lemma recorder_lastn (samples : list (result Z)) (acc : list float) :
  History._memory_recorder samples (lastn History.maxlen acc)
  = lastn History.maxlen (acc ++ Mem.successes samples).
Proof.
  revert acc. induction samples as [|rss samples IH]; intros acc.
  - cbn. now rewrite app_nil_r.
  - unfold History._memory_recorder in *. cbn [fold_left Mem.successes flat_map].
    unfold History.recorder_iteration at 2.
    destruct (History.sample_memory rss) as [mem|e]; cbn [bind try_except].
    + rewrite deque_append_lastn, IH. now rewrite <- app_assoc.
    + apply IH.
Qed.

(** C4. Whatever sequence of recorder turns and [mem] commands has run, the
    buffer holds at most 60 samples, and appending to it gives a buffer of
    at most 60 samples again: at length 60 the append drops exactly the
    oldest sample and puts the new one last, the others keeping their order,
    and below 60 it only puts the new one last.  The recorder alone leaves
    the most recent 60 of its successful samples, oldest first. *)
Theorem memory_history_bounded_fifo
    (evs : list Mem.event) (samples : list (result Z)) (x : float) :
  let h := Mem.run evs in
  (List.length h <= 60)%nat
  /\ (List.length (History.deque_append h x) <= 60)%nat
  /\ History.deque_append h x
     = (if (List.length h =? 60)%nat then tl h ++ [x] else h ++ [x])
  /\ History._memory_recorder samples [] = lastn 60 (Mem.successes samples).
Proof.
  cbn zeta.
  assert (Hb : (List.length (Mem.run evs) <= History.maxlen)%nat)
    by (apply run_bounded_from; cbn; lia).
  repeat split.
  - exact Hb.
  - now apply deque_append_length.
  - now apply deque_append_cases.
  - apply (recorder_lastn samples []).
Qed.

(* ================================================================== *)
(** * The order of binary64 values *)
(* ================================================================== *)

Lemma SFcompare_rank (x y : spec_float) :
  x <> S754_nan -> y <> S754_nan ->
  SFcompare x y = Some (lex3 (rank x) (rank y)).
Proof.
  intros Hx Hy.
  destruct x as [sx|sx| |sx mx ex], y as [sy|sy| |sy my ey]; try congruence;
    try (destruct sx); try (destruct sy); try reflexivity.
  cbn [SFcompare rank lex3]. cbn. rewrite Z.compare_opp, (Z.compare_antisym ex ey).
  destruct (ex ?= ey); reflexivity.
Qed.

Lemma lex3_refl (a : Z * Z * Z) : lex3 a a = Eq.
Proof.
  destruct a as [[a1 a2] a3]. cbn. now rewrite !Z.compare_refl.
Qed.

Lemma lex3_Lt (a b : Z * Z * Z) :
  lex3 a b = Lt <->
  (fst (fst a) < fst (fst b) \/
   (fst (fst a) = fst (fst b) /\
    (snd (fst a) < snd (fst b) \/ (snd (fst a) = snd (fst b) /\ snd a < snd b)))).
Proof.
  destruct a as [[a1 a2] a3], b as [[b1 b2] b3]. cbn.
  destruct (Z.compare_spec a1 b1); [destruct (Z.compare_spec a2 b2);
    [destruct (Z.compare_spec a3 b3)| |]| |]; split; intros; try congruence; try lia.
Qed.

Lemma lex3_Eq (a b : Z * Z * Z) : lex3 a b = Eq <-> a = b.
Proof.
  destruct a as [[a1 a2] a3], b as [[b1 b2] b3]. cbn.
  destruct (Z.compare_spec a1 b1); [destruct (Z.compare_spec a2 b2);
    [destruct (Z.compare_spec a3 b3)| |]| |]; split; intros H'; try congruence;
    try (injection H'; lia).
Qed.

Lemma lex3_Gt (a b : Z * Z * Z) : lex3 a b = Gt <-> lex3 b a = Lt.
Proof.
  rewrite lex3_Lt.
  destruct a as [[a1 a2] a3], b as [[b1 b2] b3]. cbn.
  destruct (Z.compare_spec a1 b1); [destruct (Z.compare_spec a2 b2);
    [destruct (Z.compare_spec a3 b3)| |]| |]; split; intros; try congruence; try lia.
Qed.

Lemma not_nan_spec (x : float) : not_nan x <-> Prim2SF x <> S754_nan.
Proof.
  unfold not_nan, is_nan. rewrite FloatAxioms.eqb_spec. unfold SFeqb. split.
  - intros H E. rewrite E in H. discriminate.
  - intros H. rewrite (SFcompare_rank _ _ H H), lex3_refl. reflexivity.
Qed.

Lemma ltb_rank (x y : float) :
  not_nan x -> not_nan y ->
  (x <? y)%float
  = match lex3 (rank (Prim2SF x)) (rank (Prim2SF y)) with Lt => true | _ => false end.
Proof.
  rewrite !not_nan_spec. intros Hx Hy.
  rewrite FloatAxioms.ltb_spec. unfold SFltb. now rewrite (SFcompare_rank _ _ Hx Hy).
Qed.

Lemma leb_rank (x y : float) :
  not_nan x -> not_nan y ->
  (x <=? y)%float
  = match lex3 (rank (Prim2SF x)) (rank (Prim2SF y)) with Gt => false | _ => true end.
Proof.
  rewrite !not_nan_spec. intros Hx Hy.
  rewrite FloatAxioms.leb_spec. unfold SFleb. rewrite (SFcompare_rank _ _ Hx Hy).
  now destruct lex3.
Qed.

Lemma ltb_not_nan (x y : float) : (x <? y)%float = true -> not_nan x /\ not_nan y.
Proof.
  rewrite FloatAxioms.ltb_spec, !not_nan_spec. unfold SFltb.
  destruct (Prim2SF x), (Prim2SF y); cbn; try discriminate; split; congruence.
Qed.

Lemma leb_not_nan (x y : float) : (x <=? y)%float = true -> not_nan x /\ not_nan y.
Proof.
  rewrite FloatAxioms.leb_spec, !not_nan_spec. unfold SFleb.
  destruct (Prim2SF x), (Prim2SF y); cbn; try discriminate; split; congruence.
Qed.

Ltac rank_cases :=
  repeat match goal with
  | |- context [lex3 ?a ?b] =>
      let E := fresh "E" in
      destruct (lex3 a b) eqn:E;
      [apply lex3_Eq in E | apply lex3_Lt in E | apply lex3_Gt, lex3_Lt in E]
  | H : context [lex3 ?a ?b] |- _ =>
      let E := fresh "E" in
      destruct (lex3 a b) eqn:E;
      [apply lex3_Eq in E | apply lex3_Lt in E | apply lex3_Gt, lex3_Lt in E]
  end.

Ltac rank_solve :=
  rank_cases; cbn in *;
  repeat match goal with H : (_, _, _) = (_, _, _) |- _ => injection H as ? ? ? end;
  try congruence; try lia.

Ltac by_rank3 x y z :=
  destruct (rank (Prim2SF x)) as [[? ?] ?], (rank (Prim2SF y)) as [[? ?] ?],
    (rank (Prim2SF z)) as [[? ?] ?];
  intros; rank_solve.

Lemma fleb_refl (x : float) : not_nan x -> (x <=? x)%float = true.
Proof.
  intros H. rewrite (leb_rank _ _ H H), lex3_refl. reflexivity.
Qed.

Lemma ltb_false_leb (x y : float) :
  not_nan x -> not_nan y -> (x <? y)%float = false -> (y <=? x)%float = true.
Proof.
  intros Hx Hy. rewrite (ltb_rank _ _ Hx Hy), (leb_rank _ _ Hy Hx).
  by_rank3 x y x.
Qed.

Lemma leb_true_ltb_false (x y : float) :
  (x <=? y)%float = true -> (y <? x)%float = false.
Proof.
  intros H. destruct (leb_not_nan _ _ H) as [Hx Hy]. revert H.
  rewrite (leb_rank _ _ Hx Hy), (ltb_rank _ _ Hy Hx).
  by_rank3 x y x.
Qed.

Lemma fltb_leb (x y : float) : (x <? y)%float = true -> (x <=? y)%float = true.
Proof.
  intros H. destruct (ltb_not_nan _ _ H) as [Hx Hy]. revert H.
  rewrite (ltb_rank _ _ Hx Hy), (leb_rank _ _ Hx Hy). now destruct lex3.
Qed.

Lemma fleb_trans (x y z : float) :
  (x <=? y)%float = true -> (y <=? z)%float = true -> (x <=? z)%float = true.
Proof.
  intros H1 H2.
  destruct (leb_not_nan _ _ H1) as [Hx Hy], (leb_not_nan _ _ H2) as [_ Hz].
  revert H1 H2.
  rewrite (leb_rank _ _ Hx Hy), (leb_rank _ _ Hy Hz), (leb_rank _ _ Hx Hz).
  by_rank3 x y z.
Qed.

Lemma fltb_leb_trans (x y z : float) :
  (x <? y)%float = true -> (y <=? z)%float = true -> (x <? z)%float = true.
Proof.
  intros H1 H2.
  destruct (ltb_not_nan _ _ H1) as [Hx Hy], (leb_not_nan _ _ H2) as [_ Hz].
  revert H1 H2.
  rewrite (ltb_rank _ _ Hx Hy), (leb_rank _ _ Hy Hz), (ltb_rank _ _ Hx Hz).
  by_rank3 x y z.
Qed.

(** [x - x] is a zero or a NaN, whatever [x] is. *)
Lemma sub_diag_SF (x : float) :
  Prim2SF (x - x)%float = S754_zero false \/ Prim2SF (x - x)%float = S754_nan.
Proof.
  rewrite FloatAxioms.sub_spec. unfold SF64sub.
  destruct (Prim2SF x) as [s|s| |s m e]; cbn [SFsub].
  - left. now destruct s.
  - right. now destruct s.
  - now right.
  - left. rewrite Z.min_id. unfold shl_align. rewrite !Z.sub_diag. reflexivity.
Qed.

(* ================================================================== *)
(** * Division of an integer by a power of two *)
(* ================================================================== *)

(** Python divides two [int]s by the division of the format; for a divisor
    2^K this is the rounding of the dividend scaled by 2^-K.  Both walk
    through the same halvings of the dividend. *)

Lemma shr_1_spec (m : Z) (r s : bool) :
  0 <= m ->
  shr_1 {| shr_m := m; shr_r := r; shr_s := s |}
  = {| shr_m := m / 2; shr_r := Z.odd m; shr_s := r || s |}.
Proof.
  intros H. destruct m as [|[p|p|]|p]; try lia; cbn [shr_1].
  - reflexivity.
  - f_equal. change (Z.pos p~1) with (2 * Z.pos p + 1).
    rewrite Z.add_comm, Z.mul_comm, Z.div_add by lia. reflexivity.
  - f_equal. change (Z.pos p~0) with (2 * Z.pos p).
    rewrite Z.mul_comm, Z.div_mul by lia. reflexivity.
  - reflexivity.
Qed.

Lemma iter_pos_nat {A : Type} (f : A -> A) (p : positive) :
  forall x, iter_pos f p x = Nat.iter (Pos.to_nat p) f x.
Proof.
  induction p as [p IH|p IH|]; intros x; cbn [iter_pos].
  - rewrite !IH, Pos2Nat.inj_xI, Nat.iter_succ_r.
    replace (2 * Pos.to_nat p)%nat with (Pos.to_nat p + Pos.to_nat p)%nat by lia.
    now rewrite Nat.iter_add.
  - rewrite !IH, Pos2Nat.inj_xO.
    replace (2 * Pos.to_nat p)%nat with (Pos.to_nat p + Pos.to_nat p)%nat by lia.
    now rewrite Nat.iter_add.
  - reflexivity.
Qed.

(** [k + 1] halvings of an exact integer: the quotient, the last bit shifted
    out, and whether a lower bit was set. *)
Lemma iter_shr_1 (N : Z) (k : nat) :
  0 <= N ->
  Nat.iter (S k) shr_1 {| shr_m := N; shr_r := false; shr_s := false |}
  = {| shr_m := N / 2 ^ (Z.of_nat k + 1);
       shr_r := Z.odd (N / 2 ^ Z.of_nat k);
       shr_s := negb (N mod 2 ^ Z.of_nat k =? 0) |}.
Proof.
  intros H. induction k as [|k IH].
  - cbn [Nat.iter]. rewrite shr_1_spec by lia. cbn [Z.of_nat].
    rewrite Z.div_1_r, Z.mod_1_r. reflexivity.
  - change (Nat.iter (S (S k)) shr_1 ?x) with (shr_1 (Nat.iter (S k) shr_1 x)).
    rewrite IH, shr_1_spec by (apply Z.div_pos; lia).
    rewrite Z.div_div by lia.
    replace (2 ^ (Z.of_nat k + 1) * 2) with (2 ^ (Z.of_nat (S k) + 1))
      by (rewrite Nat2Z.inj_succ, <- !Z.add_1_r, !Z.pow_add_r by lia; lia).
    replace (Z.of_nat k + 1) with (Z.of_nat (S k)) by lia.
    f_equal.
    set (K := Z.of_nat k). replace (Z.of_nat (S k)) with (K + 1) by lia.
    rewrite Z.pow_add_r, Z.pow_1_r by lia.
    rewrite Z.rem_mul_r by lia.
    assert (P : 0 < 2 ^ K) by (apply Z.pow_pos_nonneg; lia).
    pose proof (Z.mod_pos_bound N (2 ^ K) P) as B1.
    pose proof (Z.mod_pos_bound (N / 2 ^ K) 2 ltac:(lia)) as B2.
    rewrite Zodd_mod.
    destruct (Z.eqb_spec (N mod 2 ^ K) 0) as [E|E];
      destruct (Z.eqb_spec ((N / 2 ^ K) mod 2) 1) as [E2|E2]; cbn;
      symmetry; try (apply negb_true_iff); try (apply negb_false_iff);
      try (apply Z.eqb_neq); try (apply Z.eqb_eq); nia.
Qed.

Lemma shifted_nat (N : Z) (k : nat) :
  shifted N (Z.of_nat k)
  = Nat.iter k shr_1 {| shr_m := N; shr_r := false; shr_s := false |}.
Proof.
  destruct k as [|k]; [reflexivity|].
  cbn [Z.of_nat shifted]. rewrite iter_pos_nat, SuccNat2Pos.id_succ. reflexivity.
Qed.

Lemma shifted_neg (N k : Z) :
  k <= 0 ->
  shifted N k = {| shr_m := N * 2 ^ (- k); shr_r := false; shr_s := false |}.
Proof.
  intros H. destruct k as [|q|q]; [|lia|reflexivity].
  cbn. now rewrite Z.mul_1_r.
Qed.

(** Halving a doubled integer gives it back. *)
Lemma iter_shr_double (N : Z) (s : nat) :
  0 <= N ->
  forall k,
    Nat.iter k shr_1 {| shr_m := N * 2 ^ Z.of_nat s; shr_r := false; shr_s := false |}
    = shifted N (Z.of_nat k - Z.of_nat s).
Proof.
  intros H. induction s as [|s IH]; intros k.
  - cbn [Z.of_nat]. rewrite Z.mul_1_r, Z.sub_0_r. now rewrite shifted_nat.
  - destruct k as [|k].
    + cbn [Nat.iter]. rewrite shifted_neg by lia.
      replace (- (Z.of_nat 0 - Z.of_nat (S s))) with (Z.of_nat (S s)) by lia.
      reflexivity.
    + rewrite Nat.iter_succ_r, shr_1_spec
        by (apply Z.mul_nonneg_nonneg; [lia|apply Z.pow_nonneg; lia]).
      rewrite Nat2Z.inj_succ, Z.pow_succ_r by lia.
      replace (N * (2 * 2 ^ Z.of_nat s)) with (N * 2 ^ Z.of_nat s * 2) by lia.
      rewrite Z.div_mul, Z.odd_mul by lia. cbn [Z.odd andb orb].
      rewrite Bool.andb_false_r, IH. f_equal. lia.
Qed.

Lemma shifted_mul (N s k : Z) :
  0 <= N -> 0 <= s -> 0 <= k ->
  shifted (N * 2 ^ s) k = shifted N (k - s).
Proof.
  intros HN Hs Hk.
  rewrite <- (Z2Nat.id k Hk), <- (Z2Nat.id s Hs), shifted_nat.
  now apply iter_shr_double.
Qed.

(** More halvings of a halved integer. *)
Lemma shr_shifted (N k e n : Z) :
  0 <= N ->
  shr (shifted N k) e n
  = if 0 <? n then (shifted N (k + n), e + n) else (shifted N k, e).
Proof.
  intros HN. destruct n as [|n|n]; cbn [shr Z.ltb Z.compare]; try reflexivity.
  f_equal. rewrite iter_pos_nat.
  destruct (Z.le_gt_cases k 0) as [Hk|Hk].
  - rewrite shifted_neg by lia.
    rewrite <- (Z2Nat.id (- k)) by lia.
    rewrite iter_shr_double by lia. f_equal. lia.
  - replace (shifted N k)
      with (Nat.iter (Z.to_nat k) shr_1
              {| shr_m := N; shr_r := false; shr_s := false |})
      by (rewrite <- shifted_nat, Z2Nat.id by lia; reflexivity).
    rewrite <- Nat.iter_add, <- shifted_nat. f_equal. lia.
Qed.

(** The quotient and the location that a division by a power of two gives
    are the record of the halvings. *)
Lemma div_pow2_shifted (M K : Z) :
  0 <= M -> 0 < K ->
  shr_record_of_loc (M / 2 ^ K) (new_location (2 ^ K) (M mod 2 ^ K))
  = shifted M K.
Proof.
  intros HM HK.
  destruct (Z.to_nat K) as [|j] eqn:Ej; [lia|].
  transitivity (shifted M (Z.of_nat (S j))); [|f_equal; lia].
  rewrite shifted_nat, iter_shr_1 by lia.
  replace K with (Z.of_nat j + 1) by lia. set (J := Z.of_nat j).
  assert (P : 0 < 2 ^ J) by (apply Z.pow_pos_nonneg; lia).
  unfold new_location.
  replace (Z.even (2 ^ (J + 1))) with true
    by (rewrite Z.pow_add_r, Z.pow_1_r, Z.even_mul by lia; now rewrite Bool.orb_true_r).
  unfold new_location_even.
  rewrite Z.pow_add_r, Z.pow_1_r by lia.
  rewrite Z.rem_mul_r by lia.
  pose proof (Z.mod_pos_bound M (2 ^ J) P) as B1.
  pose proof (Z.mod_pos_bound (M / 2 ^ J) 2 ltac:(lia)) as B2.
  rewrite Zodd_mod.
  destruct (Z.eqb_spec (M mod 2 ^ J) 0) as [E|E];
    destruct (Z.eqb_spec ((M / 2 ^ J) mod 2) 1) as [E2|E2]; cbn [negb].
  - rewrite E, E2. destruct (Z.eqb_spec (0 + 2 ^ J * 1) 0); [lia|].
    replace (2 * (0 + 2 ^ J * 1) ?= 2 ^ J * 2) with Eq
      by (symmetry; apply Z.compare_eq_iff; lia).
    reflexivity.
  - assert (E3 : (M / 2 ^ J) mod 2 = 0) by lia. rewrite E, E3.
    rewrite Z.mul_0_r. reflexivity.
  - rewrite E2. destruct (Z.eqb_spec (M mod 2 ^ J + 2 ^ J * 1) 0); [lia|].
    replace (2 * (M mod 2 ^ J + 2 ^ J * 1) ?= 2 ^ J * 2) with Gt
      by (symmetry; apply Z.compare_gt_iff; lia).
    reflexivity.
  - assert (E3 : (M / 2 ^ J) mod 2 = 0) by lia. rewrite E3.
    destruct (Z.eqb_spec (M mod 2 ^ J + 2 ^ J * 0) 0); [lia|].
    replace (2 * (M mod 2 ^ J + 2 ^ J * 0) ?= 2 ^ J * 2) with Lt
      by (symmetry; apply Z.compare_lt_iff; lia).
    reflexivity.
Qed.

Lemma digits2_pos_size (p : positive) : digits2_pos p = Pos.size p.
Proof. induction p; cbn; congruence. Qed.

Lemma Zdigits2_log2 (z : Z) : 0 < z -> Zdigits2 z = Z.log2 z + 1.
Proof.
  destruct z as [|p|p]; try lia. intros _. cbn [Zdigits2].
  rewrite digits2_pos_size. destruct p; cbn; lia.
Qed.

Lemma iter_xO_pow2 (p d : positive) :
  Zpos (Pos.iter xO p d) = Zpos p * 2 ^ Zpos d.
Proof.
  induction d as [|d IH] using Pos.peano_ind.
  - cbn. lia.
  - rewrite Pos.iter_succ, Pos2Z.inj_succ, Z.pow_succ_r by lia.
    change (Z.pos (Pos.iter xO p d)~0) with (2 * Z.pos (Pos.iter xO p d)).
    rewrite IH. lia.
Qed.

Lemma log2_scaled (p : positive) (s K : Z) :
  0 <= s -> 0 <= K -> K <= Z.log2 (Zpos p) + s ->
  0 < Zpos p * 2 ^ s / 2 ^ K
  /\ Z.log2 (Zpos p * 2 ^ s / 2 ^ K) = Z.log2 (Zpos p) + s - K.
Proof.
  intros Hs HK H.
  rewrite <- Z.shiftl_mul_pow2, <- Z.shiftr_div_pow2 by lia.
  assert (L : Z.log2 (Z.shiftl (Zpos p) s) = Z.log2 (Zpos p) + s)
    by (apply Z.log2_shiftl; lia).
  assert (P : 0 < Z.shiftl (Zpos p) s).
  { rewrite Z.shiftl_mul_pow2 by lia. apply Z.mul_pos_pos; [lia|].
    apply Z.pow_pos_nonneg; lia. }
  rewrite Z.log2_shiftr by exact P. rewrite L.
  split; [|lia].
  rewrite Z.shiftr_div_pow2 by lia.
  apply Z.div_str_pos. split; [apply Z.pow_pos_nonneg; lia|].
  pose proof (Z.log2_spec _ P) as [B _]. rewrite L in B.
  eapply Z.le_trans; [|exact B]. apply Z.pow_le_mono_r; lia.
Qed.

Lemma norm_side (p : positive) (K : Z) :
  1 <= K <= 1000 ->
  let d := Zdigits2 (Zpos p) in
  let '(mz, ez) := shl_align p (- K) (fexp prec emax (Zpos (digits2_pos p) + - K)) in
  shr_fexp prec emax (Zpos mz) ez loc_Exact
  = (shifted (Zpos p) (d - 53), d - K - 53).
Proof.
  intros HK. cbn zeta. change (Zpos (digits2_pos p)) with (Zdigits2 (Zpos p)).
  pose proof (Zdigits2_log2 (Zpos p) ltac:(lia)) as Hd.
  pose proof (Z.log2_nonneg (Zpos p)) as Hl.
  set (d := Zdigits2 (Zpos p)) in *.
  assert (F : fexp prec emax (d + - K) = d - K - 53)
    by (unfold fexp, SpecFloat.emin, prec, emax; lia).
  rewrite F. unfold shl_align.
  destruct (d - K - 53 - - K) as [|q|q] eqn:E.
  - unfold shr_fexp. fold d. rewrite F. cbn [shr_record_of_loc].
    change {| shr_m := Zpos p; shr_r := false; shr_s := false |}
      with (shifted (Zpos p) 0).
    rewrite shr_shifted by lia. rewrite E. cbn [Z.ltb Z.compare].
    f_equal; [f_equal|]; lia.
  - unfold shr_fexp. fold d. rewrite F. cbn [shr_record_of_loc].
    change {| shr_m := Zpos p; shr_r := false; shr_s := false |}
      with (shifted (Zpos p) 0).
    rewrite shr_shifted by lia. rewrite E. cbn [Z.ltb Z.compare].
    f_equal; [f_equal|]; lia.
  - unfold shr_fexp.
    assert (D : Zdigits2 (Zpos (Pos.iter xO p q)) = 53).
    { rewrite Zdigits2_log2 by lia. rewrite iter_xO_pow2.
      rewrite <- Z.shiftl_mul_pow2 by lia. rewrite Z.log2_shiftl by lia. lia. }
    rewrite D.
    replace (fexp prec emax (53 + (d - K - 53)) - (d - K - 53)) with 0
      by (unfold fexp, SpecFloat.emin, prec, emax; lia).
    cbn [shr shr_record_of_loc]. f_equal.
    rewrite shifted_neg by lia. rewrite iter_xO_pow2.
    replace (- (d - 53)) with (Zpos q) by lia. reflexivity.
Qed.

Lemma Zdigits2_pow2 (K : Z) : 0 <= K -> Zdigits2 (2 ^ K) = K + 1.
Proof.
  intros H. rewrite Zdigits2_log2 by (apply Z.pow_pos_nonneg; lia).
  now rewrite Z.log2_pow2.
Qed.

Lemma div_side (p : positive) (K : Z) :
  1 <= K <= 1000 ->
  let d := Zdigits2 (Zpos p) in
  let '(q, e', loc) := SFdiv_core_binary prec emax (Zpos p) 0 (2 ^ K) 0 in
  shr_fexp prec emax q e' loc = (shifted (Zpos p) (d - 53), d - K - 53).
Proof.
  intros HK. cbn zeta. unfold SFdiv_core_binary.
  pose proof (Zdigits2_log2 (Zpos p) ltac:(lia)) as Hd.
  pose proof (Z.log2_nonneg (Zpos p)) as Hl.
  set (d := Zdigits2 (Zpos p)) in *.
  rewrite Zdigits2_pow2 by lia.
  set (e' := Z.min (fexp prec emax (d + 0 - (K + 1 + 0))) (0 - 0)).
  assert (He : e' = Z.min (d - K - 54) 0)
    by (unfold e', fexp, SpecFloat.emin, prec, emax; lia).
  set (s := 0 - 0 - e').
  assert (Hs : s = - e') by (unfold s; lia).
  set (m' := match s with Z0 => Zpos p | Zpos _ => Z.shiftl (Zpos p) s | Zneg _ => 0 end).
  assert (Hm : m' = Zpos p * 2 ^ s).
  { unfold m'. destruct s as [|u|u] eqn:Es; [lia| |lia].
    now rewrite Z.shiftl_mul_pow2 by lia. }
  assert (Q : Z.div_eucl m' (2 ^ K) = (m' / 2 ^ K, m' mod 2 ^ K)).
  { unfold Z.div, Z.modulo. now destruct (Z.div_eucl m' (2 ^ K)). }
  rewrite Q. unfold shr_fexp.
  rewrite div_pow2_shifted by lia.
  rewrite Hm, shifted_mul by lia.
  destruct (log2_scaled p s K ltac:(lia) ltac:(lia) ltac:(lia)) as [Pq Lq].
  rewrite shr_shifted by lia.
  rewrite Zdigits2_log2 by exact Pq. rewrite Lq.
  assert (N : fexp prec emax (Z.log2 (Zpos p) + s - K + 1 + e') - e' = d - K - 53 - e')
    by (unfold fexp, SpecFloat.emin, prec, emax; lia).
  rewrite N.
  destruct (Z.ltb_spec 0 (d - K - 53 - e')) as [_|?]; [|lia].
  f_equal; [f_equal|]; lia.
Qed.

(** Dividing an integer by 2^K rounds it once, as scaling it by 2^-K does. *)
Lemma quotient_pow2 (n K : Z) :
  1 <= K <= 1000 -> quotient n (2 ^ K) = rounded n (- K).
Proof.
  intros HK. unfold quotient, rounded.
  assert (P : 0 < 2 ^ K) by (apply Z.pow_pos_nonneg; lia).
  replace (Z.abs (2 ^ K)) with (2 ^ K) by lia.
  replace (2 ^ K <? 0) with false by (symmetry; apply Z.ltb_ge; lia).
  destruct n as [|p|p]; cbn [Z.eqb Z.abs Z.ltb Z.compare xorb binary_normalize];
    [reflexivity| |];
    unfold binary_round;
    pose proof (div_side p K HK) as A; pose proof (norm_side p K HK) as B;
    cbn zeta in A, B;
    destruct (SFdiv_core_binary prec emax (Zpos p) 0 (2 ^ K) 0) as [[q e'] loc];
    destruct (shl_align p (- K) _) as [mz ez];
    unfold binary_round_aux; now rewrite A, B.
Qed.

Lemma shr_m_shifted (N k : Z) :
  0 <= N ->
  shr_m (shifted N k) = if k <=? 0 then N * 2 ^ (- k) else N / 2 ^ k.
Proof.
  intros H. destruct (Z.leb_spec k 0) as [Hk|Hk].
  - now rewrite shifted_neg.
  - rewrite <- (Z2Nat.id k) at 1 by lia. rewrite shifted_nat.
    destruct (Z.to_nat k) as [|j] eqn:E; [lia|].
    rewrite iter_shr_1 by lia. cbn [shr_m]. do 2 f_equal. lia.
Qed.

Lemma round_nearest_even_bound (m : Z) (l : location) :
  m <= round_nearest_even m l <= m + 1.
Proof.
  unfold round_nearest_even. destruct l as [|[]]; try destruct (Z.even m); lia.
Qed.

(** An integer below 2^(1023 + K) in magnitude, scaled by 2^-K, rounds to
    a zero or a finite number. *)
Lemma scaled_finite (n K : Z) :
  1 <= K <= 1000 -> Z.abs n < 2 ^ (1023 + K) ->
  match rounded n (- K) with
  | S754_zero _ | S754_finite _ _ _ => True
  | _ => False
  end.
Proof.
  intros HK Hn. unfold rounded.
  assert (G : forall s p, Zpos p < 2 ^ (1023 + K) ->
              match binary_round prec emax s p (- K) with
              | S754_zero _ | S754_finite _ _ _ => True
              | _ => False
              end).
  { intros s p Hp. unfold binary_round.
    pose proof (norm_side p K HK) as B. cbn zeta in B.
    destruct (shl_align p (- K) _) as [mz ez].
    unfold binary_round_aux. rewrite B.
    pose proof (Zdigits2_log2 (Zpos p) ltac:(lia)) as Hd.
    pose proof (Z.log2_nonneg (Zpos p)) as Hl.
    assert (Hl2 : Z.log2 (Zpos p) < 1023 + K) by (apply Z.log2_lt_pow2; lia).
    set (d := Zdigits2 (Zpos p)) in *.
    set (m1 := shr_m (shifted (Zpos p) (d - 53))).
    assert (M1 : 0 <= m1 < 2 ^ 53).
    { unfold m1. rewrite shr_m_shifted by lia.
      pose proof (Z.log2_spec (Zpos p) ltac:(lia)) as [_ U].
      replace (Z.succ (Z.log2 (Zpos p))) with d in U by lia.
      destruct (Z.leb_spec (d - 53) 0) as [Hk|Hk].
      - split; [apply Z.mul_nonneg_nonneg; [lia|apply Z.pow_nonneg; lia]|].
        replace (2 ^ 53) with (2 ^ d * 2 ^ (- (d - 53)))
          by (rewrite <- Z.pow_add_r by lia; f_equal; lia).
        apply Z.mul_lt_mono_pos_r; [apply Z.pow_pos_nonneg; lia|exact U].
      - split; [apply Z.div_pos; [lia|apply Z.pow_pos_nonneg; lia]|].
        apply Z.div_lt_upper_bound; [apply Z.pow_pos_nonneg; lia|].
        rewrite <- Z.pow_add_r by lia.
        replace (d - 53 + 53) with d by lia. exact U. }
    pose proof (round_nearest_even_bound m1
                  (loc_of_shr_record (shifted (Zpos p) (d - 53)))) as R.
    set (m2 := round_nearest_even m1 _) in *.
    assert (D2 : Zdigits2 m2 <= 54).
    { destruct (Z.eq_dec m2 0) as [->|Hz]; [cbn; lia|].
      rewrite Zdigits2_log2 by lia.
      pose proof (Z.log2_le_mono m2 (2 ^ 53) ltac:(lia)) as L.
      rewrite Z.log2_pow2 in L by lia. lia. }
    unfold shr_fexp. cbn [shr_record_of_loc].
    change {| shr_m := m2; shr_r := false; shr_s := false |} with (shifted m2 0).
    rewrite shr_shifted by lia.
    set (t := fexp prec emax (Zdigits2 m2 + (d - K - 53)) - (d - K - 53)).
    assert (T : t <= 1) by (unfold t, fexp, SpecFloat.emin, prec, emax; lia).
    destruct (0 <? t);
      match goal with
      | |- match (match shr_m ?r with _ => _ end) with _ => _ end =>
          destruct (shr_m r) as [|m|m] eqn:Em
      end; try exact I.
    - destruct (Z.leb_spec (d - K - 53 + t) (emax - prec)) as [_|H];
        [exact I|unfold emax, prec in H; lia].
    - exfalso. pose proof (shr_m_shifted m2 (0 + t) ltac:(lia)) as S.
      rewrite Em in S.
      destruct (Z.leb_spec (0 + t) 0);
        [pose proof (Z.mul_nonneg_nonneg m2 (2 ^ (- (0 + t))) ltac:(lia)
                       ltac:(apply Z.pow_nonneg; lia))
        |pose proof (Z.div_pos m2 (2 ^ (0 + t)) ltac:(lia)
                       ltac:(apply Z.pow_pos_nonneg; lia))]; lia.
    - destruct (Z.leb_spec (d - K - 53) (emax - prec)) as [_|H];
        [exact I|unfold emax, prec in H; lia].
    - exfalso. cbn in Em. lia. }
  destruct n as [|p|p]; cbn [binary_normalize]; [exact I| |]; apply G; lia.
Qed.

(** [n / 2**K] in Python: the rounding of n * 2^-K, or [OverflowError]. *)
Lemma int_truediv_pow2 (n K : Z) :
  1 <= K <= 1000 ->
  int_truediv n (2 ^ K)
  = checked (rounded n (- K)) "integer division result too large for a float".
Proof.
  intros HK. unfold int_truediv.
  assert (P : 0 < 2 ^ K) by (apply Z.pow_pos_nonneg; lia).
  destruct (Z.eqb_spec (2 ^ K) 0) as [E|_]; [lia|].
  now rewrite quotient_pow2.
Qed.

(** It returns a number for a dividend below 2^(1023 + K) in magnitude. *)
Lemma int_truediv_pow2_Ok (n K : Z) :
  1 <= K <= 1000 -> Z.abs n < 2 ^ (1023 + K) ->
  int_truediv n (2 ^ K) = Ok (SF2Prim (rounded n (- K))).
Proof.
  intros HK Hn. rewrite int_truediv_pow2 by exact HK.
  pose proof (scaled_finite n K HK Hn) as F. unfold checked.
  destruct (rounded n (- K)); easy.
Qed.

(* ================================================================== *)
(** * Properties of the [mem] command *)
(* ================================================================== *)

Lemma float_of_small_nat_nonzero (n : nat) :
  (1 <= n <= 60)%nat ->
  float_of_int (Z.of_nat n) = Ok (nearest (Z.of_nat n))
  /\ (nearest (Z.of_nat n) =? 0)%float = false.
Proof.
  intros H.
  assert (A : forallb (fun k => match rounded (Z.of_nat k) 0 with
                               | S754_infinity _ => false
                               | _ => negb (nearest (Z.of_nat k) =? 0)%float
                               end)
                (seq 1 60) = true) by (vm_compute; reflexivity).
  rewrite forallb_forall in A.
  specialize (A n). rewrite in_seq in A. specialize (A ltac:(lia)).
  unfold float_of_int, checked, nearest in *.
  destruct (rounded (Z.of_nat n) 0); try discriminate A;
    (split; [reflexivity|now apply negb_true_iff]).
Qed.

Lemma truediv_small_nat (a : float) (n : nat) :
  (1 <= n <= 60)%nat ->
  truediv_int a (Z.of_nat n) = Ok (a / nearest (Z.of_nat n))%float.
Proof.
  intros H. destruct (float_of_small_nat_nonzero n H) as [E1 E2].
  unfold truediv_int, truediv. rewrite E1. cbn [bind]. now rewrite E2.
Qed.

Lemma last_item_last (l : list float) (d : float) :
  l <> [] -> last_item l = Ok (last l d).
Proof.
  intros H. destruct (exists_last H) as [l' [a ->]].
  unfold last_item. rewrite rev_app_distr, last_last. reflexivity.
Qed.

Lemma fold_max_spec (t : list float) :
  forall m0, not_nan m0 -> Forall not_nan t ->
  let m := fold_left (fun m y => if (m <? y)%float then y else m) t m0 in
  (m = m0 \/ In m t) /\ (m0 <=? m)%float = true
  /\ forall x, In x t -> (x <=? m)%float = true.
Proof.
  induction t as [|y t IH]; intros m0 Hm0 Ht; cbn [fold_left].
  - split; [now left|]. split; [now apply fleb_refl|]. intros x [].
  - inversion Ht as [|? ? Hy Ht']; subst.
    set (m1 := if (m0 <? y)%float then y else m0).
    assert (Hm1 : not_nan m1) by (unfold m1; now destruct (m0 <? y)%float).
    assert (H01 : (m0 <=? m1)%float = true).
    { unfold m1. destruct (m0 <? y)%float eqn:E;
        [now apply fltb_leb | now apply fleb_refl]. }
    assert (Hy1 : (y <=? m1)%float = true).
    { unfold m1. destruct (m0 <? y)%float eqn:E;
        [now apply fleb_refl | now apply ltb_false_leb]. }
    destruct (IH m1 Hm1 Ht') as [Hin [Hle Hall]].
    split; [|split].
    + destruct Hin as [->|Hin]; [|right; now right].
      unfold m1. destruct (m0 <? y)%float; [right; now left | now left].
    + eapply fleb_trans; eassumption.
    + intros x [<-|Hx]; [eapply fleb_trans; eassumption | now apply Hall].
Qed.

Lemma fold_min_spec (t : list float) :
  forall m0, not_nan m0 -> Forall not_nan t ->
  let m := fold_left (fun m y => if (y <? m)%float then y else m) t m0 in
  (m = m0 \/ In m t) /\ (m <=? m0)%float = true
  /\ forall x, In x t -> (m <=? x)%float = true.
Proof.
  induction t as [|y t IH]; intros m0 Hm0 Ht; cbn [fold_left].
  - split; [now left|]. split; [now apply fleb_refl|]. intros x [].
  - inversion Ht as [|? ? Hy Ht']; subst.
    set (m1 := if (y <? m0)%float then y else m0).
    assert (Hm1 : not_nan m1) by (unfold m1; now destruct (y <? m0)%float).
    assert (H01 : (m1 <=? m0)%float = true).
    { unfold m1. destruct (y <? m0)%float eqn:E;
        [now apply fltb_leb | now apply fleb_refl]. }
    assert (Hy1 : (m1 <=? y)%float = true).
    { unfold m1. destruct (y <? m0)%float eqn:E;
        [now apply fleb_refl | now apply ltb_false_leb]. }
    destruct (IH m1 Hm1 Ht') as [Hin [Hle Hall]].
    split; [|split].
    + destruct Hin as [->|Hin]; [|right; now right].
      unfold m1. destruct (y <? m0)%float; [right; now left | now left].
    + eapply fleb_trans; eassumption.
    + intros x [<-|Hx]; [eapply fleb_trans; eassumption | now apply Hall].
Qed.

Lemma py_max_is_maximum (l : list float) (m : float) :
  Forall not_nan l -> py_max l = Ok m -> Mem.is_maximum m l.
Proof.
  destruct l as [|x t]; [discriminate|]. intros Hl [= <-].
  inversion Hl as [|? ? Hx Ht]; subst.
  destruct (fold_max_spec t x Hx Ht) as [Hin [Hle Hall]].
  split.
  - destruct Hin as [->|Hin]; [now left | now right].
  - intros y [<-|Hy]; [exact Hle | now apply Hall].
Qed.

Lemma py_min_is_minimum (l : list float) (m : float) :
  Forall not_nan l -> py_min l = Ok m -> Mem.is_minimum m l.
Proof.
  destruct l as [|x t]; [discriminate|]. intros Hl [= <-].
  inversion Hl as [|? ? Hx Ht]; subst.
  destruct (fold_min_spec t x Hx Ht) as [Hin [Hle Hall]].
  split.
  - destruct Hin as [->|Hin]; [now left | now right].
  - intros y [<-|Hy]; [exact Hle | now apply Hall].
Qed.

Lemma lastn_length_5 (h : list float) :
  (5 <= List.length h)%nat -> List.length (lastn 5 h) = 5%nat.
Proof.
  intros H. unfold lastn. rewrite length_skipn. lia.
Qed.

Lemma firstn_length_5 (h : list float) :
  (5 <= List.length h)%nat -> List.length (firstn 5 h) = 5%nat.
Proof.
  intros H. rewrite length_firstn. lia.
Qed.

(** The trend of a buffer, by cases on its length. *)
Lemma trend_cases (h : list float) :
  exists s, Mem.trend h = Ok s /\
    if (5 <=? List.length h)%nat
    then Mem.bucket (Mem.mean (lastn 5 h) - Mem.mean (firstn 5 h)) s
    else s = Mem.COLLECTING.
Proof.
  unfold Mem.trend.
  destruct (Nat.leb_spec 5 (List.length h)) as [H5|H5].
  - unfold Mem.mean.
    rewrite (lastn_length_5 h H5), (firstn_length_5 h H5).
    rewrite !truediv_small_nat by lia. cbn [bind].
    set (diff := (_ - _)%float).
    eexists. split; [reflexivity|].
    destruct (10 <? diff)%float eqn:E1; [now constructor 1|].
    destruct (2 <? diff)%float eqn:E2; [now constructor 2|].
    destruct (diff <? -10)%float eqn:E3; [now constructor 3|].
    destruct (diff <? -2)%float eqn:E4; [now constructor 4 | now constructor 5].
  - eexists. split; reflexivity.
Qed.

(** C1. For a non-empty buffer of the deque (at most 60 samples) the handler
    raises nothing and sends one report built from the values it computed.
    Of these, the trend of a buffer of at least 5 samples is the bucket that
    the threshold table gives to diff = mean of the last 5 - mean of the
    first 5 (above 10, else above 2, else below -10, else below -2, else
    stable), and is "collecting" below 5 samples; current is the last entry;
    the mean is the mean of the whole buffer; and, the samples being numbers,
    the maximum and minimum are those of the whole buffer.  (The minimum is
    computed beside the others; the report text prints current, mean, peak
    and trend.) *)
Theorem mem_trend_and_statistics (rss : result Z) (h : list float) :
  h <> [] -> (List.length h <= 60)%nat ->
  exists st,
    Mem.analyse h = Ok st
    /\ Mem.execute rss h
       = Ok (h, [SendText (strip_text (Mem.report (List.length h) st))],
             (true, "内存分析已发送", true))
    /\ (if (5 <=? List.length h)%nat
        then Mem.bucket (Mem.mean (lastn 5 h) - Mem.mean (firstn 5 h))
                        (Mem.trend_str st)
        else Mem.trend_str st = Mem.COLLECTING)
    /\ Mem.current st = last h 0%float
    /\ Mem.avg st = Mem.mean h
    /\ (Forall not_nan h ->
        Mem.is_maximum (Mem.max_mem st) h /\ Mem.is_minimum (Mem.min_mem st) h).
Proof.
  intros Hne Hlen.
  destruct (trend_cases h) as [s [Ht Hs]].
  assert (Hmax : exists m, py_max h = Ok m) by (destruct h; [easy|eexists; reflexivity]).
  assert (Hmin : exists m, py_min h = Ok m) by (destruct h; [easy|eexists; reflexivity]).
  destruct Hmax as [mx Hmx], Hmin as [mn Hmn].
  assert (Hn : (1 <= List.length h <= 60)%nat) by (destruct h; cbn in *; [easy|lia]).
  assert (Ha : Mem.analyse h
               = Ok {| Mem.current := last h 0%float; Mem.avg := Mem.mean h;
                       Mem.max_mem := mx; Mem.min_mem := mn; Mem.trend_str := s |}).
  { unfold Mem.analyse. rewrite (last_item_last h 0%float Hne). cbn [bind].
    rewrite truediv_small_nat by exact Hn. cbn [bind].
    rewrite Hmx, Hmn, Ht. reflexivity. }
  eexists. split; [exact Ha|]. split; [|split; [exact Hs|split; [reflexivity|split; [reflexivity|]]]].
  - unfold Mem.execute, Mem.sample_if_empty.
    destruct h as [|x t]; [easy|]. cbn [is_empty]. rewrite Ha. reflexivity.
  - intros Hnan. cbn [Mem.max_mem Mem.min_mem].
    split; [now apply py_max_is_maximum | now apply py_min_is_minimum].
Qed.

(** C1 at a buffer of six samples. *)
Lemma mem_trend_and_statistics_witness :
  exists st,
    Mem.analyse [100; 101; 99; 104; 120; 131]%float = Ok st
    /\ Mem.execute (Ok 0) [100; 101; 99; 104; 120; 131]%float
       = Ok ([100; 101; 99; 104; 120; 131]%float,
             [SendText (strip_text (Mem.report 6 st))],
             (true, "内存分析已发送", true))
    /\ Mem.bucket (Mem.mean (lastn 5 [100; 101; 99; 104; 120; 131]%float)
                   - Mem.mean (firstn 5 [100; 101; 99; 104; 120; 131]%float))
                  (Mem.trend_str st)
    /\ Mem.current st = 131%float
    /\ Mem.avg st = Mem.mean [100; 101; 99; 104; 120; 131]%float
    /\ Mem.is_maximum (Mem.max_mem st) [100; 101; 99; 104; 120; 131]%float
    /\ Mem.is_minimum (Mem.min_mem st) [100; 101; 99; 104; 120; 131]%float.
Proof.
  destruct (mem_trend_and_statistics (Ok 0) [100; 101; 99; 104; 120; 131]%float
              ltac:(discriminate) ltac:(cbn; lia))
    as (st & Ha & He & Hb & Hc & Hd & Hm).
  exists st. repeat split; try assumption; apply Hm; repeat constructor.
Defined.

(** C9. When the buffer is empty and the one sampling the command attempts
    leaves it empty, which only a failed sampling does, the command returns
    (true, the no-data text, false) and sends nothing: the text is in the
    reply alone.  The sampling failed because the reading of the process
    raised; the one other way, a division that overflows, takes a reading
    of 2^1033 bytes or more. *)
Theorem mem_no_data (rss : result Z) (h : list float) :
  h = [] -> Mem.sample_if_empty rss h = [] ->
  Mem.execute rss h = Ok ([], [], (true, "❌ 暂无内存数据", false))
  /\ (exists e, History.sample_memory rss = Raise e)
  /\ ((exists e, rss = Raise e)
      \/ (exists r, rss = Ok r /\ 2 ^ 1033 <= Z.abs r)).
Proof.
  intros -> Hs. unfold Mem.execute. rewrite Hs. split; [reflexivity|].
  unfold Mem.sample_if_empty in Hs. cbn [is_empty] in Hs.
  destruct (History.sample_memory rss) as [mem|e] eqn:E; [discriminate Hs|].
  split; [now exists e|].
  destruct rss as [r|e']; [right|left; now exists e'].
  exists r. split; [reflexivity|].
  destruct (Z.lt_ge_cases (Z.abs r) (2 ^ 1033)) as [Hr|Hr]; [|exact Hr].
  unfold History.sample_memory in E. cbn [bind] in E.
  change 1024 with (2 ^ 10) in E at 1.
  rewrite int_truediv_pow2_Ok in E by (try lia; exact Hr). discriminate E.
Qed.

(** C9 at a sampling that raises on the empty buffer. *)
Lemma mem_no_data_witness :
  Mem.execute (Raise (Exception "NoSuchProcess")) []
  = Ok ([], [], (true, "❌ 暂无内存数据", false))
  /\ exists e, History.sample_memory (Raise (Exception "NoSuchProcess")) = Raise e.
Proof.
  exact (let H := mem_no_data (Raise (Exception "NoSuchProcess")) [] eq_refl eq_refl in
         conj (proj1 H) (proj1 (proj2 H))).
Defined.

(** Against C5 as stated: a buffer of ten samples whose last five have mean
    150 and whose first five have mean 135 is not classified as a slow
    increase. *)
Lemma trend_150_vs_135_is_not_slow :
  (10 <= List.length [135; 135; 135; 135; 135; 150; 150; 150; 150; 150]%float)%nat
  /\ Mem.mean (lastn 5 [135; 135; 135; 135; 135; 150; 150; 150; 150; 150]%float)
     = 150%float
  /\ Mem.mean (firstn 5 [135; 135; 135; 135; 135; 150; 150; 150; 150; 150]%float)
     = 135%float
  /\ Mem.trend [135; 135; 135; 135; 135; 150; 150; 150; 150; 150]%float
     <> Ok Mem.SLOW_INCREASE.
Proof.
  split; [cbn; lia|]. split; [vm_compute; reflexivity|].
  split; [vm_compute; reflexivity|].
  vm_compute. discriminate.
Qed.

(** C5, amended. A buffer of at least 10 samples whose last five have mean
    150 and whose first five have mean 135 is classified as a marked
    increase (possible leak), the difference 15 being above 10; so is one
    with means 160 and 140. *)
Theorem trend_of_literal_means (h : list float) (recent old : float) :
  (10 <= List.length h)%nat ->
  Mem.mean (lastn 5 h) = recent -> Mem.mean (firstn 5 h) = old ->
  (recent = 150%float /\ old = 135%float) \/ (recent = 160%float /\ old = 140%float) ->
  Mem.trend h = Ok Mem.MARKED_INCREASE.
Proof.
  intros Hlen Hr Ho Hv.
  assert (H5 : (5 <= List.length h)%nat) by lia.
  unfold Mem.mean in Hr, Ho.
  rewrite (lastn_length_5 h H5) in Hr. rewrite (firstn_length_5 h H5) in Ho.
  unfold Mem.trend.
  destruct (Nat.leb_spec 5 (List.length h)) as [_|?]; [|lia].
  rewrite (lastn_length_5 h H5), (firstn_length_5 h H5).
  rewrite !truediv_small_nat by lia. cbn [bind].
  rewrite Hr, Ho.
  destruct Hv as [[-> ->]|[-> ->]]; vm_compute; reflexivity.
Qed.

(** C5, amended, at the two buffers of five and five equal samples. *)
Lemma trend_of_literal_means_witness :
  Mem.trend [135; 135; 135; 135; 135; 150; 150; 150; 150; 150]%float
  = Ok Mem.MARKED_INCREASE
  /\ Mem.trend [140; 140; 140; 140; 140; 160; 160; 160; 160; 160]%float
     = Ok Mem.MARKED_INCREASE.
Proof.
  split.
  - apply (trend_of_literal_means _ 150%float 135%float);
      [cbn; lia | vm_compute; reflexivity | vm_compute; reflexivity | left; split; reflexivity].
  - apply (trend_of_literal_means _ 160%float 140%float);
      [cbn; lia | vm_compute; reflexivity | vm_compute; reflexivity | right; split; reflexivity].
Defined.

Lemma if_same {A : Type} (b : bool) (x : A) : (if b then x else x) = x.
Proof. now destruct b. Qed.

Lemma sub_diag_thresholds (a : float) :
  (10 <? a - a)%float = false /\ (2 <? a - a)%float = false
  /\ (a - a <? -10)%float = false /\ (a - a <? -2)%float = false.
Proof.
  rewrite !FloatAxioms.ltb_spec.
  destruct (sub_diag_SF a) as [-> | ->]; repeat split; vm_compute; reflexivity.
Qed.

(** Against C8 as stated: for five samples equal to 0.44999999999999996 the
    mean the handler computes, 0.45, is not that value (to one decimal the
    report shows 0.4 as current and 0.5 as mean). *)
Lemma five_equal_samples_mean_differs :
  exists st,
    Mem.analyse [0x1.cccccccccccccp-2; 0x1.cccccccccccccp-2; 0x1.cccccccccccccp-2;
                 0x1.cccccccccccccp-2; 0x1.cccccccccccccp-2]%float = Ok st
    /\ Mem.current st = 0x1.cccccccccccccp-2%float
    /\ Mem.avg st = 0x1.ccccccccccccdp-2%float
    /\ Mem.avg st <> Mem.current st.
Proof.
  eexists. split; [vm_compute; reflexivity|]. cbn [Mem.current Mem.avg].
  split; [reflexivity|]. split; [reflexivity|].
  intros E.
  assert (X : (0x1.ccccccccccccdp-2 =? 0x1.cccccccccccccp-2)%float = true)
    by (rewrite E; vm_compute; reflexivity).
  vm_compute in X. discriminate X.
Qed.

(** C8, amended. With the buffer holding exactly five equal values v the
    command raises nothing and reports the trend "stable"; current, maximum
    and minimum are v, and the mean is the float mean of the five samples,
    which is v whenever that mean is exact, as it is for v = 100. *)
Theorem mem_five_equal_samples (rss : result Z) (v : float) :
  Mem.analyse [v; v; v; v; v]
  = Ok {| Mem.current := v; Mem.avg := Mem.mean [v; v; v; v; v];
          Mem.max_mem := v; Mem.min_mem := v; Mem.trend_str := Mem.STABLE |}
  /\ Mem.execute rss [v; v; v; v; v]
     = Ok ([v; v; v; v; v],
           [SendText (strip_text (Mem.report 5
              {| Mem.current := v; Mem.avg := Mem.mean [v; v; v; v; v];
                 Mem.max_mem := v; Mem.min_mem := v;
                 Mem.trend_str := Mem.STABLE |}))],
           (true, "内存分析已发送", true))
  /\ Mem.mean [100; 100; 100; 100; 100]%float = 100%float.
Proof.
  assert (Ha : Mem.analyse [v; v; v; v; v]
               = Ok {| Mem.current := v; Mem.avg := Mem.mean [v; v; v; v; v];
                       Mem.max_mem := v; Mem.min_mem := v;
                       Mem.trend_str := Mem.STABLE |}).
  { unfold Mem.analyse, Mem.trend.
    change (last_item [v; v; v; v; v]) with (Ok v).
    change (lastn 5 [v; v; v; v; v]) with [v; v; v; v; v].
    change (firstn 5 [v; v; v; v; v]) with [v; v; v; v; v].
    change (List.length [v; v; v; v; v]) with 5%nat.
    cbn [bind Nat.leb].
    rewrite !truediv_small_nat by lia. cbn [bind].
    unfold py_max, py_min. cbn [fold_left bind]. rewrite !if_same.
    change (py_sum [v; v; v; v; v] / nearest (Z.of_nat 5))%float
      with (Mem.mean [v; v; v; v; v]).
    destruct (sub_diag_thresholds (Mem.mean [v; v; v; v; v])) as (-> & -> & -> & ->).
    reflexivity. }
  split; [exact Ha|]. split; [|vm_compute; reflexivity].
  unfold Mem.execute, Mem.sample_if_empty. cbn [is_empty]. rewrite Ha. reflexivity.
Qed.

(* ================================================================== *)
(** * Properties of the image generator *)
(* ================================================================== *)

(** A generator that [__init__] returned is its record of attributes, with
    the fonts the loading gave. *)
Lemma init_Ok (truetype : string -> Z -> result Image.font)
    (self : Image.generator) :
  Image.__init__ truetype = Ok self ->
  exists fb ft fm fs fv,
    Image.load_fonts truetype = Ok (fb, ft, fm, fs, fv)
    /\ self
       = {| Image.width := 1100; Image.height := 920;
            Image.bg_color := (22, 22, 28); Image.card_bg := (32, 32, 40);
            Image.title_color := (255, 255, 255);
            Image.text_color := (170, 170, 180);
            Image.value_color := (235, 235, 245);
            Image.bar_bg_color := (50, 50, 58);
            Image.brand_color := (99, 132, 255);
            Image.success_color := (72, 199, 142);
            Image.warning_color := (255, 193, 69);
            Image.danger_color := (255, 99, 99);
            Image.cyan_color := (69, 199, 227);
            Image.purple_color := (167, 139, 250);
            Image.font_bold := fb; Image.font_title := ft;
            Image.font_main := fm; Image.font_small := fs;
            Image.font_value := fv |}.
Proof.
  unfold Image.__init__.
  destruct (Image.load_fonts truetype) as [[[[[fb ft] fm] fs] fv]|e];
    [|discriminate].
  cbn [bind]. intros [= <-]. now exists fb, ft, fm, fs, fv.
Qed.

(** The fonts aside, [__init__] sets the same attributes whatever the font
    files do. *)
Lemma init_attributes (truetype : string -> Z -> result Image.font)
    (self : Image.generator) :
  Image.__init__ truetype = Ok self ->
  Image.width self = 1100 /\ Image.height self = 920
  /\ Image.bg_color self = (22, 22, 28) /\ Image.card_bg self = (32, 32, 40)
  /\ Image.success_color self = (72, 199, 142)
  /\ Image.warning_color self = (255, 193, 69)
  /\ Image.danger_color self = (255, 99, 99).
Proof.
  intros H. destruct (init_Ok _ _ H) as (fb & ft & fm & fs & fv & _ & ->).
  cbn. repeat split.
Qed.

(** C3. For a percentage p with 0 <= p <= 100, the usage colour of a
    generator as [__init__] leaves it (every generator the constructor
    returns) is the success colour exactly when p < 60, the warning colour
    exactly when 60 <= p < 85, and the danger colour exactly when 85 <= p;
    at p = 60 it is the warning colour and at p = 85 the danger colour. *)
Theorem usage_color_thresholds
    (truetype : string -> Z -> result Image.font) (self : Image.generator)
    (p : float) :
  Image.__init__ truetype = Ok self ->
  (0 <=? p)%float = true -> (p <=? 100)%float = true ->
  (Image._get_usage_color self p = Image.success_color self
   <-> (p <? 60)%float = true)
  /\ (Image._get_usage_color self p = Image.warning_color self
      <-> (60 <=? p)%float = true /\ (p <? 85)%float = true)
  /\ (Image._get_usage_color self p = Image.danger_color self
      <-> (85 <=? p)%float = true)
  /\ Image._get_usage_color self 60 = Image.warning_color self
  /\ Image._get_usage_color self 85 = Image.danger_color self.
Proof.
  intros Hself H0 H100.
  destruct (init_attributes truetype self Hself) as (_ & _ & _ & _ & Hs & Hw & Hd).
  unfold Image._get_usage_color. rewrite Hs, Hw, Hd.
  destruct (leb_not_nan _ _ H0) as [_ Hp].
  assert (N60 : not_nan 60) by reflexivity.
  assert (N85 : not_nan 85) by reflexivity.
  assert (L : (60 <=? 85)%float = true) by reflexivity.
  split; [|split; [|split; [|split; reflexivity]]].
  - destruct (p <? 60)%float eqn:E60; [tauto|].
    destruct (p <? 85)%float; split; intros; discriminate.
  - destruct (p <? 60)%float eqn:E60.
    + split; [discriminate|]. intros [A _].
      apply leb_true_ltb_false in A. congruence.
    + pose proof (ltb_false_leb _ _ Hp N60 E60) as A.
      destruct (p <? 85)%float eqn:E85; [tauto|].
      split; [discriminate|]. intros [_ B]. discriminate B.
  - destruct (p <? 60)%float eqn:E60.
    + split; [discriminate|]. intros A.
      pose proof (fltb_leb_trans p 60 85 E60 L) as B.
      apply leb_true_ltb_false in A. congruence.
    + destruct (p <? 85)%float eqn:E85.
      * split; [discriminate|]. intros A.
        apply leb_true_ltb_false in A. congruence.
      * pose proof (ltb_false_leb _ _ Hp N85 E85). tauto.
Qed.

(** C3 at p = 72.5, on the generator built where no font file can be
    opened. *)
Lemma usage_color_thresholds_witness :
  exists self,
    Image.__init__ (fun _ _ => Raise (OSError "cannot open resource")) = Ok self
    /\ (Image._get_usage_color self 72.5 = Image.warning_color self
        <-> (60 <=? 72.5)%float = true /\ (72.5 <? 85)%float = true).
Proof.
  eexists.
  refine ((fun H => conj H (proj1 (proj2 (usage_color_thresholds _ _ 72.5%float
                                            H eq_refl eq_refl)))) _).
  reflexivity.
Defined.

(* ================================================================== *)
(** * Properties of the disk collection and its display *)
(* ================================================================== *)

Lemma prefix_spec (n h : string) :
  String.prefix n h = true <-> exists b, h = (n ++ b)%string.
Proof.
  revert h. induction n as [|c n IH]; intros h.
  - split; [intros _; now exists h | now destruct h].
  - destruct h as [|c' h]; cbn;
      [split; [discriminate | intros [b Hb]; discriminate]|].
    destruct (ascii_dec c c') as [->|Hc].
    + rewrite IH. split; intros [b Hb]; exists b; congruence.
    + split; [discriminate | intros [b Hb]; congruence].
Qed.

Lemma contains_spec (n h : string) :
  contains n h = true <-> exists a b, h = (a ++ n ++ b)%string.
Proof.
  induction h as [|c t IH].
  - cbn [contains]. rewrite orb_false_r, prefix_spec. split.
    + intros [b Hb]. now exists EmptyString, b.
    + intros [a [b Hb]]. destruct a; [now exists b | discriminate].
  - cbn [contains]. rewrite orb_true_iff, prefix_spec, IH. split.
    + intros [[b Hb]|[a [b Hb]]].
      * now exists EmptyString, b.
      * exists (String c a), b. cbn. now rewrite Hb.
    + intros [a [b Hb]]. destruct a as [|c' a].
      * left. now exists b.
      * right. exists a, b. cbn in Hb. congruence.
Qed.

Lemma skipped_excluded (part : Disk.sdiskpart) :
  Disk.skipped part = true <-> Disk.excluded part.
Proof.
  unfold Disk.skipped, Disk.excluded, Disk.has_cdrom_marker.
  now rewrite orb_true_iff, contains_spec, String.eqb_eq.
Qed.

(** The division of line 88 gives the capacity in GB, and raises where
    there is none. *)
Lemma gb_gigabytes (n : Z) :
  Disk.gb n
  = match Disk.gigabytes n with
    | Some x => Ok x
    | None => Raise (Exception "integer division result too large for a float")
    end.
Proof.
  unfold Disk.gb, Disk.gigabytes. change (1024 ^ 3) with (2 ^ 30).
  rewrite int_truediv_pow2 by lia. unfold checked.
  change (- (30)) with (-30). now destruct (rounded n (-30)).
Qed.

Lemma gigabytes_defined (n : Z) :
  Z.abs n < 2 ^ 1053 -> exists x, Disk.gigabytes n = Some x.
Proof.
  intros H. pose proof (scaled_finite n 30 ltac:(lia) H) as F.
  unfold Disk.gigabytes. change (- (30)) with (-30) in F.
  destruct (rounded n (-30)); try easy; eexists; reflexivity.
Qed.

Lemma visit_contribution (disk_usage : string -> result Disk.sdiskusage)
    (part : Disk.sdiskpart) (disks : list Disk.entry) :
  try_except (Disk.visit disk_usage part disks) (fun _ => Ok disks)
  = Ok (disks ++ Disk.contribution disk_usage part).
Proof.
  unfold Disk.visit, Disk.contribution.
  destruct (Disk.skipped part); cbn [bind try_except]; [now rewrite app_nil_r|].
  destruct (disk_usage (Disk.mountpoint part)) as [usage|ex];
    cbn [bind try_except]; [|now rewrite app_nil_r].
  unfold Disk.entry_of. rewrite !gb_gigabytes.
  destruct (Disk.gigabytes (Disk.total usage)); cbn [bind try_except];
    [|now rewrite app_nil_r].
  destruct (Disk.gigabytes (Disk.used usage)); cbn [bind try_except];
    [|now rewrite app_nil_r].
  destruct (Disk.gigabytes (Disk.free usage)); cbn [bind try_except];
    [reflexivity|now rewrite app_nil_r].
Qed.

Lemma loop_contributions (disk_usage : string -> result Disk.sdiskusage)
    (parts : list Disk.sdiskpart) (disks : list Disk.entry) :
  Disk.loop disk_usage parts disks
  = Ok (disks ++ flat_map (Disk.contribution disk_usage) parts).
Proof.
  revert disks. induction parts as [|part rest IH]; intros disks; cbn [Disk.loop flat_map].
  - now rewrite app_nil_r.
  - rewrite visit_contribution. cbn [bind]. rewrite IH. now rewrite app_assoc.
Qed.

Lemma mini_progress_calls (self : Image.generator) (label : text) (pct : float)
    (x y w : Z) (detail : text) (u : unit) (calls : list Image.op) :
  Image._draw_mini_progress self label pct x y w detail = Ok (u, calls) ->
  List.length calls = 4%nat.
Proof.
  unfold Image._draw_mini_progress, Image._draw_text, Image.dbind, Image.call, Image.lift.
  destruct (truediv pct 100) as [r|e]; [|discriminate].
  destruct (float_of_int _) as [bw|e]; [|discriminate].
  destruct (int_of_float _) as [k|e]; [|discriminate].
  intros [= _ <-]. reflexivity.
Qed.

Lemma for_enumerate_calls {A : Type} (body : Z -> A -> Image.draw unit) (k : nat) :
  (forall i item u calls, body i item = Ok (u, calls) -> List.length calls = k) ->
  forall items i u calls,
    Image.for_enumerate body i items = Ok (u, calls) ->
    List.length calls = (k * List.length items)%nat.
Proof.
  intros Hbody. induction items as [|item rest IH]; intros i u calls; cbn [Image.for_enumerate].
  - intros [= _ <-]. cbn. lia.
  - unfold Image.dbind.
    destruct (body i item) as [[u1 c1]|e] eqn:E1; [|discriminate].
    destruct (Image.for_enumerate body (i + 1) rest) as [[u2 c2]|e] eqn:E2; [|discriminate].
    intros [= _ <-]. rewrite length_app, (Hbody _ _ _ _ E1), (IH _ _ _ E2).
    cbn [List.length]. lia.
Qed.

Lemma draw_disk_info_calls (self : Image.generator) (x y w : Z) (d : Image.data)
    (u : unit) (calls : list Image.op) :
  Image._draw_disk_info self x y w d = Ok (u, calls) ->
  List.length calls
  = if is_empty (get (Image.disks d) []) then 1%nat
    else (4 * Nat.min 5 (List.length (get (Image.disks d) [])))%nat.
Proof.
  unfold Image._draw_disk_info.
  destruct (get (Image.disks d) []) as [|d0 rest] eqn:E; cbn [is_empty].
  - intros [= _ <-]. reflexivity.
  - intros Em. apply (for_enumerate_calls _ 4%nat) in Em.
    + rewrite Em, length_firstn. reflexivity.
    + intros i item u' calls'. apply mini_progress_calls.
Qed.

(** C6. The collection never raises.  When the partition listing fails it
    is empty; otherwise it is, in listing order, what each partition adds:
    nothing for a partition left out, which is one whose file-system type is
    empty or whose mount options hold "cdrom" in any letter case, nothing
    for a partition whose usage query fails, and for any other its mount
    point, percentage and total, used and free capacity in GB.  A capacity
    of n bytes in GB is the float nearest to n / 2^30: 2^30 bytes are 1.0,
    100 * 2^30 bytes are 100.0 and 1.5 * 2^30 bytes are 1.5.  It exists for
    every n below 2^1053 in magnitude; a partition reporting a capacity
    beyond that is left out like one whose query failed.  The disk card
    draws the first five entries only: it is unchanged when the list is cut
    to them, and it makes four drawing calls per row drawn. *)
Theorem disk_collection_and_display
    (parts : list Disk.sdiskpart) (disk_usage : string -> result Disk.sdiskusage)
    (e : exn) (self : Image.generator) (x y w : Z) (d : Image.data) :
  Disk.get_disk_info (Ok parts) disk_usage
  = Ok (flat_map (Disk.contribution disk_usage) parts)
  /\ Disk.get_disk_info (Raise e) disk_usage = Ok []
  /\ (forall part, Disk.skipped part = true <-> Disk.excluded part)
  /\ (forall n, Z.abs n < 2 ^ 1053 -> exists x, Disk.gigabytes n = Some x)
  /\ (forall n x, Disk.gigabytes n = Some x <-> Disk.gb n = Ok x)
  /\ Disk.gigabytes (2 ^ 30) = Some 1%float
  /\ Disk.gigabytes (100 * 2 ^ 30) = Some 100%float
  /\ Disk.gigabytes (3 * 2 ^ 29) = Some 1.5%float
  /\ Image._draw_disk_info self x y w d
     = Image._draw_disk_info self x y w
         (Image.set_disks d (firstn 5 (get (Image.disks d) [])))
  /\ match Image._draw_disk_info self x y w d with
     | Ok (_, calls) =>
         List.length calls
         = if is_empty (get (Image.disks d) []) then 1%nat
           else (4 * Nat.min 5 (List.length (get (Image.disks d) [])))%nat
     | Raise _ => True
     end.
Proof.
  split; [|split; [|split; [|split; [|split; [|split; [|split; [|split; [|split]]]]]]]].
  - unfold Disk.get_disk_info. cbn [bind]. rewrite loop_contributions. reflexivity.
  - reflexivity.
  - exact skipped_excluded.
  - exact gigabytes_defined.
  - intros n x0. rewrite gb_gigabytes.
    destruct (Disk.gigabytes n); split; congruence.
  - vm_compute; reflexivity.
  - vm_compute; reflexivity.
  - vm_compute; reflexivity.
  - unfold Image._draw_disk_info. cbn [Image.set_disks Image.disks get].
    rewrite firstn_firstn. cbn [Nat.min].
    destruct (get (Image.disks d) []) as [|d0 rest]; reflexivity.
  - destruct (Image._draw_disk_info self x y w d) as [[u calls]|ex] eqn:Em; [|exact I].
    exact (draw_disk_info_calls _ _ _ _ _ _ _ Em).
Qed.

(* ================================================================== *)
(** * The layout of [generate] *)
(* ================================================================== *)

Lemma dbind_Ok {A B : Type} (m : Image.draw A) (k : A -> Image.draw B)
    (b : B) (calls : list Image.op) :
  Image.dbind m k = Ok (b, calls) ->
  exists a c1 c2, m = Ok (a, c1) /\ k a = Ok (b, c2) /\ calls = c1 ++ c2.
Proof.
  unfold Image.dbind. destruct m as [[a c1]|e]; [|discriminate].
  destruct (k a) as [[b' c2]|e] eqn:E; [|discriminate].
  intros [= <- <-]. now exists a, c1, c2.
Qed.

Lemma draw_card_Ok (self : Image.generator) (title : text) (x y w h : Z)
    (f : Z -> Z -> Z -> Image.draw unit) (r : Z) (calls : list Image.op) :
  Image._draw_card self title x y w h f = Ok (r, calls) ->
  r = y + h /\ exists c,
    f (x + 18) (y + 42) (w - 36) = Ok (tt, c)
    /\ calls = Image.rounded_rectangle x y (x + w) (y + h) 10 (Image.card_bg self)
               :: Image.draw_text (x + 18) (y + 12) title (Image.font_title self)
                    (Image.title_color self)
               :: c.
Proof.
  unfold Image._draw_card, Image._draw_text, Image.dbind, Image.call, Image.ret.
  destruct (f (x + 18) (y + 42) (w - 36)) as [[[] c]|e]; [|discriminate].
  intros [= <- <-]. split; [reflexivity|]. exists c. split; [reflexivity|].
  cbn. now rewrite app_nil_r.
Qed.



Lemma segment_here {A : Type} (s rest : list A) :
  exists before after, s ++ rest = before ++ s ++ after.
Proof. now exists [], rest. Qed.

Lemma segment_skip {A : Type} (s l1 l2 : list A) :
  (exists before after, l2 = before ++ s ++ after) ->
  exists before after, l1 ++ l2 = before ++ s ++ after.
Proof.
  intros (b & a & ->). exists (l1 ++ b), a. now rewrite <- app_assoc.
Qed.

Ltac next_bind E :=
  apply dbind_Ok in E;
  let a := fresh "a" in let c := fresh "c" in let r := fresh "r" in
  let E1 := fresh "E" in
  destruct E as (a & c & r & E1 & E & ->);
  first [ apply draw_card_Ok in E1;
          let k := fresh "k" in let Ek := fresh "Ek" in
          destruct E1 as (-> & k & Ek & ->)
        | idtac ];
  cbv beta in E.

(** C10. For a snapshot with n disk entries, [generate] on a generator as
    [__init__] leaves it keeps the width 1100 and sets the height to
    920 + max(0, (n - 3) * 35), with n not cut to five: 920 up to three
    entries and 815 + 35 n beyond.  The image, when drawing raises nothing,
    has that size; its Disk Space card is the rectangle from (562, 287) of
    height max(35 * min(n, 5) + 55, 90), which is 90 up to one entry,
    35 n + 55 up to five and 230 beyond; and the card holds what
    [_draw_disk_info] draws, four calls for each of at most five rows. *)
Theorem generate_geometry
    (truetype : string -> Z -> result Image.font) (self : Image.generator)
    (now : string) (d : Image.data) :
  Image.__init__ truetype = Ok self ->
  let n := Z.of_nat (List.length (get (Image.disks d) [])) in
  let g := Image.generate self now d in
  Image.width (fst g) = 1100
  /\ Image.height (fst g) = 920 + Z.max 0 ((n - 3) * 35)
  /\ Image.height (fst g) = (if n <=? 3 then 920 else 815 + 35 * n)
  /\ Z.max (35 * Z.min n 5 + 55) 90
     = (if n <=? 1 then 90 else if n <=? 5 then 35 * n + 55 else 230)
  /\ match snd g with
     | Ok img =>
         Image.size img = (1100, 920 + Z.max 0 ((n - 3) * 35))
         /\ exists rows,
              Image._draw_disk_info (fst g) 580 329 476 d = Ok (tt, rows)
              /\ List.length rows
                 = (if is_empty (get (Image.disks d) []) then 1%nat
                    else (4 * Nat.min 5 (List.length (get (Image.disks d) [])))%nat)
              /\ exists before after,
                   Image.drawn img
                   = before
                     ++ (Image.rounded_rectangle 562 287 1074
                           (287 + Z.max (35 * Z.min n 5 + 55) 90) 10 (32, 32, 40)
                         :: Image.draw_text 580 299 [Lit "💾 磁盘空间"]
                              (Image.font_title (fst g)) (255, 255, 255)
                         :: rows)
                     ++ after
     | Raise _ => True
     end.
Proof.
  intros Hself. cbn zeta.
  destruct (init_Ok _ _ Hself) as (fb & ft & fm & fs & fv & _ & ->).
  unfold Image.generate.
  set (n := Z.of_nat (List.length (get (Image.disks d) []))).
  cbn [fst snd Image.set_height Image.width Image.height Image.bg_color].
  split; [reflexivity|]. split; [reflexivity|].
  split; [destruct (Z.leb_spec n 3); lia|].
  split; [destruct (Z.leb_spec n 1); [lia|destruct (Z.leb_spec n 5); lia]|].
  match goal with
  | |- match (match ?m with _ => _ end) with _ => _ end =>
      destruct m as [[u calls]|ex] eqn:E
  end; [|exact I].
  split; [reflexivity|]. cbn [Image.drawn].
  do 8 next_bind E.
  change ((1100 - 25 * 3) / 2) with 512 in *.
  change (25 * 2 + 512) with 562 in *.
  change (80 + 195 + 12) with 287 in *.
  change (562 + 18) with 580 in *. change (287 + 42) with 329 in *.
  change (512 - 36) with 476 in *. change (287 + 12) with 299 in *.
  change (562 + 512) with 1074 in *.
  match goal with
  | H : Image._draw_disk_info _ _ _ _ _ = Ok (tt, ?rows) |- _ =>
      exists rows; split; [exact H|split; [exact (draw_disk_info_calls _ _ _ _ _ _ _ H)|]]
  end.
  do 6 apply segment_skip. apply segment_here.
Qed.

(** C10 on a snapshot of seven disk entries, with the generator built where
    no font file can be opened: the height is 1060 and the Disk Space card
    has its greatest height, 230. *)
Lemma generate_geometry_witness :
  exists self,
    Image.__init__ (fun _ _ => Raise (OSError "cannot open resource")) = Ok self
    /\ (let d := Image.set_disks Examples.blank
                   (repeat {| Disk.e_mountpoint := "/"; Disk.e_percent := 50%float;
                              Disk.total_gb := 100%float; Disk.used_gb := 50%float;
                              Disk.free_gb := 50%float |} 7) in
        Image.height (fst (Image.generate self "2026-01-01 00:00:00" d)) = 1060
        /\ Z.max (35 * Z.min 7 5 + 55) 90 = 230).
Proof.
  eexists.
  refine ((fun H =>
             conj H
               (match generate_geometry _ _ "2026-01-01 00:00:00"
                        (Image.set_disks Examples.blank
                           (repeat {| Disk.e_mountpoint := "/";
                                      Disk.e_percent := 50%float;
                                      Disk.total_gb := 100%float;
                                      Disk.used_gb := 50%float;
                                      Disk.free_gb := 50%float |} 7)) H with
                | conj _ (conj Hh (conj _ (conj Hc _))) => conj Hh Hc
                end)) _).
  reflexivity.
Defined.

(* ================================================================== *)
(** * Properties of the [status] command *)
(* ================================================================== *)

(** A snapshot that was collected: each step of [collect] returned. *)
Ltac collected :=
  unfold Status.collect;
  destruct (int_of_float _) as [?b|?]; [|discriminate]; cbn [bind];
  destruct (Disk.gb (Status.ram_used _)) as [?ru|?]; [|discriminate]; cbn [bind];
  destruct (Disk.gb (Status.ram_total _)) as [?rt|?]; [|discriminate]; cbn [bind];
  destruct (Disk.get_disk_info _ _) as [?ds|?]; [|discriminate]; cbn [bind];
  match goal with
  | |- context [match Status.get_bot_process_info ?e with
                | Some i => int_of_float (Status.i_uptime i)
                | None => Ok 0
                end] =>
      destruct (match Status.get_bot_process_info e with
                | Some i => int_of_float (Status.i_uptime i)
                | None => Ok 0
                end) as [?u|?]; [|discriminate]; cbn [bind];
      destruct (Status.version_info e) as [[?major ?minor] ?micro]
  end;
  intros [= <-]; cbn; repeat split.

(** What the snapshot holds under the keys the text report reads. *)
Lemma collect_fields (e : Status.env) (d : Image.data) :
  Status.collect e = Ok d ->
  Image.bot_qq d = Some (Status.bot_qq_id e)
  /\ Image.bot_memory_mb d
     = Some (match Status.get_bot_process_info e with
             | Some i => Status.i_memory_mb i
             | None => 0%float
             end)
  /\ Image.cpu_percent d = Some (Status.psutil_cpu_percent e)
  /\ Image.plugin_count d
     = Some (Z.of_nat (List.length (Status.get_all_plugins e)))
  /\ Image.enabled_plugin_count d
     = Some (Z.of_nat (List.length
               (filter Status.enable_plugin (Status.get_all_plugins e)))).
Proof. collected. Qed.

Ltac in_list := cbn [In]; repeat first [left; reflexivity | right].

(** The pieces of the text report as it is sent. *)
Lemma text_report_contents (d : Image.data) :
  let t := strip_text (Status.text_report d) in
  (forall f, In f (str_value (Status.item (VStr EmptyString) (Image.bot_qq d))) -> In f t)
  /\ In (FFixed 1 (Status.item 0%float (Image.bot_memory_mb d))) t
  /\ In (FFloat (Status.item 0%float (Image.cpu_percent d))) t
  /\ (exists before after,
        t = before
            ++ [ FInt (Status.item 0 (Image.enabled_plugin_count d)); Lit "/";
                 FInt (Status.item 0 (Image.plugin_count d)); Lit " 已启用" ]
            ++ after).
Proof.
  cbn zeta. unfold Status.text_report.
  destruct (Status.item (VStr EmptyString) (Image.bot_qq d)) as [n|s];
    cbn [str_value app]; unfold strip_text, lstrip_text, rstrip_text;
    cbn [rev app]; (split; [|split; [|split]]).
  1, 5: intros f [<-|[]]; in_list.
  1, 2, 4, 5: in_list.
  all: match goal with
       | |- exists before after, ?T = _ =>
           exists (firstn (List.length T - 4) T), []; reflexivity
       end.
Qed.

(** C7. On a collected snapshot, when the image generator is unavailable the
    command sends the text report alone, and when constructing the
    generator, generating, encoding or sending the image raises it first
    sends the failure notice, which is the failure text, the text of the
    exception and the announcement of the text version, and then the text
    report; either way the reply is (true, the status-sent text, true).  A
    font loader that raises something other than [OSError] makes the
    constructor raise, and so leads to the notice and the report.  The
    report is built from the same snapshot and holds the bot identifier,
    the bot process memory, the CPU percentage and the enabled/total plugin
    counts.  When the image is sent, the command sends it alone and replies
    that the image was sent. *)
Theorem status_text_fallback (e : Status.env) (d : Image.data) :
  Status.collect e = Ok d ->
  (Status.IMAGE_GENERATOR_AVAILABLE e = false ->
   Status.execute e
   = Ok ([SendText (strip_text (Status.text_report d))],
         (true, "状态信息已发送", true)))
  /\ (forall ex,
        Status.IMAGE_GENERATOR_AVAILABLE e = true ->
        Status.send_status_image e d = Raise ex ->
        Status.execute e
        = Ok ([SendText [ Lit "❌ 图片生成失败: "; FStr (str_exn ex); Lit "
正在发送文字版..." ];
               SendText (strip_text (Status.text_report d))],
              (true, "状态信息已发送", true)))
  /\ (forall msg,
        Status.IMAGE_GENERATOR_AVAILABLE e = true ->
        Status.truetype e "msyh.ttc" 30 = Raise (Exception msg) ->
        Status.execute e
        = Ok ([SendText [ Lit "❌ 图片生成失败: "; FStr msg; Lit "
正在发送文字版..." ];
               SendText (strip_text (Status.text_report d))],
              (true, "状态信息已发送", true)))
  /\ (forall b64,
        Status.IMAGE_GENERATOR_AVAILABLE e = true ->
        Status.send_status_image e d = Ok b64 ->
        Status.execute e = Ok ([SendImage b64], (true, "状态图片已发送", true)))
  /\ (forall f, In f (str_value (Status.bot_qq_id e)) ->
                In f (strip_text (Status.text_report d)))
  /\ In (FFixed 1 (match Status.get_bot_process_info e with
                   | Some i => Status.i_memory_mb i
                   | None => 0%float
                   end))
        (strip_text (Status.text_report d))
  /\ In (FFloat (Status.psutil_cpu_percent e)) (strip_text (Status.text_report d))
  /\ (exists before after,
        strip_text (Status.text_report d)
        = before
          ++ [ FInt (Z.of_nat (List.length
                       (filter Status.enable_plugin (Status.get_all_plugins e))));
               Lit "/";
               FInt (Z.of_nat (List.length (Status.get_all_plugins e)));
               Lit " 已启用" ]
          ++ after).
Proof.
  intros Hc.
  destruct (collect_fields e d Hc) as (Hqq & Hmem & Hcpu & Hn & Hen).
  pose proof (text_report_contents d) as Ht. cbn zeta in Ht.
  rewrite Hqq, Hmem, Hcpu, Hn, Hen in Ht. cbn [Status.item get] in Ht.
  unfold Status.execute. rewrite Hc. cbn [bind]. unfold Status.respond.
  split; [|split; [|split; [|split]]].
  - intros ->. reflexivity.
  - intros ex -> ->. reflexivity.
  - intros msg -> Hf.
    unfold Status.send_status_image, Image.__init__, Image.load_fonts.
    rewrite Hf. reflexivity.
  - intros b64 -> ->. reflexivity.
  - exact Ht.
Qed.

(** C7 on the example host: without the generator, with an encoder that
    raises, and where Pillow has no FreeType. *)
Lemma status_text_fallback_witness :
  (exists d,
     Status.collect (Status.example_env false) = Ok d
     /\ Status.execute (Status.example_env false)
        = Ok ([SendText (strip_text (Status.text_report d))],
              (true, "状态信息已发送", true)))
  /\ (exists d,
        Status.collect (Status.example_env true) = Ok d
        /\ Status.send_status_image (Status.example_env true) d
           = Raise (Exception "encoder error")
        /\ Status.execute (Status.example_env true)
           = Ok ([SendText [ Lit "❌ 图片生成失败: "; FStr "encoder error"; Lit "
正在发送文字版..." ];
                  SendText (strip_text (Status.text_report d))],
                 (true, "状态信息已发送", true)))
  /\ (exists d,
        Status.collect Examples.no_freetype_env = Ok d
        /\ Status.execute Examples.no_freetype_env
           = Ok ([SendText [ Lit "❌ 图片生成失败: ";
                             FStr "The _imagingft C module is not installed";
                             Lit "
正在发送文字版..." ];
                  SendText (strip_text (Status.text_report d))],
                 (true, "状态信息已发送", true))).
Proof.
  split; [|split].
  3: { eexists. split; [vm_compute; reflexivity|].
       refine (proj1 (proj2 (proj2 (status_text_fallback Examples.no_freetype_env _ _)))
                 "The _imagingft C module is not installed" eq_refl eq_refl).
       vm_compute; reflexivity. }
  - eexists. split; [vm_compute; reflexivity|].
    refine (proj1 (status_text_fallback (Status.example_env false) _ _) eq_refl).
    vm_compute; reflexivity.
  - eexists. split; [vm_compute; reflexivity|].
    split; [vm_compute; reflexivity|].
    refine (proj1 (proj2 (status_text_fallback (Status.example_env true) _ _))
              (Exception "encoder error") eq_refl _);
      vm_compute; reflexivity.
Defined.

(* ================================================================== *)
(** * Properties of the [sysinfo] command *)
(* ================================================================== *)

Lemma fold_disk_lines (disks : list Disk.entry) (info : list text) :
  fold_left (fun info disk => info ++ [SysInfo.disk_line disk]) disks info
  = info ++ map SysInfo.disk_line disks.
Proof.
  revert info. induction disks as [|disk rest IH]; intros info; cbn [fold_left map].
  - now rewrite app_nil_r.
  - rewrite IH, <- app_assoc. reflexivity.
Qed.

(** X1. The text report of [sysinfo] has one line for every collected disk
    entry, in order, after its six fixed lines: it is not cut to five. *)
Theorem sysinfo_lists_every_disk (e : Status.env) (info : list text) :
  SysInfo.info_lines e = Ok info ->
  exists head disks,
    Disk.get_disk_info (Status.disk_partitions e) (Status.disk_usage e) = Ok disks
    /\ info = head ++ map SysInfo.disk_line disks
    /\ List.length head = 6%nat
    /\ SysInfo.execute e
       = Ok ([SendText (SysInfo.join_lines info)], (true, "系统信息已发送", true)).
Proof.
  unfold SysInfo.execute, SysInfo.info_lines.
  destruct (Disk.gb _) as [ru|?]; [|discriminate]. cbn [bind].
  destruct (int_of_float _) as [b|?]; [|discriminate]. cbn [bind].
  destruct (Disk.get_disk_info _ _) as [ds|?]; [|discriminate]. cbn [bind].
  rewrite fold_disk_lines. intros [= <-].
  match goal with
  | |- exists head disks, _ /\ ?L = _ /\ _ => exists (firstn 6 L), ds
  end.
  repeat split; reflexivity.
Qed.

(** X1 on the example host. *)
Lemma sysinfo_lists_every_disk_witness :
  exists info head disks,
    SysInfo.info_lines (Status.example_env true) = Ok info
    /\ Disk.get_disk_info (Status.disk_partitions (Status.example_env true))
         (Status.disk_usage (Status.example_env true)) = Ok disks
    /\ info = head ++ map SysInfo.disk_line disks
    /\ List.length head = 6%nat
    /\ SysInfo.execute (Status.example_env true)
       = Ok ([SendText (SysInfo.join_lines info)], (true, "系统信息已发送", true)).
Proof.
  eexists.
  refine ((fun H => match sysinfo_lists_every_disk (Status.example_env true) _ H with
                    | ex_intro _ head (ex_intro _ disks P) =>
                        ex_intro _ head (ex_intro _ disks (conj H P))
                    end) _).
  vm_compute; reflexivity.
Defined.

(* ================================================================== *)
(** * Samples are never NaN *)
(* ================================================================== *)

Lemma shr_1_nonneg (mrs : shr_record) : 0 <= shr_m mrs -> 0 <= shr_m (shr_1 mrs).
Proof.
  destruct mrs as [m r s]. cbn [shr_m]. intros H.
  destruct m as [|[p|p|]|p]; cbn; lia.
Qed.

Lemma iter_shr_1_nonneg (p : positive) :
  forall mrs, 0 <= shr_m mrs -> 0 <= shr_m (iter_pos shr_1 p mrs).
Proof.
  induction p as [p IH|p IH|]; intros mrs H; cbn [iter_pos].
  - apply IH, IH, shr_1_nonneg, H.
  - apply IH, IH, H.
  - apply shr_1_nonneg, H.
Qed.

Lemma shr_fexp_nonneg (m e : Z) (l : location) :
  0 <= m -> 0 <= shr_m (fst (shr_fexp prec emax m e l)).
Proof.
  intros H. unfold shr_fexp, shr.
  assert (H0 : 0 <= shr_m (shr_record_of_loc m l)) by (destruct l as [|[]]; exact H).
  destruct (_ - e) as [|p|p]; cbn [fst]; [exact H0| |exact H0].
  apply iter_shr_1_nonneg, H0.
Qed.

Lemma binary_round_aux_not_nan (sx : bool) (mx ex : Z) (lx : location) :
  0 <= mx -> binary_round_aux prec emax sx mx ex lx <> S754_nan.
Proof.
  intros H. unfold binary_round_aux.
  pose proof (shr_fexp_nonneg mx ex lx H) as H1.
  destruct (shr_fexp prec emax mx ex lx) as [mrs' e']. cbn [fst] in H1.
  assert (H2 : 0 <= round_nearest_even (shr_m mrs') (loc_of_shr_record mrs')).
  { unfold round_nearest_even. destruct (loc_of_shr_record mrs') as [|[]];
      try destruct (Z.even _); lia. }
  pose proof (shr_fexp_nonneg _ e' loc_Exact H2) as H3.
  destruct (shr_fexp prec emax _ e' loc_Exact) as [mrs'' e'']. cbn [fst] in H3.
  destruct (shr_m mrs'') as [|p|p]; [discriminate| |lia].
  destruct (e'' <=? _); discriminate.
Qed.

Lemma binary_normalize_not_nan (m e : Z) (s : bool) :
  binary_normalize prec emax m e s <> S754_nan.
Proof.
  destruct m as [|p|p]; cbn [binary_normalize]; [discriminate| |];
    unfold binary_round; destruct (shl_align _ _ _) as [mz ez];
    apply binary_round_aux_not_nan; lia.
Qed.

Lemma SF2Prim_not_nan (q : spec_float) : q <> S754_nan -> not_nan (SF2Prim q).
Proof.
  intros Hq. apply not_nan_spec.
  destruct q as [s|s| |s m e]; [destruct s; vm_compute; discriminate
                               |destruct s; vm_compute; discriminate
                               |congruence|].
  assert (L : Prim2SF (Z.ldexp (of_uint63 (Uint63.of_Z (Zpos m))) e) <> S754_nan).
  { rewrite Z_ldexp_spec, FloatAxioms.of_uint63_spec.
    pose proof (binary_normalize_not_nan
                  (Uint63Axioms.to_Z (Uint63.of_Z (Zpos m))) 0 false) as H.
    destruct (binary_normalize _ _ _ _ _) as [s'|s'| |s' m' e'];
      cbn [SFldexp]; try congruence.
    unfold binary_round. destruct (shl_align _ _ _) as [mz ez].
    apply binary_round_aux_not_nan. lia. }
  cbn [SF2Prim]. destruct s; [|exact L].
  rewrite FloatAxioms.opp_spec.
  destruct (Prim2SF (Z.ldexp _ e)); cbn; congruence.
Qed.

Lemma quotient_not_nan (a b : Z) : quotient a b <> S754_nan.
Proof.
  unfold quotient. destruct (a =? 0); [discriminate|].
  unfold SFdiv_core_binary.
  set (m' := match _ - _ - _ with Z0 => _ | Zpos _ => _ | Zneg _ => _ end).
  assert (Hm : 0 <= m').
  { unfold m'. destruct (_ - _ - _); [lia| |lia]. apply Z.shiftl_nonneg. lia. }
  pose proof (Z_div_nonneg_nonneg m' (Z.abs b) Hm ltac:(lia)) as Hq.
  unfold Z.div in Hq.
  destruct (Z.div_eucl m' (Z.abs b)) as [q r]. cbn [fst] in Hq.
  now apply binary_round_aux_not_nan.
Qed.

Lemma checked_not_nan (q : spec_float) (msg : string) (x : float) :
  q <> S754_nan -> checked q msg = Ok x -> not_nan x.
Proof.
  intros Hq H.
  assert (X : x = SF2Prim q)
    by (unfold checked in H; destruct q; try discriminate; congruence).
  subst x. now apply SF2Prim_not_nan.
Qed.

Lemma int_truediv_not_nan (a b : Z) (x : float) :
  int_truediv a b = Ok x -> not_nan x.
Proof.
  unfold int_truediv. destruct (b =? 0); [discriminate|].
  apply checked_not_nan, quotient_not_nan.
Qed.

Lemma div_finite_not_nan (x y : float) (m : positive) (e : Z) :
  not_nan x -> Prim2SF y = S754_finite false m e -> not_nan (x / y).
Proof.
  rewrite !not_nan_spec. intros Hx Hy.
  rewrite FloatAxioms.div_spec, Hy. unfold SF64div.
  destruct (Prim2SF x) as [s|s| |s mx ex]; cbn [SFdiv]; try discriminate; [congruence|].
  unfold SFdiv_core_binary.
  set (m' := match _ - _ - _ with Z0 => _ | Zpos _ => _ | Zneg _ => _ end).
  assert (Hm : 0 <= m').
  { unfold m'. destruct (_ - _ - _); [lia| |lia]. apply Z.shiftl_nonneg. lia. }
  pose proof (Z.div_eucl_eq m' (Zpos m) ltac:(lia)) as Hq.
  pose proof (Z.mod_pos_bound m' (Zpos m) ltac:(lia)) as Hr.
  unfold Z.modulo in Hr.
  destruct (Z.div_eucl m' (Z.pos m)) as [q r].
  apply binary_round_aux_not_nan. nia.
Qed.

Lemma sample_not_nan (rss : result Z) (mem : float) :
  History.sample_memory rss = Ok mem -> not_nan mem.
Proof.
  destruct rss as [r|e]; [|discriminate]. cbn [History.sample_memory bind].
  destruct (int_truediv r 1024) as [kb|e] eqn:E; [|discriminate].
  cbn [bind]. intros [= <-].
  eapply div_finite_not_nan; [|vm_compute; reflexivity].
  exact (int_truediv_not_nan _ _ _ E).
Qed.

(* ================================================================== *)
(** * The [mem] command on the buffers the plugin can reach *)
(* ================================================================== *)

Lemma deque_append_not_nan (d : list float) (x : float) :
  Forall not_nan d -> not_nan x -> Forall not_nan (History.deque_append d x).
Proof.
  intros Hd Hx. unfold History.deque_append.
  assert (H : Forall not_nan (d ++ [x])) by (apply Forall_app; split; auto).
  destruct (_ <? _)%nat; [|exact H].
  destruct (d ++ [x]); [constructor | now inversion H].
Qed.

Lemma step_not_nan (h : list float) (ev : Mem.event) :
  Forall not_nan h -> Forall not_nan (Mem.step h ev).
Proof.
  intros H. destruct ev as [rss|rss]; cbn [Mem.step].
  - unfold History.recorder_iteration.
    destruct (History.sample_memory rss) as [m|e] eqn:E; cbn [bind try_except]; auto.
    apply deque_append_not_nan; [exact H | exact (sample_not_nan _ _ E)].
  - unfold Mem.sample_if_empty. destruct (is_empty h); auto.
    destruct (History.sample_memory rss) as [m|e] eqn:E; cbn [bind try_except]; auto.
    apply deque_append_not_nan; [exact H | exact (sample_not_nan _ _ E)].
Qed.

Lemma run_not_nan_from (evs : list Mem.event) (h : list float) :
  Forall not_nan h -> Forall not_nan (fold_left Mem.step evs h).
Proof.
  revert h. induction evs as [|ev evs IH]; intros h H; cbn [fold_left]; auto.
  apply IH, step_not_nan, H.
Qed.

(** The statistics of a non-empty buffer of the deque are computed without
    an exception. *)
Lemma analyse_total (h : list float) :
  h <> [] -> (List.length h <= 60)%nat ->
  exists mx mn s,
    py_max h = Ok mx /\ py_min h = Ok mn /\ Mem.trend h = Ok s
    /\ Mem.analyse h
       = Ok {| Mem.current := last h 0%float; Mem.avg := Mem.mean h;
               Mem.max_mem := mx; Mem.min_mem := mn; Mem.trend_str := s |}.
Proof.
  intros Hne Hlen.
  destruct (trend_cases h) as [s [Ht _]].
  assert (Hn : (1 <= List.length h <= 60)%nat) by (destruct h; cbn in *; [easy|lia]).
  destruct h as [|x t] eqn:Eh; [easy|]. rewrite <- Eh in *.
  exists (fold_left (fun m y => if (m <? y)%float then y else m) t x),
         (fold_left (fun m y => if (y <? m)%float then y else m) t x), s.
  assert (Hmx : py_max h = Ok (fold_left (fun m y => if (m <? y)%float then y else m) t x))
    by now rewrite Eh.
  assert (Hmn : py_min h = Ok (fold_left (fun m y => if (y <? m)%float then y else m) t x))
    by now rewrite Eh.
  split; [exact Hmx|]. split; [exact Hmn|]. split; [exact Ht|].
  unfold Mem.analyse. rewrite (last_item_last h 0%float Hne). cbn [bind].
  rewrite truediv_small_nat by exact Hn. cbn [bind].
  rewrite Hmx, Hmn, Ht. reflexivity.
Qed.

(** X2. Whatever recorder turns and [mem] commands ran since the deque was
    created, in any order and with any outcome of the memory reading, the
    buffer holds no NaN; the statistics of the [mem] command are computed
    on it without an exception unless it is empty, and the peak and the
    minimum they give are the maximum and the minimum of the buffer. *)
Theorem reachable_buffer_statistics (evs : list Mem.event) :
  Forall not_nan (Mem.run evs)
  /\ match Mem.analyse (Mem.run evs) with
     | Ok st =>
         Mem.is_maximum (Mem.max_mem st) (Mem.run evs)
         /\ Mem.is_minimum (Mem.min_mem st) (Mem.run evs)
     | Raise _ => Mem.run evs = []
     end.
Proof.
  assert (Hn : Forall not_nan (Mem.run evs)) by (apply run_not_nan_from; constructor).
  assert (Hb : (List.length (Mem.run evs) <= History.maxlen)%nat)
    by (apply run_bounded_from; cbn; lia).
  split; [exact Hn|].
  destruct (Mem.run evs) as [|x t] eqn:E; [reflexivity|]. rewrite <- E in *.
  assert (Hne : Mem.run evs <> []) by (rewrite E; discriminate).
  destruct (analyse_total _ Hne Hb) as (mx & mn & s & Hmx & Hmn & _ & ->).
  cbn [Mem.max_mem Mem.min_mem].
  split; [now apply py_max_is_maximum | now apply py_min_is_minimum].
Qed.

(** X3. On every buffer the plugin can reach the [mem] handler returns,
    with the success flag set, whatever the memory reading does; it leaves
    a buffer that is not empty as it is; and it either sends nothing,
    answers with the last flag unset and leaves the buffer empty, or sends
    exactly one text and answers with the last flag set. *)
Theorem mem_command_never_raises (evs : list Mem.event) (rss : result Z) :
  exists sent msg notable,
    Mem.execute rss (Mem.run evs)
    = Ok (Mem.run (evs ++ [Mem.MemCommand rss]), sent, (true, msg, notable))
    /\ (Mem.run evs <> [] -> Mem.run (evs ++ [Mem.MemCommand rss]) = Mem.run evs)
    /\ ((sent = [] /\ notable = false /\ Mem.run (evs ++ [Mem.MemCommand rss]) = [])
        \/ (exists t, sent = [SendText t] /\ notable = true
                      /\ Mem.run (evs ++ [Mem.MemCommand rss]) <> [])).
Proof.
  assert (Hrun : Mem.run (evs ++ [Mem.MemCommand rss])
                 = Mem.sample_if_empty rss (Mem.run evs)).
  { unfold Mem.run. rewrite fold_left_app. reflexivity. }
  assert (Hb : (List.length (Mem.run (evs ++ [Mem.MemCommand rss])) <= History.maxlen)%nat)
    by (apply run_bounded_from; cbn; lia).
  assert (Hframe : Mem.run evs <> [] ->
                   Mem.sample_if_empty rss (Mem.run evs) = Mem.run evs).
  { unfold Mem.sample_if_empty. now destruct (Mem.run evs). }
  rewrite Hrun in *. unfold Mem.execute.
  destruct (Mem.sample_if_empty rss (Mem.run evs)) as [|x t] eqn:E.
  - cbn [is_empty]. do 3 eexists. split; [reflexivity|]. split; [exact Hframe|].
    left. repeat split.
  - cbn [is_empty].
    destruct (analyse_total (x :: t) ltac:(discriminate) Hb)
      as (mx & mn & s & _ & _ & _ & ->). cbn [bind].
    do 3 eexists. split; [reflexivity|]. split; [exact Hframe|].
    right. eexists. repeat split. discriminate.
Qed.

(** X4. With no history and a memory reading of [r] bytes, below 2^1033 in
    magnitude, the [mem] handler stores one sample m, which is the float
    nearest to r / 1024, divided by 1024.  The statistics of that buffer
    are: current, peak and minimum m, the mean of the one sample, and the
    trend of a buffer still collecting.  The handler sends one message,
    which names 1 minute, m as current and as peak, the mean and that
    trend, and answers that the analysis was sent. *)
Theorem mem_first_sample (r : Z) :
  Z.abs r < 2 ^ 1033 ->
  let m := (SF2Prim (rounded r (-10)) / 1024)%float in
  History.sample_memory (Ok r) = Ok m
  /\ Mem.analyse [m]
     = Ok {| Mem.current := m; Mem.avg := Mem.mean [m];
             Mem.max_mem := m; Mem.min_mem := m;
             Mem.trend_str := "🔄 数据收集中..." |}
  /\ Mem.execute (Ok r) []
     = Ok ([m],
           [SendText
              [ Lit "🧠 **内存分析报告** (近 "; FInt 1; Lit " 分钟)
------------------
当前: "; FFixed 1 m; Lit " MB
平均: "; FFixed 1 (Mem.mean [m]); Lit " MB
峰值: "; FFixed 1 m; Lit " MB
趋势: "; FStr "🔄 数据收集中..."; Lit "
------------------
* 数据每分钟自动采集一次" ]],
           (true, "内存分析已发送", true)).
Proof.
  intros Hr. cbn zeta.
  set (m := (SF2Prim (rounded r (-10)) / 1024)%float).
  assert (Hs : History.sample_memory (Ok r) = Ok m).
  { unfold History.sample_memory. cbn [bind]. change 1024 with (2 ^ 10) at 1.
    rewrite int_truediv_pow2_Ok by (try lia; exact Hr). reflexivity. }
  assert (Ha : Mem.analyse [m]
               = Ok {| Mem.current := m; Mem.avg := Mem.mean [m];
                       Mem.max_mem := m; Mem.min_mem := m;
                       Mem.trend_str := Mem.COLLECTING |}).
  { unfold Mem.analyse, Mem.trend.
    change (last_item [m]) with (Ok m). cbn [bind List.length].
    rewrite truediv_small_nat by lia.
    cbn [bind py_max py_min fold_left Nat.leb]. reflexivity. }
  split; [exact Hs|]. split; [exact Ha|].
  unfold Mem.execute, Mem.sample_if_empty. cbn [is_empty]. rewrite Hs.
  cbn [bind try_except]. change (History.deque_append [] m) with [m].
  cbn [is_empty]. rewrite Ha. reflexivity.
Qed.

(** X4 at a reading of 150 MiB. *)
Lemma mem_first_sample_witness :
  History.sample_memory (Ok 157286400) = Ok 150%float
  /\ Mem.analyse [150%float]
     = Ok {| Mem.current := 150; Mem.avg := Mem.mean [150%float];
             Mem.max_mem := 150; Mem.min_mem := 150;
             Mem.trend_str := "🔄 数据收集中..." |}.
Proof.
  exact (let H := mem_first_sample 157286400 eq_refl in
         conj (proj1 H) (proj1 (proj2 H))).
Defined.

Lemma lastn_repeat (v : float) (n k : nat) :
  (k <= n)%nat -> lastn k (repeat v n) = repeat v k.
Proof.
  intros H. unfold lastn. rewrite repeat_length.
  replace n with ((n - k) + k)%nat at 2 by lia.
  rewrite repeat_app, skipn_app, repeat_length, Nat.sub_diag.
  rewrite skipn_all2 by (rewrite repeat_length; lia). reflexivity.
Qed.

Lemma firstn_repeat_le (v : float) (n k : nat) :
  (k <= n)%nat -> firstn k (repeat v n) = repeat v k.
Proof.
  intros H. replace n with (k + (n - k))%nat by lia.
  rewrite repeat_app, firstn_app, repeat_length, Nat.sub_diag.
  rewrite firstn_all2 by (rewrite repeat_length; lia). cbn. now rewrite app_nil_r.
Qed.

(** X5. A buffer of five or more equal samples has the trend "stable",
    for every float, the infinities and NaN included: the difference of
    the two window means is then 0 or NaN, and no threshold test holds. *)
Theorem constant_buffer_is_stable (v : float) (n : nat) :
  (5 <= n)%nat -> Mem.trend (repeat v n) = Ok Mem.STABLE.
Proof.
  intros H. unfold Mem.trend. rewrite repeat_length.
  destruct (Nat.leb_spec 5 n) as [_|?]; [|lia].
  rewrite (lastn_repeat v n 5 H), (firstn_repeat_le v n 5 H).
  change (List.length (repeat v 5)) with 5%nat.
  rewrite !truediv_small_nat by lia. cbn [bind].
  destruct (sub_diag_thresholds (py_sum (repeat v 5) / nearest (Z.of_nat 5)))
    as (-> & -> & -> & ->).
  reflexivity.
Qed.

(** X5 on seven samples of infinity. *)
Lemma constant_buffer_is_stable_witness :
  Mem.trend (repeat infinity 7) = Ok Mem.STABLE.
Proof.
  exact (constant_buffer_is_stable infinity 7 ltac:(lia)).
Defined.

Lemma last_skipn {A : Type} (l : list A) (k : nat) (d : A) :
  (k < List.length l)%nat -> last (skipn k l) d = last l d.
Proof.
  revert l. induction k as [|k IH]; intros l H; [reflexivity|].
  destruct l as [|a l]; [cbn in H; lia|]. cbn [skipn]. rewrite IH by (cbn in H; lia).
  destruct l; [cbn in H; lia|reflexivity].
Qed.

(** X6. After the recorder alone ran on a fresh deque, the buffer has
    min(60, k) samples for k successful readings; the [mem] statistics on
    it raise only when no reading succeeded, and their current value is
    the sample of the last successful reading. *)
Theorem recorder_then_mem (samples : list (result Z)) :
  List.length (History._memory_recorder samples [])
  = Nat.min 60 (List.length (Mem.successes samples))
  /\ match Mem.analyse (History._memory_recorder samples []) with
     | Ok st =>
         Mem.successes samples <> []
         /\ Mem.current st = last (Mem.successes samples) 0%float
     | Raise _ => Mem.successes samples = []
     end.
Proof.
  pose proof (recorder_lastn samples []) as H. cbn [app] in H.
  change (lastn History.maxlen []) with (@nil float) in H. rewrite H.
  unfold lastn, History.maxlen.
  split; [rewrite length_skipn; lia|].
  destruct (Mem.successes samples) as [|x t] eqn:E; [reflexivity|]. rewrite <- E.
  assert (Hne : Mem.successes samples <> []) by (rewrite E; discriminate).
  assert (Hlt : (List.length (Mem.successes samples) - 60
                 < List.length (Mem.successes samples))%nat)
    by (rewrite E; cbn; lia).
  set (h := skipn _ _).
  assert (Hh : h <> []).
  { intros Hn. apply (f_equal (@List.length float)) in Hn.
    unfold h in Hn. rewrite length_skipn in Hn. cbn in Hn. lia. }
  assert (Hl : (List.length h <= 60)%nat) by (unfold h; rewrite length_skipn; lia).
  destruct (analyse_total h Hh Hl) as (mx & mn & s & _ & _ & _ & ->).
  cbn [Mem.current]. split; [exact Hne|]. unfold h. now apply last_skipn.
Qed.
(* ================================================================== *)
(** * More on [format_duration] *)
(* ================================================================== *)

Lemma floor_to_minute (d : Z) :
  (d - d mod 60) / 60 = d / 60 /\ (d - d mod 60) mod 60 = 0.
Proof.
  pose proof (Z.div_mod d 60 ltac:(lia)) as H.
  replace (d - d mod 60) with (d / 60 * 60) by lia.
  split; [apply Z.div_mul; lia | apply Z.mod_mul; lia].
Qed.

(** X7. A duration with a non-zero day, hour and minute part is shown as
    exactly those three parts; its seconds are not shown, so it reads the
    same as the duration cut down to the whole minute. *)
Theorem format_duration_drops_seconds (d : Z) :
  0 < d / 86400 -> 0 < d / 3600 mod 24 -> 0 < d / 60 mod 60 ->
  Duration.format_duration d
  = String.concat ""
      [ (str_int (d / 86400) ++ "天")%string;
        (str_int (d / 3600 mod 24) ++ "小时")%string;
        (str_int (d / 60 mod 60) ++ "分")%string ]
  /\ Duration.format_duration (d - d mod 60) = Duration.format_duration d.
Proof.
  intros Hd Hh Hm.
  assert (F : forall x, 0 <= x -> 0 < x / 86400 -> 0 < x / 3600 mod 24 ->
                        0 < x / 60 mod 60 ->
              Duration.format_duration x
              = String.concat ""
                  [ (str_int (x / 86400) ++ "天")%string;
                    (str_int (x / 3600 mod 24) ++ "小时")%string;
                    (str_int (x / 60 mod 60) ++ "分")%string ]).
  { intros x Hx H1 H2 H3. unfold Duration.format_duration.
    destruct (Z.ltb_spec x 0) as [?|_]; [lia|].
    rewrite hours_of_day, minutes_of_hour, !Z.gtb_ltb.
    destruct (Z.ltb_spec 0 (x / 86400)); [|lia].
    destruct (Z.ltb_spec 0 (x / 3600 mod 24)); [|lia].
    destruct (Z.ltb_spec 0 (x / 60 mod 60)); [|lia].
    cbn [app is_empty orb]. now destruct (0 <? x mod 60). }
  assert (Hpos : 0 <= d).
  { destruct (Z.lt_ge_cases d 0) as [Hn|]; [|assumption].
    pose proof (Z.div_lt_upper_bound d 86400 0 ltac:(lia) ltac:(lia)). lia. }
  destruct (floor_to_minute d) as [E60 E0].
  assert (E3600 : (d - d mod 60) / 3600 = d / 3600).
  { replace 3600 with (60 * 60) by reflexivity.
    rewrite <- !Z.div_div by lia. now rewrite E60. }
  assert (E86400 : (d - d mod 60) / 86400 = d / 86400).
  { replace 86400 with (60 * 1440) by reflexivity.
    rewrite <- !Z.div_div by lia. now rewrite E60. }
  split; [now apply F|].
  rewrite (F d Hpos Hd Hh Hm).
  rewrite (F (d - d mod 60)); rewrite ?E86400, ?E3600, ?E60; try assumption.
  - reflexivity.
  - pose proof (Z.mod_pos_bound d 60 ltac:(lia)).
    pose proof (Z.div_mod d 60 ltac:(lia)).
    assert (0 <= d / 60) by (apply Z.div_pos; lia). lia.
Qed.

(** X7 on 1 day, 1 hour, 1 minute and 1 second. *)
Lemma format_duration_drops_seconds_witness :
  Duration.format_duration 90061 = "1天1小时1分"
  /\ Duration.format_duration (90061 - 90061 mod 60) = Duration.format_duration 90061.
Proof.
  exact (format_duration_drops_seconds 90061 eq_refl eq_refl eq_refl).
Defined.

(* ================================================================== *)
(** * The fonts of [__init__] *)
(* ================================================================== *)

(** X8. [__init__] loads its five fonts all or nothing.  Either each of the
    five [truetype] calls succeeded and the generator holds their results;
    or a call raised [OSError] and the constructor still returns, with the
    default font in all five roles, also those whose file had loaded; or a
    call raised an exception of another class and the constructor raises
    that exception, having caught nothing. *)
Theorem init_fonts_all_or_default (truetype : string -> Z -> result Image.font) :
  (exists fb ft fm fs fv self,
     truetype "msyh.ttc" 30 = Ok fb /\ truetype "msyh.ttc" 18 = Ok ft
     /\ truetype "msyh.ttc" 15 = Ok fm /\ truetype "msyh.ttc" 12 = Ok fs
     /\ truetype "msyhbd.ttc" 15 = Ok fv
     /\ Image.__init__ truetype = Ok self
     /\ Image.font_bold self = fb /\ Image.font_title self = ft
     /\ Image.font_main self = fm /\ Image.font_small self = fs
     /\ Image.font_value self = fv)
  \/ (exists file size msg self,
        In (file, size) [("msyh.ttc", 30); ("msyh.ttc", 18); ("msyh.ttc", 15);
                         ("msyh.ttc", 12); ("msyhbd.ttc", 15)]
        /\ truetype file size = Raise (OSError msg)
        /\ Image.__init__ truetype = Ok self
        /\ Image.font_bold self = Image.DefaultFont
        /\ Image.font_title self = Image.DefaultFont
        /\ Image.font_main self = Image.DefaultFont
        /\ Image.font_small self = Image.DefaultFont
        /\ Image.font_value self = Image.DefaultFont)
  \/ (exists file size msg,
        In (file, size) [("msyh.ttc", 30); ("msyh.ttc", 18); ("msyh.ttc", 15);
                         ("msyh.ttc", 12); ("msyhbd.ttc", 15)]
        /\ truetype file size = Raise (Exception msg)
        /\ Image.__init__ truetype = Raise (Exception msg)).
Proof.
  unfold Image.__init__, Image.load_fonts.
  destruct (truetype "msyh.ttc" 30) as [fb|[msg|msg]] eqn:E1;
    cbn [bind try_except_OSError].
  2: { right. right. exists "msyh.ttc", 30, msg. repeat split; [cbn; tauto|exact E1]. }
  2: { right. left. exists "msyh.ttc", 30, msg. eexists.
       split; [cbn; tauto|]. split; [exact E1|]. repeat split. }
  destruct (truetype "msyh.ttc" 18) as [ft|[msg|msg]] eqn:E2;
    cbn [bind try_except_OSError].
  2: { right. right. exists "msyh.ttc", 18, msg. repeat split; [cbn; tauto|exact E2]. }
  2: { right. left. exists "msyh.ttc", 18, msg. eexists.
       split; [cbn; tauto|]. split; [exact E2|]. repeat split. }
  destruct (truetype "msyh.ttc" 15) as [fm|[msg|msg]] eqn:E3;
    cbn [bind try_except_OSError].
  2: { right. right. exists "msyh.ttc", 15, msg. repeat split; [cbn; tauto|exact E3]. }
  2: { right. left. exists "msyh.ttc", 15, msg. eexists.
       split; [cbn; tauto|]. split; [exact E3|]. repeat split. }
  destruct (truetype "msyh.ttc" 12) as [fs|[msg|msg]] eqn:E4;
    cbn [bind try_except_OSError].
  2: { right. right. exists "msyh.ttc", 12, msg. repeat split; [cbn; tauto|exact E4]. }
  2: { right. left. exists "msyh.ttc", 12, msg. eexists.
       split; [cbn; tauto|]. split; [exact E4|]. repeat split. }
  destruct (truetype "msyhbd.ttc" 15) as [fv|[msg|msg]] eqn:E5;
    cbn [bind try_except_OSError].
  2: { right. right. exists "msyhbd.ttc", 15, msg. repeat split; [cbn; tauto|exact E5]. }
  2: { right. left. exists "msyhbd.ttc", 15, msg. eexists.
       split; [cbn; tauto|]. split; [exact E5|]. repeat split. }
  left. exists fb, ft, fm, fs, fv. eexists. repeat split.
Qed.

(* ================================================================== *)
(** * The cards of [generate] *)
(* ================================================================== *)

Lemma boxes_app (r : Z) (a b : list Image.op) :
  Layout.boxes r (a ++ b) = Layout.boxes r a ++ Layout.boxes r b.
Proof. apply flat_map_app. Qed.

Lemma for_enumerate_boxes {A : Type} (body : Z -> A -> Image.draw unit) (r : Z) :
  (forall i item u calls, body i item = Ok (u, calls) -> Layout.boxes r calls = []) ->
  forall items i u calls,
    Image.for_enumerate body i items = Ok (u, calls) -> Layout.boxes r calls = [].
Proof.
  intros Hbody. induction items as [|item rest IH]; intros i u calls; cbn [Image.for_enumerate].
  - intros [= _ <-]. reflexivity.
  - intros E. apply dbind_Ok in E. destruct E as (a & c1 & c2 & E1 & E2 & ->).
    rewrite boxes_app, (Hbody _ _ _ _ E1), (IH _ _ _ E2). reflexivity.
Qed.

Lemma info_row_boxes (self : Image.generator) (label value : text) (x y w r : Z)
    (u : unit) (calls : list Image.op) :
  Image._draw_info_row self label value x y w = Ok (u, calls) ->
  Layout.boxes r calls = [].
Proof. intros [= _ <-]. reflexivity. Qed.

Lemma info_row_colored_boxes (self : Image.generator) (label value : text)
    (x y w r : Z) (c : Image.color) (u : unit) (calls : list Image.op) :
  Image._draw_info_row_colored self label value x y w c = Ok (u, calls) ->
  Layout.boxes r calls = [].
Proof. intros [= _ <-]. reflexivity. Qed.

Lemma progress_bar_boxes (self : Image.generator) (label : text) (pct : float)
    (x y w : Z) (c : Image.color) (extra : text) (u : unit) (calls : list Image.op) :
  Image._draw_progress_bar self label pct x y w c extra = Ok (u, calls) ->
  Layout.boxes 10 calls = [].
Proof.
  unfold Image._draw_progress_bar, Image._draw_text, Image.dbind, Image.call,
    Image.lift, Image.ret.
  destruct (truediv pct 100) as [q|e]; [|discriminate].
  destruct (float_of_int _) as [bw|e]; [|discriminate].
  destruct (int_of_float _) as [k|e]; [|discriminate].
  destruct (text_truthy extra); intros [= _ <-]; reflexivity.
Qed.

Lemma mini_progress_boxes (self : Image.generator) (label : text) (pct : float)
    (x y w : Z) (detail : text) (u : unit) (calls : list Image.op) :
  Image._draw_mini_progress self label pct x y w detail = Ok (u, calls) ->
  Layout.boxes 10 calls = [].
Proof.
  unfold Image._draw_mini_progress, Image._draw_text, Image.dbind, Image.call, Image.lift.
  destruct (truediv pct 100) as [q|e]; [|discriminate].
  destruct (float_of_int _) as [bw|e]; [|discriminate].
  destruct (int_of_float _) as [k|e]; [|discriminate].
  intros [= _ <-]. reflexivity.
Qed.

Lemma system_info_boxes (self : Image.generator) (x y w : Z) (d : Image.data)
    (u : unit) (calls : list Image.op) :
  Image._draw_system_info self x y w d = Ok (u, calls) -> Layout.boxes 10 calls = [].
Proof.
  unfold Image._draw_system_info. apply for_enumerate_boxes.
  intros i item u' c. apply info_row_boxes.
Qed.

Lemma resource_usage_boxes (self : Image.generator) (x y w : Z) (d : Image.data)
    (u : unit) (calls : list Image.op) :
  Image._draw_resource_usage self x y w d = Ok (u, calls) -> Layout.boxes 10 calls = [].
Proof.
  unfold Image._draw_resource_usage. intros E.
  apply dbind_Ok in E. destruct E as (a1 & c1 & r1 & E1 & E & ->).
  apply dbind_Ok in E. destruct E as (a2 & c2 & r2 & E2 & E & ->).
  rewrite !boxes_app, (progress_bar_boxes _ _ _ _ _ _ _ _ _ _ E1),
    (progress_bar_boxes _ _ _ _ _ _ _ _ _ _ E2), (info_row_boxes _ _ _ _ _ _ _ _ _ E).
  reflexivity.
Qed.

Lemma monitor_stats_boxes (self : Image.generator) (x y w : Z) (d : Image.data)
    (u : unit) (calls : list Image.op) :
  Image._draw_monitor_stats self x y w d = Ok (u, calls) -> Layout.boxes 10 calls = [].
Proof.
  unfold Image._draw_monitor_stats. intros E.
  apply dbind_Ok in E. destruct E as (a1 & c1 & r1 & E1 & E & ->).
  apply dbind_Ok in E. destruct E as (a2 & c2 & r2 & E2 & E & ->).
  injection E1 as _ <-. injection E2 as _ <-.
  rewrite !boxes_app.
  rewrite (for_enumerate_boxes _ 10 (fun i item u' c => info_row_boxes _ _ _ _ _ _ _ _ _) _ _ _ _ E).
  reflexivity.
Qed.

Lemma message_stats_boxes (self : Image.generator) (x y w : Z) (d : Image.data)
    (u : unit) (calls : list Image.op) :
  Image._draw_message_stats self x y w d = Ok (u, calls) -> Layout.boxes 10 calls = [].
Proof.
  unfold Image._draw_message_stats. apply for_enumerate_boxes.
  intros i [[label value] c] u' calls'. apply info_row_colored_boxes.
Qed.

Lemma bot_status_boxes (self : Image.generator) (x y w : Z) (d : Image.data)
    (u : unit) (calls : list Image.op) :
  Image._draw_bot_status self x y w d = Ok (u, calls) -> Layout.boxes 10 calls = [].
Proof.
  unfold Image._draw_bot_status. apply for_enumerate_boxes.
  intros i [[label value] c] u' calls'. apply info_row_colored_boxes.
Qed.

Lemma plugin_info_boxes (self : Image.generator) (x y w : Z) (d : Image.data)
    (u : unit) (calls : list Image.op) :
  Image._draw_plugin_info self x y w d = Ok (u, calls) -> Layout.boxes 10 calls = [].
Proof.
  unfold Image._draw_plugin_info. apply for_enumerate_boxes.
  intros i [[label value] c] u' calls'. apply info_row_colored_boxes.
Qed.

Lemma disk_info_boxes (self : Image.generator) (x y w : Z) (d : Image.data)
    (u : unit) (calls : list Image.op) :
  Image._draw_disk_info self x y w d = Ok (u, calls) -> Layout.boxes 10 calls = [].
Proof.
  unfold Image._draw_disk_info. destruct (is_empty _).
  - intros [= _ <-]. reflexivity.
  - apply for_enumerate_boxes. intros i disk u' calls'. apply mini_progress_boxes.
Qed.

Lemma boxes_card (x0 y0 x1 y1 : Z) (fill : Image.color) (tx ty : Z) (t : text)
    (f : Image.font) (c : Image.color) (k : list Image.op) :
  Layout.boxes 10 (Image.rounded_rectangle x0 y0 x1 y1 10 fill
                   :: Image.draw_text tx ty t f c :: k)
  = (x0, y0, x1, y1) :: Layout.boxes 10 k.
Proof. reflexivity. Qed.

Ltac content_boxes :=
  repeat match goal with
  | H : Image._draw_system_info _ _ _ _ _ = Ok (_, ?k) |- context [Layout.boxes 10 ?k] =>
      rewrite (system_info_boxes _ _ _ _ _ _ _ H)
  | H : Image._draw_resource_usage _ _ _ _ _ = Ok (_, ?k) |- context [Layout.boxes 10 ?k] =>
      rewrite (resource_usage_boxes _ _ _ _ _ _ _ H)
  | H : Image._draw_monitor_stats _ _ _ _ _ = Ok (_, ?k) |- context [Layout.boxes 10 ?k] =>
      rewrite (monitor_stats_boxes _ _ _ _ _ _ _ H)
  | H : Image._draw_message_stats _ _ _ _ _ = Ok (_, ?k) |- context [Layout.boxes 10 ?k] =>
      rewrite (message_stats_boxes _ _ _ _ _ _ _ H)
  | H : Image._draw_bot_status _ _ _ _ _ = Ok (_, ?k) |- context [Layout.boxes 10 ?k] =>
      rewrite (bot_status_boxes _ _ _ _ _ _ _ H)
  | H : Image._draw_disk_info _ _ _ _ _ = Ok (_, ?k) |- context [Layout.boxes 10 ?k] =>
      rewrite (disk_info_boxes _ _ _ _ _ _ _ H)
  | H : Image._draw_plugin_info _ _ _ _ _ = Ok (_, ?k) |- context [Layout.boxes 10 ?k] =>
      rewrite (plugin_info_boxes _ _ _ _ _ _ _ H)
  end.

Lemma Ok_inj {A : Type} (a b : A) : Ok a = Ok b -> a = b.
Proof. now intros [= ->]. Qed.

(** X9. When [generate] returns an image, the rectangles of corner radius
    10 on it are the seven cards and nothing else: four in the left column
    and three in the right, 12 apart, the Disk Space card of height
    h = max(35 * min(n, 5) + 55, 90) and the Plugin card below it.  Every
    card lies on the canvas, and no two cards touch. *)
Theorem generate_draws_seven_cards
    (truetype : string -> Z -> result Image.font) (self : Image.generator)
    (now : string) (d : Image.data) (img : Image.image) :
  Image.__init__ truetype = Ok self ->
  snd (Image.generate self now d) = Ok img ->
  let n := Z.of_nat (List.length (get (Image.disks d) [])) in
  let h := Z.max (35 * Z.min n 5 + 55) 90 in
  Layout.boxes 10 (Image.drawn img)
  = [ (25, 80, 537, 260); (25, 272, 537, 437); (25, 449, 537, 644);
      (25, 656, 537, 761); (562, 80, 1074, 275); (562, 287, 1074, 287 + h);
      (562, 299 + h, 1074, 404 + h) ]
  /\ Forall (Layout.inside (fst (Image.size img)) (snd (Image.size img)))
            (Layout.boxes 10 (Image.drawn img))
  /\ ForallOrdPairs Layout.apart (Layout.boxes 10 (Image.drawn img)).
Proof.
  intros Hself.
  destruct (init_Ok _ _ Hself) as (fb & ft & fm & fs & fv & _ & ->).
  unfold Image.generate.
  set (n := Z.of_nat (List.length (get (Image.disks d) []))).
  cbn [fst snd Image.set_height Image.width Image.height Image.bg_color].
  match goal with
  | |- match ?m with _ => _ end = _ -> _ =>
      destruct m as [[u calls]|ex] eqn:E
  end; [|discriminate].
  intros Himg. apply Ok_inj in Himg. subst img.
  cbn [Image.drawn Image.size fst snd]. cbn zeta.
  do 8 next_bind E.
  injection E as _ <-. injection E0 as _ <-.
  change ((1100 - 25 * 3) / 2) with 512 in *.
  change (25 * 2 + 512) with 562 in *.
  set (h := Z.max (35 * Z.min n 5 + 55) 90) in *.
  match goal with
  | |- ?L = ?R /\ _ => assert (Hlist : L = R)
  end.
  { rewrite !boxes_app, !boxes_card. content_boxes.
    cbn [app Layout.boxes flat_map].
    repeat match goal with
           | |- _ :: _ = _ :: _ => f_equal
           | |- (_, _) = (_, _) => f_equal
           end; lia. }
  split; [exact Hlist|]. rewrite Hlist.
  assert (Hh : 90 <= h <= 230) by (unfold h; lia).
  assert (Hn : 0 <= n) by (unfold n; lia).
  split.
  - repeat apply Forall_cons; try apply Forall_nil; unfold Layout.inside; lia.
  - repeat (apply FOP_cons; [repeat apply Forall_cons; try apply Forall_nil|]);
      try apply FOP_nil; unfold Layout.apart; lia.
Qed.

(** X9 on the empty dict, with no font file: the image is drawn from the
    defaults, and the Disk Space card has its least height, 90. *)
Lemma generate_draws_seven_cards_witness :
  exists self img,
    Image.__init__ (fun _ _ => Raise (OSError "cannot open resource")) = Ok self
    /\ snd (Image.generate self "2026-01-01 00:00:00" Examples.blank) = Ok img
    /\ Layout.boxes 10 (Image.drawn img)
       = [ (25, 80, 537, 260); (25, 272, 537, 437); (25, 449, 537, 644);
           (25, 656, 537, 761); (562, 80, 1074, 275); (562, 287, 1074, 377);
           (562, 389, 1074, 494) ].
Proof.
  do 2 eexists. split; [reflexivity|].
  refine ((fun H =>
             conj H (proj1 (generate_draws_seven_cards
                              (fun _ _ => Raise (OSError "cannot open resource"))
                              _ _ _ _ eq_refl H))) _).
  vm_compute; reflexivity.
Defined.

(* ================================================================== *)
(** * The rows of the Disk Space card *)
(* ================================================================== *)

Lemma mini_progress_rows (self : Image.generator) (label : text) (pct : float)
    (x y w : Z) (detail : text) (u : unit) (calls : list Image.op) :
  Image._draw_mini_progress self label pct x y w detail = Ok (u, calls) ->
  exists filled,
    Layout.boxes 3 calls
    = [ (x + 30, y + 2, x + 30 + (w - 30 - 110), y + 14);
        (x + 30, y + 2, x + 30 + Z.max filled 4, y + 14) ].
Proof.
  unfold Image._draw_mini_progress, Image._draw_text, Image.dbind, Image.call, Image.lift.
  destruct (truediv pct 100) as [q|e]; [|discriminate].
  destruct (float_of_int _) as [bw|e]; [|discriminate].
  destruct (int_of_float _) as [k|e]; [|discriminate].
  intros [= _ <-]. exists k. reflexivity.
Qed.

Lemma for_enumerate_rows {A : Type} (body : Z -> A -> Image.draw unit)
    (r : Z) (k : nat) (P : Z -> Layout.box -> Prop) :
  (forall i item u calls, body i item = Ok (u, calls) ->
     List.length (Layout.boxes r calls) = k /\ Forall (P i) (Layout.boxes r calls)) ->
  forall items i0 u calls,
    Image.for_enumerate body i0 items = Ok (u, calls) ->
    List.length (Layout.boxes r calls) = (k * List.length items)%nat
    /\ Forall (fun b => exists i, i0 <= i < i0 + Z.of_nat (List.length items) /\ P i b)
              (Layout.boxes r calls).
Proof.
  intros Hbody. induction items as [|item rest IH]; intros i0 u calls; cbn [Image.for_enumerate].
  - intros [= _ <-]. split; [cbn; lia|constructor].
  - intros E. apply dbind_Ok in E. destruct E as (a & c1 & c2 & E1 & E2 & ->).
    destruct (Hbody _ _ _ _ E1) as [L1 F1]. destruct (IH _ _ _ E2) as [L2 F2].
    rewrite boxes_app, length_app, L1, L2. split; [cbn [List.length]; lia|].
    apply Forall_app. split.
    + eapply Forall_impl; [|exact F1]. intros b Hb. exists i0.
      split; [cbn [List.length]; lia|exact Hb].
    + eapply Forall_impl; [|exact F2]. intros b (i & Hi & Hb). exists i.
      split; [cbn [List.length]; lia|exact Hb].
Qed.

(** X10. When [_draw_disk_info] returns, it has drawn two bars of corner
    radius 3 for each of the first five disk entries and none for a later
    one.  Every bar starts 30 right of the content origin, is 12 high, and
    ends at least 42 above the bottom of a card of the height [generate]
    gives the Disk Space card, so no row leaves the card; the track of a
    row ends 125 left of the content width, and its fill is at least 4
    wide. *)
Theorem disk_rows_stay_in_card
    (self : Image.generator) (x y w : Z) (d : Image.data)
    (u : unit) (calls : list Image.op) :
  Image._draw_disk_info self x y w d = Ok (u, calls) ->
  let n := List.length (get (Image.disks d) []) in
  List.length (Layout.boxes 3 calls) = (2 * Nat.min 5 n)%nat
  /\ Forall (fun b : Layout.box =>
               let '(x0, y0, x1, y1) := b in
               x0 = x + 30 /\ y + 2 <= y0 /\ y1 = y0 + 12
               /\ y1 + 42 <= y + Z.max (35 * Z.min (Z.of_nat n) 5 + 55) 90
               /\ (x1 = x + w - 125 \/ x0 + 4 <= x1))
            (Layout.boxes 3 calls).
Proof.
  unfold Image._draw_disk_info.
  destruct (get (Image.disks d) []) as [|d0 rest] eqn:Ed; cbn [is_empty].
  - intros [= <- <-]. cbn. split; [reflexivity|constructor].
  - intros E. cbn zeta.
    apply (for_enumerate_rows _ 3 2%nat
             (fun i b => let '(x0, y0, x1, y1) := b in
                         x0 = x + 30 /\ y0 = y + i * 32 + 2 /\ y1 = y0 + 12
                         /\ (x1 = x + w - 125 \/ x0 + 4 <= x1))) in E.
    + destruct E as [L F]. rewrite length_firstn in L, F. split; [exact L|].
      eapply Forall_impl; [|exact F].
      intros [[[x0 y0] x1] y1] (i & Hi & -> & -> & -> & Hx).
      repeat split; lia.
    + intros i disk u' c Hc. apply mini_progress_rows in Hc. destruct Hc as [filled ->].
      split; [reflexivity|].
      repeat apply Forall_cons; try apply Forall_nil; repeat split; lia.
Qed.

(** X10 on a dict of two disk entries, at the place [generate] gives the
    content of the Disk Space card. *)
Lemma disk_rows_stay_in_card_witness :
  exists self calls,
    Image.__init__ (fun _ _ => Raise (OSError "cannot open resource")) = Ok self
    /\ Image._draw_disk_info self 580 329 476 Examples.two_disks = Ok (tt, calls)
    /\ List.length (Layout.boxes 3 calls) = 4%nat.
Proof.
  do 2 eexists. split; [reflexivity|].
  refine ((fun H => conj H (proj1 (disk_rows_stay_in_card _ _ _ _ _ _ _ H))) _).
  vm_compute; reflexivity.
Defined.

(* ================================================================== *)
(** * The [status] command when collection fails or keys are unset *)
(* ================================================================== *)

Lemma get_disk_info_total (parts : result (list Disk.sdiskpart))
    (usage : string -> result Disk.sdiskusage) :
  exists disks, Disk.get_disk_info parts usage = Ok disks
                /\ (forall ex, parts = Raise ex -> disks = []).
Proof.
  destruct parts as [l|ex].
  - eexists. split; [unfold Disk.get_disk_info; cbn [bind];
                     rewrite loop_contributions; reflexivity|discriminate].
  - exists []. split; [reflexivity|reflexivity].
Qed.

(** X11. When the two conversions of a duration to [int] succeed and the
    two memory figures are below 2^1053 bytes, so that they have a value in
    GB, the [status] command returns with the success flag set and has sent
    something, whatever the partition listing, the disk usage, the process
    lookup, the platform description, the fonts, the encoder and
    [send_image] do: a failed partition listing gives an empty disk list; a
    failed process lookup gives the PID N/A, 0 MB, 0 threads and the uptime
    of zero seconds; and off Windows a failed platform description gives
    the bare release as the full OS version. *)
Theorem status_survives_collection_failures (e : Status.env) :
  (exists b, int_of_float (Status.time_time e - Status.psutil_boot_time e)%float = Ok b) ->
  (forall p, Status.psutil_process e = Ok p ->
             exists u, int_of_float (Status.clock p - Status.create_time p)%float = Ok u) ->
  Z.abs (Status.ram_used e) < 2 ^ 1053 ->
  Z.abs (Status.ram_total e) < 2 ^ 1053 ->
  exists d sent msg,
    Status.collect e = Ok d
    /\ Status.execute e = Ok (sent, (true, msg, true))
    /\ sent <> []
    /\ (forall ex, Status.disk_partitions e = Raise ex -> Image.disks d = Some [])
    /\ (forall ex, Status.psutil_process e = Raise ex ->
          Image.bot_pid d = Some (VStr "N/A")
          /\ Image.bot_memory_mb d = Some 0%float
          /\ Image.bot_threads d = Some 0
          /\ Image.bot_uptime d = Some "0秒")
    /\ (forall ex, Status.platform_system e <> "Windows" ->
          Status.platform_platform e = Raise ex ->
          Image.os_full_version d = Some (Status.platform_release e)).
Proof.
  intros [b Hb] Hp Hused Htotal.
  destruct (gigabytes_defined _ Hused) as [ru Hru].
  destruct (gigabytes_defined _ Htotal) as [rt Hrt].
  destruct (get_disk_info_total (Status.disk_partitions e) (Status.disk_usage e))
    as (disks & Hd & Hd0).
  assert (Hu : exists u,
             match Status.get_bot_process_info e with
             | Some i => int_of_float (Status.i_uptime i)
             | None => Ok 0
             end = Ok u
             /\ (forall ex, Status.psutil_process e = Raise ex -> u = 0)).
  { unfold Status.get_bot_process_info.
    destruct (Status.psutil_process e) as [p|ex] eqn:E; cbn [bind].
    - destruct (int_truediv (Status.rss p) 1024) as [kb|ex]; cbn [bind].
      + destruct (Hp p eq_refl) as [u Hu]. exists u. split; [exact Hu|discriminate].
      + exists 0. split; [reflexivity|discriminate].
    - exists 0. split; reflexivity. }
  destruct Hu as (u & Hu & Hu0).
  assert (Hc : exists d, Status.collect e = Ok d
           /\ Image.disks d = Some disks
           /\ Image.bot_pid d
              = Some (match Status.get_bot_process_info e with
                      | Some i => VInt (Status.i_pid i) | None => VStr "N/A" end)
           /\ Image.bot_memory_mb d
              = Some (match Status.get_bot_process_info e with
                      | Some i => Status.i_memory_mb i | None => 0%float end)
           /\ Image.bot_threads d
              = Some (match Status.get_bot_process_info e with
                      | Some i => Status.i_threads i | None => 0 end)
           /\ Image.bot_uptime d = Some (Duration.format_duration u)
           /\ Image.os_full_version d = Some (Status.get_full_os_version e)).
  { unfold Status.collect. rewrite Hb. cbn [bind].
    rewrite !gb_gigabytes, Hru, Hrt. cbn [bind]. rewrite Hd. cbn [bind].
    rewrite Hu. cbn [bind]. destruct (Status.version_info e) as [[major minor] micro].
    eexists. split; [reflexivity|]. cbn. repeat split. }
  destruct Hc as (d & Hc & Hdk & Hpid & Hmem & Hthr & Hup & Hos).
  exists d.
  assert (Hr : exists sent msg, Status.respond e d = (sent, (true, msg, true)) /\ sent <> []).
  { unfold Status.respond. destruct (Status.IMAGE_GENERATOR_AVAILABLE e).
    - destruct (Status.send_status_image e d) as [b64|ex].
      + do 2 eexists. split; [reflexivity|discriminate].
      + do 2 eexists. split; [reflexivity|discriminate].
    - do 2 eexists. split; [reflexivity|discriminate]. }
  destruct Hr as (sent & msg & Hr & Hne). exists sent, msg.
  split; [exact Hc|]. split; [unfold Status.execute; rewrite Hc; cbn [bind]; now rewrite Hr|].
  split; [exact Hne|]. split; [|split].
  - intros ex Hex. rewrite Hdk, (Hd0 ex Hex). reflexivity.
  - intros ex Hex. rewrite Hpid, Hmem, Hthr, Hup, (Hu0 ex Hex).
    unfold Status.get_bot_process_info. rewrite Hex. cbn [bind]. repeat split.
  - intros ex Hw Hex. rewrite Hos. unfold Status.get_full_os_version.
    destruct (String.eqb_spec (Status.platform_system e) "Windows") as [Heq|_]; [easy|].
    rewrite Hex. reflexivity.
Qed.

(** X11 on a host where all three fail. *)
Lemma status_survives_collection_failures_witness :
  exists d sent msg,
    Status.collect Examples.degraded_env = Ok d
    /\ Status.execute Examples.degraded_env = Ok (sent, (true, msg, true))
    /\ sent <> []
    /\ Image.disks d = Some []
    /\ Image.bot_pid d = Some (VStr "N/A")
    /\ Image.bot_memory_mb d = Some 0%float
    /\ Image.bot_threads d = Some 0
    /\ Image.bot_uptime d = Some "0秒"
    /\ Image.os_full_version d = Some "6.1.0".
Proof.
  destruct (status_survives_collection_failures Examples.degraded_env
              (ex_intro _ 10000 eq_refl)
              (fun p (H : Status.psutil_process Examples.degraded_env = Ok p) =>
                 match H in _ = r return
                   match r with Ok _ => _ | Raise _ => True end with eq_refl => I end)
              eq_refl eq_refl)
    as (d & sent & msg & Hc & He & Hne & Hd & Hp & Ho).
  exists d, sent, msg. split; [exact Hc|]. split; [exact He|]. split; [exact Hne|].
  split; [exact (Hd _ eq_refl)|].
  destruct (Hp _ eq_refl) as (H1 & H2 & H3 & H4).
  repeat split; try assumption.
  apply (Ho (Exception "platform")); [discriminate|reflexivity].
Defined.

Lemma collect_unset_keys (e : Status.env) (d : Image.data) :
  Status.collect e = Ok d ->
  Image.monitor_running d = None
  /\ Image.monitor_duration d = None
  /\ Image.total_restarts d = None
  /\ Image.memory_leak_restarts d = None
  /\ Image.crash_count d = None
  /\ Image.auto_restart_interval d = None
  /\ Image.total_messages_24h d = None
  /\ Image.bot_messages_24h d = None
  /\ Image.bot_status d = Some "运行中".
Proof. collected. Qed.

(** X12. The snapshot of the [status] command never sets the keys of the
    Monitor Stats and Message Stats cards, so on every dashboard the
    command draws these cards show the defaults: the monitor as not
    running, in the danger colour, no duration, three zero counters and
    the timed restart as off; zero received and zero sent messages.  The
    Bot Status card starts with the status the command hard-codes, in the
    success colour. *)
Theorem status_dashboard_unset_cards (e : Status.env) (d : Image.data)
    (self : Image.generator) (x y w : Z) :
  Status.collect e = Ok d ->
  Image._draw_monitor_stats self x y w d
  = Ok (tt,
        [ Image.draw_text x y [Lit "监控程序"]
            (Image.font_main self) (Image.text_color self);
          Image.draw_text (x + 85) y [Lit "未运行"]
            (Image.font_value self) (Image.danger_color self);
          Image.draw_text x (y + 28 + 0 * 28) [Lit "监控时长"]
            (Image.font_main self) (Image.text_color self);
          Image.draw_text (x + 85) (y + 28 + 0 * 28) [FStr "N/A"]
            (Image.font_value self) (Image.value_color self);
          Image.draw_text x (y + 28 + 1 * 28) [Lit "重启次数"]
            (Image.font_main self) (Image.text_color self);
          Image.draw_text (x + 85) (y + 28 + 1 * 28) [FInt 0]
            (Image.font_value self) (Image.value_color self);
          Image.draw_text x (y + 28 + 2 * 28) [Lit "内存重启"]
            (Image.font_main self) (Image.text_color self);
          Image.draw_text (x + 85) (y + 28 + 2 * 28) [FInt 0]
            (Image.font_value self) (Image.value_color self);
          Image.draw_text x (y + 28 + 3 * 28) [Lit "崩溃计数"]
            (Image.font_main self) (Image.text_color self);
          Image.draw_text (x + 85) (y + 28 + 3 * 28) [FInt 0]
            (Image.font_value self) (Image.value_color self);
          Image.draw_text x (y + 28 + 4 * 28) [Lit "定时重启"]
            (Image.font_main self) (Image.text_color self);
          Image.draw_text (x + 85) (y + 28 + 4 * 28) [Lit "已关闭"]
            (Image.font_value self) (Image.value_color self) ])
  /\ Image._draw_message_stats self x y w d
     = Ok (tt,
           [ Image.draw_text x (y + 0 * 28) [Lit "接收消息"]
               (Image.font_main self) (Image.text_color self);
             Image.draw_text (x + 85) (y + 0 * 28) [FInt 0]
               (Image.font_value self) (Image.cyan_color self);
             Image.draw_text x (y + 1 * 28) [Lit "发送消息"]
               (Image.font_main self) (Image.text_color self);
             Image.draw_text (x + 85) (y + 1 * 28) [FInt 0]
               (Image.font_value self) (Image.purple_color self) ])
  /\ exists rest,
       Image._draw_bot_status self x y w d
       = Ok (tt,
             Image.draw_text x (y + 0 * 28) [Lit "运行状态"]
               (Image.font_main self) (Image.text_color self)
             :: Image.draw_text (x + 85) (y + 0 * 28) [FStr "运行中"]
                  (Image.font_value self) (Image.success_color self)
             :: rest).
Proof.
  intros H.
  destruct (collect_unset_keys e d H)
    as (H1 & H2 & H3 & H4 & H5 & H6 & H7 & H8 & H9).
  unfold Image._draw_monitor_stats, Image._draw_message_stats, Image._draw_bot_status.
  rewrite H1, H2, H3, H4, H5, H6, H7, H8, H9.
  split; [reflexivity|]. split; [reflexivity|].
  eexists. cbn. reflexivity.
Qed.

(** X12 on the example host, at the place [generate] gives the content of
    the Monitor Stats card. *)
Lemma status_dashboard_unset_cards_witness :
  exists d self,
    Status.collect (Status.example_env true) = Ok d
    /\ Image.__init__ (Status.truetype (Status.example_env true)) = Ok self
    /\ In (Image.draw_text 128 491 [Lit "未运行"] Image.DefaultFont (255, 99, 99))
          match Image._draw_monitor_stats self 43 491 476 d with
          | Ok (_, calls) => calls
          | Raise _ => []
          end.
Proof.
  destruct (Status.collect (Status.example_env true)) as [d|ex] eqn:E;
    [|vm_compute in E; discriminate].
  exists d. eexists. split; [reflexivity|]. split; [reflexivity|].
  match goal with
  | |- context [Image._draw_monitor_stats ?self _ _ _ _] =>
      destruct (status_dashboard_unset_cards (Status.example_env true) d
                  self 43 491 476 E) as (Hm & _ & _)
  end.
  rewrite Hm. right. left. reflexivity.
Defined.
